(** * backend/server.py: a shallow embedding of the request handlers

    The server is a Flask application with four groups of handlers: PDF
    text extraction followed by question generation, answer evaluation,
    a free-text query, and CRUD over discussion threads kept in a
    MongoDB collection.  This file embeds the handlers as functions over
    explicit state (temp files and their registry, the thread
    collection), with the results of the external collaborators (PDF
    reader, generation client, uuid4, the clock) passed in.

    Conventions.
    - A Python [str] whose code points are below 256 is the [string] of
      those code points.
    - A Python [int] is a [Z].
    - An exception is a value of [exn]; a [try]/[except] is a match on
      [outcome]. *)

From Stdlib Require Import ZArith String Ascii List Lia Bool.
From stdpp Require Import base list strings gmap.

Local Open Scope Z_scope.

(** ** Python strings *)

Module PyStr.

(** [str.isspace] on one code point below 256. *)
Definition is_space (c : ascii) : bool :=
  let n := nat_of_ascii c in
  ((9 <=? n) && (n <=? 13) || (28 <=? n) && (n <=? 32)
   || (n =? 133) || (n =? 160))%nat.

Definition is_digit (c : ascii) : bool :=
  let n := nat_of_ascii c in ((48 <=? n) && (n <=? 57))%nat.

Definition digit_val (c : ascii) : Z := Z.of_nat (nat_of_ascii c) - 48.

Definition is_upper (c : ascii) : bool :=
  let n := nat_of_ascii c in ((65 <=? n) && (n <=? 90))%nat.

Definition is_alpha (c : ascii) : bool :=
  let n := nat_of_ascii c in
  ((65 <=? n) && (n <=? 90) || (97 <=? n) && (n <=? 122))%nat.

Definition chars (s : string) : list ascii := list_ascii_of_string s.
Definition of_chars (l : list ascii) : string := string_of_list_ascii l.

Definition len (s : string) : Z := Z.of_nat (String.length s).

(** [s.lstrip()], [s.rstrip()], [s.strip()] *)
Fixpoint lstrip (s : string) : string :=
  match s with
  | String c r => if is_space c then lstrip r else s
  | EmptyString => EmptyString
  end.

Fixpoint rstrip (s : string) : string :=
  match s with
  | String c r =>
      match rstrip r with
      | EmptyString => if is_space c then EmptyString else String c EmptyString
      | r' => String c r'
      end
  | EmptyString => EmptyString
  end.

Definition strip (s : string) : string := rstrip (lstrip s).

(** [s.find(c)] and [s.rfind(c)] for a one-character needle: the index,
    or -1. *)
Fixpoint find (c : ascii) (s : string) : Z :=
  match s with
  | EmptyString => -1
  | String d r =>
      if Ascii.eqb c d then 0
      else let i := find c r in if i <? 0 then -1 else i + 1
  end.

Fixpoint rfind (c : ascii) (s : string) : Z :=
  match s with
  | EmptyString => -1
  | String d r =>
      let i := rfind c r in
      if 0 <=? i then i + 1
      else if Ascii.eqb c d then 0 else -1
  end.

(** [s.split(c)] for a one-character separator. *)
Fixpoint split (c : ascii) (s : string) : list string :=
  match s with
  | EmptyString => [EmptyString]
  | String d r =>
      if Ascii.eqb c d then EmptyString :: split c r
      else match split c r with
           | p :: ps => String d p :: ps
           | [] => [String d EmptyString]
           end
  end.

(** [len(s.split())]: the number of maximal runs of non-space
    characters. *)
Fixpoint count_words_from (in_word : bool) (s : string) : nat :=
  match s with
  | EmptyString => 0
  | String c r =>
      if is_space c then count_words_from false r
      else if in_word then count_words_from true r
           else S (count_words_from true r)
  end.

Definition count_words (s : string) : nat := count_words_from false s.

(** [sep.join(parts)] *)
Fixpoint join (sep : string) (parts : list string) : string :=
  match parts with
  | [] => EmptyString
  | [p] => p
  | p :: ps => p +:+ sep +:+ join sep ps
  end.

Definition lower_char (c : ascii) : ascii :=
  if is_upper c then ascii_of_nat (nat_of_ascii c + 32) else c.

(** [s.lower()], on code points below 128; the only use is on an upload's
    file name before an ASCII suffix test. *)
Fixpoint lower (s : string) : string :=
  match s with
  | EmptyString => EmptyString
  | String c r => String (lower_char c) (lower r)
  end.

Fixpoint startswith (p s : string) : bool :=
  match p, s with
  | EmptyString, _ => true
  | String a p', String b s' => Ascii.eqb a b && startswith p' s'
  | String _ _, EmptyString => false
  end.

(** [s.endswith(p)] *)
Definition endswith (p s : string) : bool :=
  let n := String.length s in
  let k := String.length p in
  (k <=? n)%nat && String.eqb (String.substring (n - k) k s) p.

(** [needle in s] for strings. *)
Fixpoint contains (needle s : string) : bool :=
  startswith needle s ||
  match s with
  | EmptyString => false
  | String _ r => contains needle r
  end.

(** The digits of [int(s)] after the sign: decimal digits, single
    underscores allowed between two digits. *)
Fixpoint parse_digits (acc : Z) (after_digit : bool) (s : string) : option Z :=
  match s with
  | EmptyString => if after_digit then Some acc else None
  | String c r =>
      if is_digit c then parse_digits (acc * 10 + digit_val c) true r
      else if Ascii.eqb c "_" then
             if after_digit then parse_digits acc false r else None
      else None
  end.

(** The white space [int] skips around a numeral: the white space of
    the C locale, and the two code points from 128 to 255 that [int]
    reads as a space.  The separators U+001C to U+001F, which
    [str.strip] drops, are not skipped. *)
Definition is_int_space (c : ascii) : bool :=
  let n := nat_of_ascii c in
  ((9 <=? n) && (n <=? 13) || (n =? 32) || (n =? 133) || (n =? 160))%nat.

Fixpoint int_lstrip (s : string) : string :=
  match s with
  | String c r => if is_int_space c then int_lstrip r else s
  | EmptyString => EmptyString
  end.

Fixpoint int_rstrip (s : string) : string :=
  match s with
  | String c r =>
      match int_rstrip r with
      | EmptyString => if is_int_space c then EmptyString else String c EmptyString
      | r' => String c r'
      end
  | EmptyString => EmptyString
  end.

(** The number of digits of a numeral. *)
Fixpoint count_digits (s : string) : nat :=
  match s with
  | EmptyString => 0
  | String c r => if is_digit c then S (count_digits r) else count_digits r
  end.

(** [sys.int_info.default_max_str_digits]: [int] raises [ValueError] on
    a numeral of more digits.  The server leaves the limit at this
    default. *)
Definition max_str_digits : Z := 4300.

(** The value of the digits after the sign. *)
Definition digits_value (s : string) : option Z :=
  match parse_digits 0 false s with
  | Some n => if Z.of_nat (count_digits s) <=? max_str_digits then Some n else None
  | None => None
  end.

(** [int(s)]: [Some n], or [None] where Python raises [ValueError].
    White space around the numeral is skipped, one sign is allowed. *)
Definition int (s : string) : option Z :=
  match int_rstrip (int_lstrip s) with
  | String "+" r => digits_value r
  | String "-" r => Z.opp <$> digits_value r
  | t => digits_value t
  end.

End PyStr.

(** ** Python sequences *)

(** The bound of a slice: negative indices count from the end, and both
    ends are clamped to the sequence. *)
Definition slice_bound (n i : Z) : Z :=
  if i <? 0 then Z.max 0 (i + n) else Z.min i n.

(** [l[lo:hi]] *)
Definition py_slice {A} (l : list A) (lo hi : Z) : list A :=
  let n := Z.of_nat (length l) in
  let a := slice_bound n lo in
  let b := slice_bound n hi in
  take (Z.to_nat (b - a)) (drop (Z.to_nat a) l).

(** [s[lo:hi]] on a string; [s[:hi]] is [s[0:hi]]. *)
Definition str_slice (s : string) (lo hi : Z) : string :=
  PyStr.of_chars (py_slice (PyStr.chars s) lo hi).

(** ** Python values *)

(** The values the handlers build, receive as JSON bodies and store:
    [None], booleans, integers, strings, lists, dictionaries (in
    insertion order) and the driver's [ObjectId].  Floats, tuples, sets
    and bytes do not occur in any payload the handlers construct. *)
#[warnings="-register-all"] Inductive pyval : Type :=
  | PNone
  | PBool (b : bool)
  | PInt (n : Z)
  | PStr (s : string)
  | PList (items : list pyval)
  | PDict (entries : list (pyval * pyval))
  | PObjectId (oid : string).

(** The number a value counts as under [==]: [True == 1], [False == 0]. *)
Definition as_number (v : pyval) : option Z :=
  match v with
  | PBool b => Some (if b then 1 else 0)
  | PInt n => Some n
  | _ => None
  end.

(** [a == b] *)
Fixpoint py_eqb (a b : pyval) {struct a} : bool :=
  match a, b with
  | PNone, PNone => true
  | PBool x, _ =>
      match as_number b with
      | Some n => (if x then 1 else 0) =? n
      | None => false
      end
  | PInt x, _ =>
      match as_number b with
      | Some n => x =? n
      | None => false
      end
  | PStr x, PStr y => String.eqb x y
  | PObjectId x, PObjectId y => String.eqb x y
  | PList xs, PList ys =>
      (fix all2 (xs ys : list pyval) : bool :=
         match xs, ys with
         | [], [] => true
         | x :: xs', y :: ys' => py_eqb x y && all2 xs' ys'
         | _, _ => false
         end) xs ys
  | PDict kvs, PDict kvs' =>
      (length kvs =? length kvs')%nat &&
      (fix each (kvs : list (pyval * pyval)) : bool :=
         match kvs with
         | [] => true
         | (k, v) :: rest =>
             (fix look (kvs' : list (pyval * pyval)) : bool :=
                match kvs' with
                | [] => false
                | (k', v') :: rest' =>
                    if py_eqb k k' then py_eqb v v' else look rest'
                end) kvs'
             && each rest
         end) kvs
  | _, _ => false
  end.

(** [bool(v)] *)
Definition py_truthy (v : pyval) : bool :=
  match v with
  | PNone => false
  | PBool b => b
  | PInt n => negb (n =? 0)
  | PStr s => negb (String.eqb s EmptyString)
  | PList l => match l with [] => false | _ => true end
  | PDict d => match d with [] => false | _ => true end
  | PObjectId _ => true
  end.

(** [d.get(k)] on the entries of a dictionary. *)
Fixpoint dict_get (k : pyval) (d : list (pyval * pyval)) : option pyval :=
  match d with
  | [] => None
  | (k', v) :: rest => if py_eqb k' k then Some v else dict_get k rest
  end.

(** [d[k] = v]: an existing key keeps its position. *)
Fixpoint dict_set (k v : pyval) (d : list (pyval * pyval))
  : list (pyval * pyval) :=
  match d with
  | [] => [(k, v)]
  | (k', v') :: rest =>
      if py_eqb k' k then (k', v) :: rest else (k', v') :: dict_set k v rest
  end.

(** [del d[k]] when present. *)
Fixpoint dict_remove (k : pyval) (d : list (pyval * pyval))
  : list (pyval * pyval) :=
  match d with
  | [] => []
  | (k', v') :: rest =>
      if py_eqb k' k then rest else (k', v') :: dict_remove k rest
  end.

(** The field [name] of a document or JSON object. *)
Definition field (name : string) (v : pyval) : option pyval :=
  match v with
  | PDict d => dict_get (PStr name) d
  | _ => None
  end.

(** ** Exceptions *)

Inductive exn : Type :=
  | ValueError (msg : string)
  | TypeError (msg : string)
  | KeyError (msg : string)
  | AttributeError (msg : string)
  | OverflowError (msg : string)
  | PermissionError (path : string)
  | FileNotFoundError (path : string)
  | SyntaxError (msg : string)
  | LibraryError (msg : string).   (* raised inside an external library *)

(** [str(e)] *)
Definition str_exn (e : exn) : string :=
  match e with
  | ValueError m | TypeError m | AttributeError m | OverflowError m
  | LibraryError m | SyntaxError m => m
  | KeyError m => "'" +:+ m +:+ "'"
  | PermissionError p => "[Errno 13] Permission denied: '" +:+ p +:+ "'"
  | FileNotFoundError p => "[Errno 2] No such file or directory: '" +:+ p +:+ "'"
  end.

Inductive outcome (A : Type) : Type :=
  | Return (a : A)
  | Raise (e : exn).
Arguments Return {A} a.
Arguments Raise {A} e.

Definition bind {A B} (m : outcome A) (k : A -> outcome B) : outcome B :=
  match m with
  | Return a => k a
  | Raise e => Raise e
  end.

#[export] Instance outcome_ret : MRet outcome := fun A a => Return a.
#[export] Instance outcome_bind : MBind outcome := fun A B k m => bind m k.

(** [try: body  except Exception as e: handler(e)] *)
Definition try_except {A} (body : outcome A) (handler : exn -> A) : A :=
  match body with
  | Return a => a
  | Raise e => handler e
  end.

(** [needle in container] *)
Definition py_in (needle container : pyval) : outcome bool :=
  match container with
  | PDict d =>
      Return (match dict_get needle d with Some _ => true | None => false end)
  | PList l => Return (existsb (py_eqb needle) l)
  | PStr s =>
      match needle with
      | PStr n => Return (PyStr.contains n s)
      | _ => Raise (TypeError "'in <string>' requires string as left operand")
      end
  | _ => Raise (TypeError "argument is not iterable")
  end.

(** [container[name]] for a string subscript. *)
Definition py_getitem (container : pyval) (name : string) : outcome pyval :=
  match container with
  | PDict d =>
      match dict_get (PStr name) d with
      | Some v => Return v
      | None => Raise (KeyError name)
      end
  | PList _ => Raise (TypeError "list indices must be integers or slices, not str")
  | PStr _ => Raise (TypeError "string indices must be integers")
  | _ => Raise (TypeError "object is not subscriptable")
  end.

(** [container[name] = v] *)
Definition py_setitem (container : pyval) (name : string) (v : pyval)
  : outcome pyval :=
  match container with
  | PDict d => Return (PDict (dict_set (PStr name) v d))
  | PList _ => Raise (TypeError "list indices must be integers or slices, not str")
  | _ => Raise (TypeError "object does not support item assignment")
  end.

(** [v.strip()] *)
Definition py_strip (v : pyval) : outcome string :=
  match v with
  | PStr s => Return (PyStr.strip s)
  | _ => Raise (AttributeError "object has no attribute 'strip'")
  end.

(** ** Responses *)

Record response := mk_response { resp_body : pyval; resp_status : Z }.

(** How [json.dumps(..., sort_keys=True)] can order the keys of one
    dictionary: strings among themselves, numbers among themselves, and
    a lone [None]. *)
Definition key_class (k : pyval) : option nat :=
  match k with
  | PStr _ => Some 0%nat
  | PInt _ | PBool _ => Some 1%nat
  | PNone => Some 2%nat
  | _ => None
  end.

Definition keys_sortable (d : list (pyval * pyval)) : bool :=
  match d with
  | [] => true
  | (k, _) :: rest =>
      match key_class k with
      | None => false
      | Some c =>
          forallb (fun kv => match key_class (fst kv) with
                             | Some c' => (c =? c')%nat
                             | None => false
                             end) rest
          && ((c <? 2)%nat || match rest with [] => true | _ => false end)
      end
  end.

(** Whether Flask's default JSON provider serialises the value: an
    [ObjectId] is refused, and so is a dictionary whose keys cannot be
    sorted. *)
Fixpoint serialisable (v : pyval) : bool :=
  match v with
  | PObjectId _ => false
  | PList l =>
      (fix all (l : list pyval) : bool :=
         match l with [] => true | x :: r => serialisable x && all r end) l
  | PDict d =>
      keys_sortable d &&
      (fix all (d : list (pyval * pyval)) : bool :=
         match d with [] => true | (_, x) :: r => serialisable x && all r end) d
  | _ => true
  end.

(** [jsonify(v)]: the payload of the response, or the [TypeError] of the
    serialiser. *)
Definition jsonify (v : pyval) : outcome pyval :=
  if serialisable v then Return v
  else Raise (TypeError "Object is not JSON serializable").

(** [return jsonify(v), status] *)
Definition respond (v : pyval) (status : Z) : outcome response :=
  body ← jsonify v; Return (mk_response body status).

(** [{"error": msg}] *)
Definition error_body (msg : string) : pyval :=
  PDict [(PStr "error", PStr msg)].

(** ** Temp-file manager *)

Inductive log_entry : Type :=
  | LogWarning (msg : string).

(** The part of the process the PDF handler touches: the files on disk
    (path to contents), the paths whose removal the operating system
    refuses, the registry [_temp_files], and the warnings logged. *)
Record files := mk_files {
  disk : gmap string string;
  undeletable : gset string;
  temp_files : list string;
  log : list log_entry
}.

(** [os.path.exists(path)] *)
Definition path_exists (path : string) (st : files) : bool :=
  bool_decide (is_Some (disk st !! path)).

(** [os.unlink(path)]: the disk without the file, or the [OSError]. *)
Definition os_unlink (path : string) (st : files) : outcome (gmap string string) :=
  match disk st !! path with
  | None => Raise (FileNotFoundError path)
  | Some _ =>
      if bool_decide (path ∈ undeletable st) then Raise (PermissionError path)
      else Return (delete path (disk st))
  end.

(** [l.remove(x)]: drops the first occurrence. *)
Fixpoint list_remove (x : string) (l : list string) : list string :=
  match l with
  | [] => []
  | y :: r => if String.eqb x y then r else y :: list_remove x r
  end.

(** [x in l] for a list of strings. *)
Definition list_mem (x : string) (l : list string) : bool :=
  existsb (String.eqb x) l.

(** The [try] block of [cleanup_file]. *)
Definition cleanup_file_try (filepath : string) (st : files) : outcome files :=
  if negb (String.eqb filepath EmptyString) && path_exists filepath st then
    disk' ← os_unlink filepath st;
    Return (mk_files disk' (undeletable st)
              (if list_mem filepath (temp_files st)
               then list_remove filepath (temp_files st)
               else temp_files st)
              (log st))
  else Return st.

(** [cleanup_file(filepath)], with its handler: the result says whether
    the call returns or raises, and gives the state it leaves. *)
Definition cleanup_file (filepath : string) (st : files) : outcome files :=
  match cleanup_file_try filepath st with
  | Return st' => Return st'
  | Raise e =>
      Return (mk_files (disk st) (undeletable st) (temp_files st)
                (log st ++ [LogWarning ("Failed to delete " +:+ filepath
                                        +:+ ": " +:+ str_exn e)]))
  end.

(** The state after a call that returns. *)
Definition after {A} (o : outcome A) (default : A) : A :=
  match o with
  | Return a => a
  | Raise _ => default
  end.

(** ** PDF text extraction *)

(** A page of the document, as the value of [page.extract_text()]: a
    text, or [None] for a page the library decodes nothing from. *)
Abbreviation page := (option string) (only parsing).

(** [page.extract_text() or ''] *)
Definition page_text (p : page) : string :=
  match p with
  | Some s => s
  | None => EmptyString
  end.

(** [start, end = map(int, page_range.split('-'))] *)
Definition unpack_start_end (page_range : string) : outcome (Z * Z) :=
  match PyStr.split "-" page_range with
  | [] => Raise (ValueError "not enough values to unpack (expected 2, got 0)")
  | a :: rest =>
      match PyStr.int a with
      | None => Raise (ValueError "invalid literal for int() with base 10")
      | Some s =>
          match rest with
          | [] => Raise (ValueError "not enough values to unpack (expected 2, got 1)")
          | b :: rest' =>
              match PyStr.int b with
              | None => Raise (ValueError "invalid literal for int() with base 10")
              | Some e =>
                  match rest' with
                  | [] => Return (s, e)
                  | c :: _ =>
                      match PyStr.int c with
                      | None => Raise (ValueError "invalid literal for int() with base 10")
                      | Some _ => Raise (ValueError "too many values to unpack (expected 2)")
                      end
                  end
              end
          end
      end
  end.

(** An opened document, as [PdfReader(f)] returns it.  Its page list
    [reader.pages] is lazy: the pages are counted when the list is
    measured, and a page is read and its text extracted when the page
    is reached.  Each of these can fail. *)
Record pdf_reader := mk_pdf_reader {
  num_pages : outcome nat;             (* counting the pages *)
  extract_text : nat -> outcome page   (* [reader.pages[i].extract_text()] *)
}.

(** [sys.maxsize], the largest value [len] returns. *)
Definition max_ssize : Z := 9223372036854775807.

(** [len(reader.pages)] *)
Definition pages_len (reader : pdf_reader) : outcome nat :=
  n ← num_pages reader;
  if Z.of_nat n <=? max_ssize then Return n
  else Raise (OverflowError "cannot fit 'int' into an index-sized integer").

(** A page list: [reader.pages] itself, or a slice of it, which holds
    the positions it selects. *)
Inductive page_list : Type :=
  | AllPages
  | PageSlice (positions : list nat).

(** [reader.pages[lo:hi]]: the list is measured, no page is read. *)
Definition slice_pages (reader : pdf_reader) (lo hi : Z) : outcome page_list :=
  n ← pages_len reader;
  Return (PageSlice (py_slice (seq 0 n) lo hi)).

(** The pages selected by a range other than ['all']:
    [start, end = map(int, page_range.split('-'))] and then
    [pages[start-1:end]]. *)
Definition select_pages (reader : pdf_reader) (page_range : string)
  : outcome page_list :=
  '(s, e) ← unpack_start_end page_range;
  slice_pages reader (s - 1) e.

(** The page list for a page range: no page work for ['all']. *)
Definition pages_in_range (reader : pdf_reader) (page_range : string)
  : outcome page_list :=
  if String.eqb page_range "all" then Return AllPages
  else select_pages reader page_range.

(** The positions [for page in pages] visits. *)
Definition page_positions (reader : pdf_reader) (pages : page_list)
  : outcome (list nat) :=
  match pages with
  | AllPages => n ← pages_len reader; Return (seq 0 n)
  | PageSlice positions => Return positions
  end.

(** [[page.extract_text() or '' for page in pages]], one page after the
    other: the first failure ends the comprehension. *)
Fixpoint extract_texts (reader : pdf_reader) (positions : list nat)
  : outcome (list string) :=
  match positions with
  | [] => Return []
  | i :: rest =>
      p ← extract_text reader i;
      texts ← extract_texts reader rest;
      Return (page_text p :: texts)
  end.

(** ['\n'.join([page.extract_text() or '' for page in pages])] *)
Definition join_pages (reader : pdf_reader) (pages : page_list)
  : outcome string :=
  positions ← page_positions reader pages;
  texts ← extract_texts reader positions;
  Return (PyStr.join (String "010" EmptyString) texts).

(** What the generation client is asked.  The prompt text is a function
    of these values, so the client's answer is taken as a function of
    them. *)
Inductive prompt : Type :=
  | QuestionPrompt (num_questions : Z) (question_type text : string)
  | EvaluationPrompt (student_answer model_answer : pyval).

Record upload := mk_upload { filename : string; content : string }.

(** The multipart request of [/process-pdf]: [request.files.get('pdf')]
    and the three form fields, each absent or a string. *)
Record pdf_request := mk_pdf_request {
  files_pdf : option upload;
  form_page_range : option string;
  form_num_questions : option string;
  form_question_type : option string
}.

(** The cache of [lru_cache(maxsize=5)]: arguments to result, most
    recently used first. *)
Definition lru := list ((string * string) * string).

Fixpoint lru_lookup (key : string * string) (c : lru) : option string :=
  match c with
  | [] => None
  | (k, v) :: r =>
      if String.eqb (fst k) (fst key) && String.eqb (snd k) (snd key)
      then Some v else lru_lookup key r
  end.

Fixpoint lru_drop (key : string * string) (c : lru) : lru :=
  match c with
  | [] => []
  | (k, v) :: r =>
      if String.eqb (fst k) (fst key) && String.eqb (snd k) (snd key)
      then r else (k, v) :: lru_drop key r
  end.

Definition lru_maxsize : nat := 5.

Section Handlers.

(** The external collaborators. *)
Variable PdfReader : string -> outcome pdf_reader.
Variable generate_content : prompt -> outcome string.
Variable secure_filename : string -> string.
Variable literal_eval : string -> outcome pyval.

(** The body of [extract_text_from_pdf], on the files of [st]. *)
Definition extract_text_from_pdf_body (st : files)
    (filepath page_range : string) : outcome string :=
  match disk st !! filepath with
  | None => Raise (FileNotFoundError filepath)
  | Some bytes =>
      reader ← PdfReader bytes;
      pages ← pages_in_range reader page_range;
      join_pages reader pages
  end.

(** [extract_text_from_pdf] behind its cache: a hit returns the stored
    text, a miss runs the body and stores a result that was returned. *)
Definition extract_text_from_pdf (cache : lru) (st : files)
    (filepath page_range : string) : outcome string * lru :=
  match lru_lookup (filepath, page_range) cache with
  | Some text =>
      (Return text,
       ((filepath, page_range), text) :: lru_drop (filepath, page_range) cache)
  | None =>
      match extract_text_from_pdf_body st filepath page_range with
      | Return text =>
          (Return text, take lru_maxsize (((filepath, page_range), text) :: cache))
      | Raise e => (Raise e, cache)
      end
  end.

(** [int(request.form.get('num_questions', 5))] and the check of
    [question_type]. *)
Definition question_parameters (req : pdf_request) : outcome (Z * string) :=
  n ← match form_num_questions req with
      | None => Return 5
      | Some s =>
          match PyStr.int s with
          | Some n => Return n
          | None => Raise (ValueError "invalid literal for int() with base 10")
          end
      end;
  let question_type := default "MCQ"%string (form_question_type req) in
  if String.eqb question_type "MCQ" || String.eqb question_type "Subjective"
  then Return (n, question_type)
  else Raise (ValueError EmptyString).

(** The value of ["pages_processed"]. *)
Definition pages_processed (page_range : string) : pyval :=
  if String.eqb page_range "all" then PStr "all"
  else PInt (Z.of_nat (length (PyStr.split "-" page_range))).

(** [process_pdf] from the point where the upload is on disk at
    [tmp_path]: the statements of the [try] block after the temp file is
    created.  [Return] is a response returned from inside the block,
    [Raise] an exception that reaches the handler's [except Exception].
    The inner [try] holds the parsing of the range and the slicing of
    the page list; the pages are read after it. *)
Definition process_pdf_saved (req : pdf_request) (file : upload)
    (tmp_path : string) (st : files) : outcome response :=
  match disk st !! tmp_path with
  | None => Return (mk_response (error_body "Failed to save PDF file") 400)
  | Some bytes =>
      if String.eqb bytes EmptyString then
        Return (mk_response (error_body "Failed to save PDF file") 400)
      else
        reader ← PdfReader bytes;
        let page_range := default "all"%string (form_page_range req) in
        match pages_in_range reader page_range with
        | Raise (ValueError _) =>
            Return (mk_response
                      (error_body "Invalid page range format. Use '1-5'") 400)
        | Raise e => Raise e
        | Return pages =>
            text ← join_pages reader pages;
            match question_parameters req with
            | Raise (ValueError _) =>
                Return (mk_response (error_body "Invalid question parameters") 400)
            | Raise e => Raise e
            | Return (num_questions, question_type) =>
                questions ← generate_content
                  (QuestionPrompt num_questions question_type
                     (str_slice text 0 20000));
                respond
                  (PDict
                     [(PStr "questions", PStr questions);
                      (PStr "text", PStr (str_slice text 0 1000));
                      (PStr "metadata",
                       PDict
                         [(PStr "pages_processed", pages_processed page_range);
                          (PStr "word_count",
                           PInt (Z.of_nat (PyStr.count_words text)));
                          (PStr "filename",
                           PStr (secure_filename (filename file)))])])
                  200
            end
        end
  end.

(** [process_pdf]: the response and the state the request leaves.
    [tmp_path] is the name [tempfile.NamedTemporaryFile] picks. *)
Definition process_pdf (req : pdf_request) (tmp_path : string) (st : files)
  : response * files :=
  match files_pdf req with
  | None => (mk_response (error_body "No file uploaded") 400, st)
  | Some file =>
      if String.eqb (filename file) EmptyString then
        (mk_response (error_body "No selected file") 400, st)
      else if negb (PyStr.endswith ".pdf" (PyStr.lower (filename file))) then
        (mk_response (error_body "Only PDF files are allowed") 400, st)
      else
        let st1 := mk_files (<[tmp_path := content file]> (disk st))
                     (undeletable st) (temp_files st ++ [tmp_path]) (log st) in
        let resp :=
          try_except (process_pdf_saved req file tmp_path st1)
            (fun _ => mk_response (error_body "Failed to process PDF") 500) in
        (resp,
         if String.eqb tmp_path EmptyString then st1
         else after (cleanup_file tmp_path st1) st1)
  end.

(** ** Response parser *)

(** The dictionary [parse_json_response] returns from its handler. *)
Definition fallback (e : exn) (text : string) : pyval :=
  PDict [(PStr "score", PInt 0);
         (PStr "feedback", PStr "Could not parse evaluation");
         (PStr "error", PStr (str_exn e));
         (PStr "original_response", PStr text)].

(** The [try] block of [parse_json_response]. *)
Definition parse_json_response_try (text : string) : outcome pyval :=
  let start := PyStr.find "{" text in
  let end_ := PyStr.rfind "}" text + 1 in
  if (start =? -1) || (end_ =? 0) then
    Raise (ValueError "No JSON found in response")
  else
    let json_str := str_slice text start end_ in
    literal_eval json_str.

(** [parse_json_response(text)] *)
Definition parse_json_response (text : string) : pyval :=
  try_except (parse_json_response_try text) (fun e => fallback e text).

(** ** Answer evaluation *)

(** [not data or k1 not in data or k2 not in data] *)
Definition missing_fields (data : pyval) (k1 k2 : string) : outcome bool :=
  if negb (py_truthy data) then Return true
  else
    has1 ← py_in (PStr k1) data;
    if negb has1 then Return true
    else
      has2 ← py_in (PStr k2) data;
      Return (negb has2).

(** The [try] block of [evaluate_answer]: [body] is the result of
    [request.get_json()], [now] the clock's [isoformat()]. *)
Definition evaluate_answer_try (body : outcome pyval) (now : string)
  : outcome response :=
  data ← body;
  missing ← missing_fields data "student_answer" "model_answer";
  if (missing : bool) then
    Return (mk_response (error_body "Missing required fields") 400)
  else
    student ← py_getitem data "student_answer";
    model ← py_getitem data "model_answer";
    text ← generate_content (EvaluationPrompt student model);
    evaluation ← py_setitem (parse_json_response text) "timestamp" (PStr now);
    respond evaluation 200.

(** [evaluate_answer] *)
Definition evaluate_answer (body : outcome pyval) (now : string) : response :=
  try_except (evaluate_answer_try body now)
    (fun e =>
       mk_response
         (PDict [(PStr "score", PInt 0);
                 (PStr "feedback", PStr "Evaluation failed");
                 (PStr "error", PStr (str_exn e));
                 (PStr "timestamp", PStr now)])
         500).

End Handlers.

(** ** Thread store *)

(** The collection [threads]: its documents in natural order. *)
Abbreviation collection := (list pyval) (only parsing).

(** Whether a document matches the query [{"id": thread_id}]: its field
    [id] is that string, or an array with that string among its
    elements. *)
Definition matches_id (thread_id : string) (doc : pyval) : bool :=
  match field "id" doc with
  | Some (PStr s) => String.eqb s thread_id
  | Some (PList l) =>
      existsb (fun x => match x with
                        | PStr s => String.eqb s thread_id
                        | _ => false
                        end) l
  | _ => false
  end.

(** [find_one({"id": thread_id})] *)
Definition find_one (thread_id : string) (coll : collection) : option pyval :=
  List.find (matches_id thread_id) coll.

(** The projection [{"_id": 0}]. *)
Definition without_oid (doc : pyval) : pyval :=
  match doc with
  | PDict d => PDict (dict_remove (PStr "_id") d)
  | _ => doc
  end.

(** [insert_one(document)]: the driver adds [_id] to the caller's
    dictionary when it has none, and stores that document.  The result
    is the caller's dictionary after the call and the collection. *)
Definition insert_one (document : pyval) (oid : string) (coll : collection)
  : pyval * collection :=
  let document' :=
    match document with
    | PDict d =>
        match dict_get (PStr "_id") d with
        | Some _ => document
        | None => PDict (dict_set (PStr "_id") (PObjectId oid) d)
        end
    | _ => document
    end in
  (document', coll ++ [document']).

(** [delete_one({"id": thread_id})]: [deleted_count] and the
    collection. *)
Fixpoint delete_one (thread_id : string) (coll : collection) : Z * collection :=
  match coll with
  | [] => (0, [])
  | doc :: rest =>
      if matches_id thread_id doc then (1, rest)
      else let '(n, rest') := delete_one thread_id rest in (n, doc :: rest')
  end.

(** [$push] of one value to the field [name] of a document: an array
    grows at its end, a missing field becomes a one-element array, any
    other value is refused by the server. *)
Definition push_field (name : string) (v : pyval) (doc : pyval) : outcome pyval :=
  match doc with
  | PDict d =>
      match dict_get (PStr name) d with
      | None => Return (PDict (dict_set (PStr name) (PList [v]) d))
      | Some (PList l) => Return (PDict (dict_set (PStr name) (PList (l ++ [v])) d))
      | Some _ => Raise (LibraryError "The field must be an array")
      end
  | _ => Raise (LibraryError "The field must be an array")
  end.

(** [update_one({"id": thread_id}, {"$push": {"messages": v}})]:
    [modified_count] and the collection. *)
Fixpoint update_one_push (thread_id : string) (v : pyval) (coll : collection)
  : outcome (Z * collection) :=
  match coll with
  | [] => Return (0, [])
  | doc :: rest =>
      if matches_id thread_id doc then
        doc' ← push_field "messages" v doc;
        Return (1, doc' :: rest)
      else
        '(n, rest') ← update_one_push thread_id v rest;
        Return (n, doc :: rest')
  end.

Inductive http_method : Type := GET | POST | PUT | DELETE | OPTIONS.

(** [_build_cors_preflight_response()] (headers are not part of
    [response]). *)
Definition _build_cors_preflight_response : response :=
  mk_response (PDict [(PStr "message", PStr "CORS preflight")]) 200.

(** The answer of the routing layer to a method the route does not
    list. *)
Definition method_not_allowed : response :=
  mk_response (error_body "Method Not Allowed") 405.

(** [server_error], the handler registered for 500. *)
Definition server_error : response :=
  mk_response (error_body "Internal server error") 500.

(** The steps of the [POST] branch of [handle_threads] before the
    insertion: [inl] is a response returned early, [inr] the dictionary
    [new_thread]. *)
Definition new_thread_of (body : outcome pyval) (new_id now : string)
  : outcome (response + pyval) :=
  data ← body;
  missing ← missing_fields data "title" "description";
  if (missing : bool) then
    Return (inl (mk_response (error_body "Missing title or description") 400))
  else
    title ← py_getitem data "title" ≫= py_strip;
    description ← py_getitem data "description" ≫= py_strip;
    Return (inr (PDict [(PStr "id", PStr new_id);
                        (PStr "title", PStr title);
                        (PStr "description", PStr description);
                        (PStr "messages", PList []);
                        (PStr "created_at", PStr now)])).

(** [handle_threads]: [body] is the result of [request.get_json()],
    [new_id] the value of [str(uuid.uuid4())], [now] the clock's
    [isoformat()], [oid] the [ObjectId] the driver generates. *)
Definition handle_threads (method : http_method) (body : outcome pyval)
    (new_id now oid : string) (coll : collection) : response * collection :=
  match method with
  | OPTIONS => (_build_cors_preflight_response, coll)
  | GET =>
      (try_except (respond (PList (map without_oid coll)) 200)
         (fun _ => mk_response (error_body "Failed to fetch threads") 500),
       coll)
  | POST =>
      match new_thread_of body new_id now with
      | Raise _ => (mk_response (error_body "Internal server error") 500, coll)
      | Return (inl early) => (early, coll)
      | Return (inr new_thread) =>
          let '(new_thread', coll') := insert_one new_thread oid coll in
          (try_except (respond new_thread' 201)
             (fun e =>
                mk_response
                  (PDict [(PStr "error", PStr "Internal server error");
                          (PStr "details", PStr (str_exn e))])
                  500),
           coll')
      end
  | _ => (method_not_allowed, coll)
  end.

(** [get_thread] *)
Definition get_thread (method : http_method) (thread_id : string)
    (coll : collection) : response * collection :=
  match method with
  | OPTIONS => (_build_cors_preflight_response, coll)
  | GET =>
      (try_except
         (match find_one thread_id coll with
          | None => Return (mk_response (error_body "Thread not found") 404)
          | Some thread =>
              if py_truthy (without_oid thread) then respond (without_oid thread) 200
              else Return (mk_response (error_body "Thread not found") 404)
          end)
         (fun _ => mk_response (error_body "Internal server error") 500),
       coll)
  | DELETE =>
      let '(deleted_count, coll') := delete_one thread_id coll in
      if deleted_count =? 0 then
        (mk_response (error_body "Thread not found") 404, coll')
      else
        (mk_response (PDict [(PStr "message", PStr "Thread deleted successfully")]) 200,
         coll')
  | _ => (method_not_allowed, coll)
  end.

(** The steps of [add_message] before the update: [inl] is a response
    returned early, [inr] the dictionary [new_message]. *)
Definition new_message_of (thread_id : string) (body : outcome pyval)
    (new_id now : string) (coll : collection) : outcome (response + pyval) :=
  data ← body;
  missing ← missing_fields data "text" "sender";
  if (missing : bool) then
    Return (inl (mk_response (error_body "Missing text or sender") 400))
  else
    match find_one thread_id coll with
    | None => Return (inl (mk_response (error_body "Thread not found") 404))
    | Some thread =>
        if negb (py_truthy thread) then
          Return (inl (mk_response (error_body "Thread not found") 404))
        else
          text ← py_getitem data "text" ≫= py_strip;
          sender ← py_getitem data "sender" ≫= py_strip;
          Return (inr (PDict [(PStr "id", PStr new_id);
                              (PStr "text", PStr text);
                              (PStr "sender", PStr sender);
                              (PStr "timestamp", PStr now);
                              (PStr "pinned", PBool false)]))
    end.

(** [add_message] *)
Definition add_message (method : http_method) (thread_id : string)
    (body : outcome pyval) (new_id now : string) (coll : collection)
  : response * collection :=
  match method with
  | OPTIONS => (_build_cors_preflight_response, coll)
  | POST =>
      match new_message_of thread_id body new_id now coll with
      | Raise _ => (mk_response (error_body "Internal server error") 500, coll)
      | Return (inl early) => (early, coll)
      | Return (inr new_message) =>
          match update_one_push thread_id new_message coll with
          | Raise _ => (mk_response (error_body "Internal server error") 500, coll)
          | Return (modified_count, coll') =>
              (try_except
                 (if modified_count =? 1 then respond new_message 201
                  else Return (mk_response (error_body "Failed to add message") 500))
                 (fun _ => mk_response (error_body "Internal server error") 500),
               coll')
          end
      end
  | _ => (method_not_allowed, coll)
  end.

(** [next((m for m in messages if m['id'] == message_id), None)] *)
Fixpoint first_message (message_id : string) (messages : list pyval)
  : outcome (option pyval) :=
  match messages with
  | [] => Return None
  | m :: rest =>
      id ← py_getitem m "id";
      if py_eqb id (PStr message_id) then Return (Some m)
      else first_message message_id rest
  end.

(** [for m in v]: the elements a value is iterated over. *)
Definition py_iter (v : pyval) : outcome (list pyval) :=
  match v with
  | PList l => Return l
  | PDict d => Return (map fst d)
  | PStr s => Return (map (fun c => PStr (String c EmptyString)) (PyStr.chars s))
  | _ => Raise (TypeError "object is not iterable")
  end.

(** [report_message] *)
Definition report_message (method : http_method) (thread_id message_id : string)
    (coll : collection) : response * collection :=
  match method with
  | OPTIONS => (server_error, coll)   (* the view returns [()] *)
  | POST =>
      (try_except
         (match find_one thread_id coll with
          | None => Return (mk_response (error_body "Thread not found") 404)
          | Some thread =>
              if negb (py_truthy thread) then
                Return (mk_response (error_body "Thread not found") 404)
              else
                messages ← py_getitem thread "messages" ≫= py_iter;
                message ← first_message message_id messages;
                match message with
                | None => Return (mk_response (error_body "Message not found") 404)
                | Some m =>
                    if negb (py_truthy m) then
                      Return (mk_response (error_body "Message not found") 404)
                    else
                      Return (mk_response
                                (PDict [(PStr "status", PStr "Message reported")])
                                200)
                end
          end)
         (fun _ => mk_response (error_body "Internal server error") 500),
       coll)
  | _ => (method_not_allowed, coll)
  end.

(** ** Literal syntax *)

(** [ast.literal_eval] and JSON decoding read the same brace-delimited
    text with different grammars.  Both are given here on a common
    fragment of tokens: brackets, braces, commas, colons, quoted strings
    with one-character escapes, unsigned decimal integers and names.
    A text outside the fragment gets no verdict. *)
Module Literal.

Inductive token : Type :=
  | TLBrace | TRBrace | TLBrack | TRBrack | TComma | TColon
  | TString (quote : ascii) (raw : string)
  | TNumber (digits : string)
  | TName (id : string).

Definition is_blank (c : ascii) : bool :=
  let n := nat_of_ascii c in ((n =? 32) || (n =? 9) || (n =? 10) || (n =? 13))%nat.

Definition is_quote (c : ascii) : bool :=
  Ascii.eqb c "034" || Ascii.eqb c "'".

Definition is_name_start (c : ascii) : bool :=
  PyStr.is_alpha c || Ascii.eqb c "_".

Definition is_name_char (c : ascii) : bool :=
  is_name_start c || PyStr.is_digit c.

(** The longest prefix of characters satisfying [p], and the rest. *)
Fixpoint span (p : ascii -> bool) (s : string) : string * string :=
  match s with
  | String c r =>
      if p c then let '(a, b) := span p r in (String c a, b)
      else (EmptyString, s)
  | EmptyString => (EmptyString, EmptyString)
  end.

(** The body of a string literal up to its closing quote, escapes left
    as written, and the text after the quote. *)
Fixpoint read_string (q : ascii) (s : string) : option (string * string) :=
  match s with
  | EmptyString => None
  | String c r =>
      if Ascii.eqb c q then Some (EmptyString, r)
      else if Ascii.eqb c "\" then
        match r with
        | String d r' =>
            '(body, rest) ← read_string q r';
            Some (String c (String d body), rest)
        | EmptyString => None
        end
      else if (nat_of_ascii c <? 32)%nat then None
      else
        '(body, rest) ← read_string q r;
        Some (String c body, rest)
  end.

Definition starts_with (p : ascii -> bool) (s : string) : bool :=
  match s with
  | String c _ => p c
  | EmptyString => false
  end.

Fixpoint lex (fuel : nat) (s : string) : option (list token) :=
  match fuel with
  | O => None
  | S fuel' =>
      match s with
      | EmptyString => Some []
      | String c r =>
          if is_blank c then lex fuel' r
          else if Ascii.eqb c "{" then cons TLBrace <$> lex fuel' r
          else if Ascii.eqb c "}" then cons TRBrace <$> lex fuel' r
          else if Ascii.eqb c "[" then cons TLBrack <$> lex fuel' r
          else if Ascii.eqb c "]" then cons TRBrack <$> lex fuel' r
          else if Ascii.eqb c "," then cons TComma <$> lex fuel' r
          else if Ascii.eqb c ":" then cons TColon <$> lex fuel' r
          else if is_quote c then
            '(body, rest) ← read_string c r;
            cons (TString c body) <$> lex fuel' rest
          else if PyStr.is_digit c then
            let '(digits, rest) := span PyStr.is_digit s in
            if starts_with (fun d => is_name_char d || Ascii.eqb d ".") rest
            then None
            else if Ascii.eqb c "0" && negb (String.eqb digits "0") then None
            else cons (TNumber digits) <$> lex fuel' rest
          else if is_name_start c then
            let '(id, rest) := span is_name_char s in
            if starts_with is_quote rest then None
            else cons (TName id) <$> lex fuel' rest
          else None
      end
  end.

Definition tokens (s : string) : option (list token) :=
  lex (S (String.length s)) s.

Definition number_value (digits : string) : Z :=
  default 0 (PyStr.parse_digits 0 false digits).

(** Escapes of a Python string literal, on the one-character escapes. *)
Fixpoint py_unescape (raw : string) : option string :=
  match raw with
  | EmptyString => Some EmptyString
  | String c r =>
      if Ascii.eqb c "\" then
        match r with
        | String d r' =>
            c' ← (if Ascii.eqb d "\" then Some "\"%char
                  else if Ascii.eqb d "'" then Some "'"%char
                  else if Ascii.eqb d "034" then Some "034"%char
                  else if Ascii.eqb d "n" then Some "010"%char
                  else if Ascii.eqb d "r" then Some "013"%char
                  else if Ascii.eqb d "t" then Some "009"%char
                  else if Ascii.eqb d "b" then Some "008"%char
                  else if Ascii.eqb d "f" then Some "012"%char
                  else None);
            String c' <$> py_unescape r'
        | EmptyString => None
        end
      else String c <$> py_unescape r
  end.

(** Escapes of a JSON string, on the one-character escapes. *)
Fixpoint json_unescape (raw : string) : option string :=
  match raw with
  | EmptyString => Some EmptyString
  | String c r =>
      if Ascii.eqb c "\" then
        match r with
        | String d r' =>
            c' ← (if Ascii.eqb d "\" then Some "\"%char
                  else if Ascii.eqb d "/" then Some "/"%char
                  else if Ascii.eqb d "034" then Some "034"%char
                  else if Ascii.eqb d "n" then Some "010"%char
                  else if Ascii.eqb d "r" then Some "013"%char
                  else if Ascii.eqb d "t" then Some "009"%char
                  else if Ascii.eqb d "b" then Some "008"%char
                  else if Ascii.eqb d "f" then Some "012"%char
                  else None);
            String c' <$> json_unescape r'
        | EmptyString => None
        end
      else String c <$> json_unescape r
  end.

(** The state of a parse: a value and the tokens after it, a text that
    makes the evaluator raise, or a text outside the fragment. *)
Inductive parsed : Type :=
  | Parsed (v : pyval) (rest : list token)
  | Fails
  | Outside.

(** Lists and dictionaries cannot be dictionary keys. *)
Definition hashable (v : pyval) : bool :=
  match v with
  | PList _ | PDict _ => false
  | _ => true
  end.

(** A Python display.  A name other than a constant makes
    [literal_eval] raise wherever it stands, and so do the end of the
    text inside an open bracket and an unhashable key. *)
Fixpoint py_value (fuel : nat) (toks : list token) : parsed :=
  match fuel with
  | O => Outside
  | S fuel' =>
      match toks with
      | [] => Fails
      | TName id :: rest =>
          if String.eqb id "True" then Parsed (PBool true) rest
          else if String.eqb id "False" then Parsed (PBool false) rest
          else if String.eqb id "None" then Parsed PNone rest
          else if String.eqb id "set" then Outside
          else Fails
      | TNumber digits :: rest => Parsed (PInt (number_value digits)) rest
      | TString _ raw :: rest =>
          match rest with
          | TString _ _ :: _ => Outside
          | _ =>
              match py_unescape raw with
              | Some s => Parsed (PStr s) rest
              | None => Outside
              end
          end
      | TLBrack :: TRBrack :: rest => Parsed (PList []) rest
      | TLBrack :: rest => py_items fuel' rest []
      | TLBrace :: TRBrace :: rest => Parsed (PDict []) rest
      | TLBrace :: rest => py_entries fuel' rest []
      | _ => Outside
      end
  end
with py_items (fuel : nat) (toks : list token) (acc : list pyval) : parsed :=
  match fuel with
  | O => Outside
  | S fuel' =>
      match py_value fuel' toks with
      | Parsed v rest =>
          match rest with
          | TComma :: TRBrack :: rest' => Parsed (PList (acc ++ [v])) rest'
          | TComma :: rest' => py_items fuel' rest' (acc ++ [v])
          | TRBrack :: rest' => Parsed (PList (acc ++ [v])) rest'
          | [] => Fails
          | _ => Outside
          end
      | other => other
      end
  end
with py_entries (fuel : nat) (toks : list token) (acc : list (pyval * pyval))
  : parsed :=
  match fuel with
  | O => Outside
  | S fuel' =>
      match py_value fuel' toks with
      | Parsed k (TColon :: rest) =>
          match py_value fuel' rest with
          | Parsed v rest' =>
              if negb (hashable k) then Fails
              else
                match rest' with
                | TComma :: TRBrace :: rest'' => Parsed (PDict (dict_set k v acc)) rest''
                | TComma :: rest'' => py_entries fuel' rest'' (dict_set k v acc)
                | TRBrace :: rest'' => Parsed (PDict (dict_set k v acc)) rest''
                | [] => Fails
                | _ => Outside
                end
          | other => other
          end
      | Parsed _ [] => Fails
      | Parsed _ _ => Outside
      | other => other
      end
  end.

Inductive verdict : Type :=
  | Value (v : pyval)
  | Raises
  | Unknown.

(** [ast.literal_eval(s)] on the fragment, for a text that does not
    start with white space. *)
Definition literal_eval_fragment (s : string) : verdict :=
  if starts_with is_blank s then Unknown
  else
    match tokens s with
    | None => Unknown
    | Some toks =>
        match py_value (2 * length toks + 2) toks with
        | Parsed v [] => Value v
        | Parsed _ _ => Unknown
        | Fails => Raises
        | Outside => Unknown
        end
    end.

(** An evaluator agrees with the fragment when it gives the fragment's
    verdict wherever there is one. *)
Definition agrees (literal_eval : string -> outcome pyval) : Prop :=
  forall s,
    match literal_eval_fragment s with
    | Value v => literal_eval s = Return v
    | Raises => exists e, literal_eval s = Raise e
    | Unknown => True
    end.

(** An evaluator that agrees with the fragment: it raises where the
    fragment gives no verdict. *)
Definition literal_eval_of_fragment (s : string) : outcome pyval :=
  match literal_eval_fragment s with
  | Value v => Return v
  | Raises => Raise (ValueError "malformed node or string")
  | Unknown => Raise (SyntaxError "invalid syntax")
  end.

(** A JSON value: [Some (v, rest)], or [None] for a text that is not
    JSON or is outside the fragment. *)
Fixpoint json_value (fuel : nat) (toks : list token)
  : option (pyval * list token) :=
  match fuel with
  | O => None
  | S fuel' =>
      match toks with
      | TName id :: rest =>
          if String.eqb id "true" then Some (PBool true, rest)
          else if String.eqb id "false" then Some (PBool false, rest)
          else if String.eqb id "null" then Some (PNone, rest)
          else None
      | TNumber digits :: rest => Some (PInt (number_value digits), rest)
      | TString q raw :: rest =>
          if Ascii.eqb q "034" then
            s ← json_unescape raw; Some (PStr s, rest)
          else None
      | TLBrack :: TRBrack :: rest => Some (PList [], rest)
      | TLBrack :: rest => json_items fuel' rest []
      | TLBrace :: TRBrace :: rest => Some (PDict [], rest)
      | TLBrace :: rest => json_members fuel' rest []
      | _ => None
      end
  end
with json_items (fuel : nat) (toks : list token) (acc : list pyval)
  : option (pyval * list token) :=
  match fuel with
  | O => None
  | S fuel' =>
      match json_value fuel' toks with
      | Some (v, TComma :: rest) => json_items fuel' rest (acc ++ [v])
      | Some (v, TRBrack :: rest) => Some (PList (acc ++ [v]), rest)
      | _ => None
      end
  end
with json_members (fuel : nat) (toks : list token) (acc : list (pyval * pyval))
  : option (pyval * list token) :=
  match fuel with
  | O => None
  | S fuel' =>
      match json_value fuel' toks with
      | Some (PStr k, TColon :: rest) =>
          match json_value fuel' rest with
          | Some (v, TComma :: rest') =>
              json_members fuel' rest' (dict_set (PStr k) v acc)
          | Some (v, TRBrace :: rest') =>
              Some (PDict (dict_set (PStr k) v acc), rest')
          | _ => None
          end
      | _ => None
      end
  end.

(** The object a well-formed JSON text denotes, as [json.loads] builds
    it. *)
Definition json_decode (s : string) : option pyval :=
  toks ← tokens s;
  match json_value (2 * length toks + 2) toks with
  | Some (v, []) => Some v
  | _ => None
  end.

(** The JSON object between the first opening and the last closing
    brace of a text, when the text between them is well-formed JSON. *)
Definition json_between_braces (text : string) : option pyval :=
  let start := PyStr.find "{" text in
  let stop := PyStr.rfind "}" text in
  if (start <? 0) || (stop <? 0) then None
  else json_decode (str_slice text start (stop + 1)).

End Literal.

(** ** Notions used by the properties *)

(** The line separator of the extracted text. *)
Definition newline : string := String "010" EmptyString.

(** A string of decimal digits only. *)
Fixpoint all_digits (s : string) : bool :=
  match s with
  | EmptyString => true
  | String c r => PyStr.is_digit c && all_digits r
  end.

(** [str(n)] for an integer. *)
Definition digit_char (d : Z) : ascii := ascii_of_nat (48 + Z.to_nat d).

Fixpoint decimal_digits (fuel : nat) (n : Z) (acc : string) : string :=
  match fuel with
  | O => acc
  | S fuel' =>
      let acc' := String (digit_char (n mod 10)) acc in
      if n <? 10 then acc' else decimal_digits fuel' (n / 10) acc'
  end.

Definition decimal (n : Z) : string :=
  if n <? 0 then String "-" (decimal_digits (S (Z.to_nat (Z.log2 (- n)))) (- n) EmptyString)
  else decimal_digits (S (Z.to_nat (Z.log2 n))) n EmptyString.

(** The range string ["a-b"]. *)
Definition range_string (a b : Z) : string :=
  decimal a +:+ "-" +:+ decimal b.

(** A page range in the format the handler asks for: two components
    around one dash, each an integer literal. *)
Definition range_format_ok (page_range : string) : bool :=
  match PyStr.split "-" page_range with
  | [a; b] =>
      match PyStr.int a, PyStr.int b with
      | Some _, Some _ => true
      | _, _ => false
      end
  | _ => false
  end.

(** A valid page range for a document of [page_count] pages: ['all'],
    or ["a-b"] with [1 <= a <= b <= page_count]. *)
Definition valid_page_range (page_count : Z) (page_range : string) : Prop :=
  page_range = "all"%string \/
  exists a b, 1 <= a /\ a <= b /\ b <= page_count /\ page_range = range_string a b.

(** No brace pair to scrape: the text has no opening or no closing
    brace. *)
Definition no_braces (text : string) : Prop :=
  PyStr.find "{" text = -1 \/ PyStr.rfind "}" text = -1.

(** The text from the first opening brace to the last closing brace. *)
Definition between_braces (text : string) : string :=
  str_slice text (PyStr.find "{" text) (PyStr.rfind "}" text + 1).

(** Structured decoding of a text fails with [e]: no braces are found,
    or the evaluator raises [e] on the text between them. *)
Definition decoding_fails (literal_eval : string -> outcome pyval)
    (text : string) (e : exn) : Prop :=
  (no_braces text /\ e = ValueError "No JSON found in response") \/
  (~ no_braces text /\ literal_eval (between_braces text) = Raise e).

(** No two threads share an identifier. *)
Definition unique_ids (coll : collection) : Prop :=
  forall thread_id, (length (filter (fun doc => matches_id thread_id doc = true) coll) <= 1)%nat.

(** A thread with the given identifier is in the store. *)
Definition thread_present (thread_id : string) (coll : collection) : Prop :=
  exists doc, doc ∈ coll /\ matches_id thread_id doc = true.

(** The message sequence of a thread. *)
Definition thread_messages (thread : pyval) : list pyval :=
  match field "messages" thread with
  | Some (PList l) => l
  | _ => []
  end.

(** The message carries the given identifier. *)
Definition message_has_id (message_id : string) (m : pyval) : bool :=
  match field "id" m with
  | Some v => py_eqb v (PStr message_id)
  | None => false
  end.

(** The thread has a message with the given identifier. *)
Definition has_message (message_id : string) (thread : pyval) : bool :=
  existsb (message_has_id message_id) (thread_messages thread).

(** The shape of the documents the handlers store: an object whose
    [messages] is an array of objects that each have an [id]. *)
Definition message_shaped (m : pyval) : bool :=
  match field "id" m with
  | Some _ => true
  | None => false
  end.

Definition thread_shaped (doc : pyval) : bool :=
  match field "messages" doc with
  | Some (PList l) => forallb message_shaped l
  | _ => false
  end.

(** The document [handle_threads] stores for a new thread. *)
Definition stored_thread (new_id title description now oid : string) : pyval :=
  PDict [(PStr "id", PStr new_id);
         (PStr "title", PStr title);
         (PStr "description", PStr description);
         (PStr "messages", PList []);
         (PStr "created_at", PStr now);
         (PStr "_id", PObjectId oid)].

(** The message [add_message] appends. *)
Definition appended_message (new_id text sender now : string) : pyval :=
  PDict [(PStr "id", PStr new_id);
         (PStr "text", PStr text);
         (PStr "sender", PStr sender);
         (PStr "timestamp", PStr now);
         (PStr "pinned", PBool false)].

(** A double quote, for writing JSON texts. *)
Definition dq : string := String "034" EmptyString.

(** ** Sample inputs *)

(** A six-page document whose second page yields no text. *)
Definition sample_pages : list page :=
  [Some "one"%string; None; Some "three"%string; Some "four"%string;
   Some "five"%string; Some "six"%string].

(** A document that reads without failure: it has the given pages. *)
Definition reader_of (pages : list page) : pdf_reader :=
  mk_pdf_reader (Return (length pages))
    (fun i => match pages !! i with
              | Some p => Return p
              | None => Raise (LibraryError "no such page")
              end).

Definition sample_document : pdf_reader := reader_of sample_pages.

Definition sample_reader (bytes : string) : outcome pdf_reader :=
  Return sample_document.

(** A six-page document whose fourth page cannot be read. *)
Definition damaged_document : pdf_reader :=
  mk_pdf_reader (Return 6%nat)
    (fun i => if (i =? 3)%nat then Raise (ValueError "invalid stream")
              else extract_text sample_document i).

(** A document whose page tree cannot be read: counting its pages
    fails. *)
Definition uncountable_document : pdf_reader :=
  mk_pdf_reader (Raise (ValueError "invalid page tree"))
    (fun i => Raise (ValueError "invalid page tree")).



(** The numeral of [k] nines. *)
Definition nines (k : nat) : string := PyStr.of_chars (repeat "9"%char k).

Definition sample_generate (p : prompt) : outcome string :=
  Return "Q1) What is on page one?"%string.

Definition sample_secure_filename (name : string) : string := name.

Definition sample_upload : upload := mk_upload "notes.pdf" "%PDF-1.4".

Definition sample_request (page_range : string) : pdf_request :=
  mk_pdf_request (Some sample_upload) (Some page_range) None None.

Definition no_files : files := mk_files ∅ ∅ [] [].

Definition sample_tmp : string := "/tmp/tmpk3v9.pdf".


Definition json_score_text : string :=
  "Here you go: {" +:+ dq +:+ "score" +:+ dq +:+ ": 85, " +:+ dq +:+ "feedback"
  +:+ dq +:+ ": " +:+ dq +:+ "good" +:+ dq +:+ "} Hope it helps.".

(** The body of an evaluation request. *)
Definition sample_answers : list (pyval * pyval) :=
  [(PStr "student_answer", PStr "4"); (PStr "model_answer", PStr "four")].

(** A store with one thread that has one message. *)
Definition sample_message : pyval :=
  appended_message "m-1" "hello" "ann" "2024-05-01T10:00:00".

Definition sample_thread : pyval :=
  PDict [(PStr "id", PStr "t-1");
         (PStr "title", PStr "Exam");
         (PStr "description", PStr "Questions about the exam");
         (PStr "messages", PList [sample_message]);
         (PStr "created_at", PStr "2024-05-01T09:00:00");
         (PStr "_id", PObjectId "65f0")].

Definition sample_store : collection := [sample_thread].

(** ** The thread store as a state machine *)

(** The requests that reach the thread handlers, each with the values
    the handler draws from its environment. *)
Inductive thread_request : Type :=
  | CreateThread (body : outcome pyval) (new_id now oid : string)
  | DeleteThread (thread_id : string)
  | AppendMessage (thread_id : string) (body : outcome pyval) (new_id now : string)
  | ReportMessage (thread_id message_id : string).

Definition serve (r : thread_request) (coll : collection) : response * collection :=
  match r with
  | CreateThread body new_id now oid => handle_threads POST body new_id now oid coll
  | DeleteThread thread_id => get_thread DELETE thread_id coll
  | AppendMessage thread_id body new_id now =>
      add_message POST thread_id body new_id now coll
  | ReportMessage thread_id message_id =>
      report_message POST thread_id message_id coll
  end.

(** The identifier generated for a new thread is not in use. *)
Definition fresh_request (r : thread_request) (coll : collection) : Prop :=
  match r with
  | CreateThread _ new_id _ _ => find_one new_id coll = None
  | _ => True
  end.

(** The stores the handlers build from the empty collection. *)
Inductive reachable : collection -> Prop :=
  | reachable_empty : reachable []
  | reachable_serve coll r :
      reachable coll -> fresh_request r coll -> reachable (snd (serve r coll)).

(** ** Free-text query *)

(** [data.get(name, default)] *)
Definition py_get (data : pyval) (name : string) (default : pyval) : outcome pyval :=
  match data with
  | PDict d =>
      Return (match dict_get (PStr name) d with
              | Some v => v
              | None => default
              end)
  | _ => Raise (AttributeError "object has no attribute 'get'")
  end.

(** The prompt of [web_search]. *)
Definition search_prompt (query : string) : string :=
  "Provide a comprehensive, academic answer to: " +:+ query +:+ newline
  +:+ "Include key concepts, examples, and sources if available.".

(** The [try] block of [web_search]: [body] is the result of
    [request.get_json()], [generate_text] the generation client called
    with a prompt text and the ten-second timeout, giving
    [response.text]. *)
Definition web_search_try (generate_text : string -> outcome string)
    (body : outcome pyval) : outcome response :=
  data ← body;
  query ← py_get data "query" (PStr EmptyString) ≫= py_strip;
  if String.eqb query EmptyString then
    Return (mk_response (error_body "Empty query") 400)
  else if (String.length query <? 3)%nat then
    Return (mk_response (error_body "Query too short (min 3 chars)") 400)
  else
    answer ← generate_text (search_prompt query);
    if String.eqb answer EmptyString then
      Return (mk_response (error_body "Empty response from AI") 500)
    else
      respond (PDict [(PStr "answer", PStr answer);
                      (PStr "query", PStr query);
                      (PStr "status", PStr "success")])
        200.

(** [web_search] *)
Definition web_search (generate_text : string -> outcome string)
    (body : outcome pyval) : response :=
  try_except (web_search_try generate_text body)
    (fun _ => mk_response (error_body "Search failed") 500).

(** ** Cleanup at exit *)

(** The handler registered with [atexit]:
    [[cleanup_file(f) for f in _temp_files]].  The comprehension reads
    the registry by position while [cleanup_file] removes entries from
    it: [index] is the position of the iterator, and the loop ends when
    the position is past the end of the registry as it is then. *)
Fixpoint exit_cleanup_from (steps : nat) (index : nat) (st : files) : files :=
  match steps with
  | O => st
  | S steps' =>
      match temp_files st !! index with
      | None => st
      | Some f => exit_cleanup_from steps' (S index) (after (cleanup_file f st) st)
      end
  end.

(** The registry never grows during the loop, so its length on entry
    bounds the number of steps. *)
Definition exit_cleanup (st : files) : files :=
  exit_cleanup_from (length (temp_files st)) 0 st.

(** The elements at even and at odd positions of a list, counting from
    zero. *)
Fixpoint evens {A} (l : list A) : list A :=
  match l with
  | [] => []
  | x :: r => x :: match r with [] => [] | _ :: r' => evens r' end
  end.

Fixpoint odds {A} (l : list A) : list A :=
  match l with
  | [] => []
  | _ :: r => match r with [] => [] | y :: r' => y :: odds r' end
  end.

(** The removal of several files, in order. *)
Fixpoint delete_all (paths : list string) (d : gmap string string)
  : gmap string string :=
  match paths with
  | [] => d
  | p :: r => delete_all r (delete p d)
  end.

(** The question parameters of a request are acceptable: the count,
    when given, reads as an integer, and the type, when given, is one of
    the two names. *)
Definition parameters_ok (req : pdf_request) : bool :=
  match form_num_questions req with
  | None => true
  | Some s => match PyStr.int s with Some _ => true | None => false end
  end
  && match form_question_type req with
     | None => true
     | Some t => String.eqb t "MCQ" || String.eqb t "Subjective"
     end.

(** ** The documents of the thread store *)

(** A thread document with its six fields, as [insert_one] stores it
    and [$push] extends it. *)
Definition thread_doc (thread_id title description : string)
    (messages : list pyval) (created_at oid : string) : pyval :=
  PDict [(PStr "id", PStr thread_id);
         (PStr "title", PStr title);
         (PStr "description", PStr description);
         (PStr "messages", PList messages);
         (PStr "created_at", PStr created_at);
         (PStr "_id", PObjectId oid)].

(** What [GET] shows of a thread document: everything but [_id]. *)
Definition thread_view (thread_id title description : string)
    (messages : list pyval) (created_at : string) : pyval :=
  PDict [(PStr "id", PStr thread_id);
         (PStr "title", PStr title);
         (PStr "description", PStr description);
         (PStr "messages", PList messages);
         (PStr "created_at", PStr created_at)].

(** A message as [add_message] builds it. *)
Definition message_document (m : pyval) : Prop :=
  exists message_id text sender timestamp,
    m = appended_message message_id text sender timestamp.

(** A thread document whose messages were all built by
    [add_message]. *)
Definition thread_document (doc : pyval) : Prop :=
  exists thread_id title description messages created_at oid,
    doc = thread_doc thread_id title description messages created_at oid
    /\ Forall message_document messages.

(** The warning [cleanup_file] logs when the removal of a path is
    refused. *)
Definition refusal_warning (path : string) : log_entry :=
  LogWarning ("Failed to delete " +:+ path +:+ ": "
              +:+ str_exn (PermissionError path)).

(** * Properties *)

(** ** Facts about the string primitives *)

Section StringFacts.

Ltac step := cbn [decimal_digits PyStr.parse_digits PyStr.lstrip PyStr.rstrip
                  PyStr.split String.append].

Lemma digit_cases d : 0 <= d < 10 ->
  d = 0 \/ d = 1 \/ d = 2 \/ d = 3 \/ d = 4 \/ d = 5 \/ d = 6 \/ d = 7 \/ d = 8 \/ d = 9.
Proof. lia. Qed.

Lemma digit_char_is_digit d : 0 <= d < 10 -> PyStr.is_digit (digit_char d) = true.
Proof.
  intros H. destruct (digit_cases d H) as [-> | [-> | [-> | [-> | [-> | [-> | [-> | [-> | [-> | ->]]]]]]]]];
    reflexivity.
Qed.

Lemma digit_val_char d : 0 <= d < 10 -> PyStr.digit_val (digit_char d) = d.
Proof.
  intros H. destruct (digit_cases d H) as [-> | [-> | [-> | [-> | [-> | [-> | [-> | [-> | [-> | ->]]]]]]]]];
    reflexivity.
Qed.

Lemma digit_not_space c : PyStr.is_digit c = true -> PyStr.is_space c = false.
Proof.
  unfold PyStr.is_digit, PyStr.is_space. intros H.
  apply andb_true_iff in H as [H1 H2].
  apply Nat.leb_le in H1. apply Nat.leb_le in H2.
  repeat (apply orb_false_iff; split); try apply andb_false_iff;
    rewrite ?Nat.leb_gt, ?Nat.eqb_neq; lia.
Qed.

Lemma digit_not_char c (x : ascii) :
  PyStr.is_digit c = true -> PyStr.is_digit x = false -> Ascii.eqb x c = false.
Proof.
  intros Hc Hx. destruct (Ascii.eqb_spec x c) as [-> | ]; [congruence | done].
Qed.

Lemma decimal_digits_all_digits fuel : forall n acc,
  0 <= n -> all_digits acc = true -> all_digits (decimal_digits fuel n acc) = true.
Proof.
  induction fuel as [| fuel IH]; intros n acc Hn Hacc; step; cbn [all_digits]; [done|].
  assert (Hd : all_digits (String (digit_char (n mod 10)) acc) = true).
  { step; cbn [all_digits]. rewrite digit_char_is_digit, Hacc; [done|].
    apply Z.mod_pos_bound. lia. }
  destruct (n <? 10); [done|].
  apply IH; [|done]. apply Z.div_pos; lia.
Qed.


(** Reading back the digits that [decimal_digits] writes. *)
Lemma parse_decimal_digits fuel : forall n acc b,
  0 <= n -> n < 2 ^ Z.of_nat (S fuel) ->
  PyStr.parse_digits 0 b (decimal_digits (S fuel) n acc)
  = PyStr.parse_digits n true acc.
Proof.
  induction fuel as [| fuel IH]; intros n acc b Hn Hlt.
  - change (2 ^ Z.of_nat 1) with 2 in Hlt.
    step; cbn [all_digits]. assert (Hlt10 : (n <? 10) = true) by (apply Z.ltb_lt; lia).
    rewrite Hlt10. step; cbn [all_digits].
    rewrite digit_char_is_digit by (apply Z.mod_pos_bound; lia).
    rewrite digit_val_char by (apply Z.mod_pos_bound; lia).
    rewrite Z.mod_small by lia. done.
  - change (decimal_digits (S (S fuel)) n acc) with
      (let acc' := String (digit_char (n mod 10)) acc in
       if n <? 10 then acc' else decimal_digits (S fuel) (n / 10) acc').
    cbv zeta. destruct (n <? 10) eqn:Hlt10.
    + apply Z.ltb_lt in Hlt10. step; cbn [all_digits].
      rewrite digit_char_is_digit by (apply Z.mod_pos_bound; lia).
      rewrite digit_val_char by (apply Z.mod_pos_bound; lia).
      rewrite Z.mod_small by lia. done.
    + apply Z.ltb_ge in Hlt10.
      rewrite IH.
      * step; cbn [all_digits].
        rewrite digit_char_is_digit by (apply Z.mod_pos_bound; lia).
        rewrite digit_val_char by (apply Z.mod_pos_bound; lia).
        f_equal. pose proof (Z.div_mod n 10 ltac:(lia)). lia.
      * apply Z.div_pos; lia.
      * rewrite Nat2Z.inj_succ, Z.pow_succ_r in Hlt by lia.
        apply Z.div_lt_upper_bound; lia.
Qed.

Lemma log2_fuel n : 0 <= n -> n < 2 ^ Z.of_nat (S (Z.to_nat (Z.log2 n))).
Proof.
  intros Hn. rewrite Nat2Z.inj_succ, Z2Nat.id by apply Z.log2_nonneg.
  destruct (Z.eq_dec n 0) as [-> | Hne]; [done|].
  apply Z.log2_spec. lia.
Qed.

Lemma digit_not_int_space c :
  PyStr.is_digit c = true -> PyStr.is_int_space c = false.
Proof.
  unfold PyStr.is_digit, PyStr.is_int_space. intros H.
  apply andb_true_iff in H as [H1 H2].
  apply Nat.leb_le in H1. apply Nat.leb_le in H2.
  repeat (apply orb_false_iff; split); try apply andb_false_iff;
    rewrite ?Nat.leb_gt, ?Nat.eqb_neq; lia.
Qed.

Lemma int_lstrip_digits s : all_digits s = true -> PyStr.int_lstrip s = s.
Proof.
  destruct s as [| c r]; cbn [PyStr.int_lstrip all_digits]; [done|]. intros H.
  apply andb_true_iff in H as [Hc _]. by rewrite (digit_not_int_space c Hc).
Qed.

Lemma int_rstrip_digits s : all_digits s = true -> PyStr.int_rstrip s = s.
Proof.
  induction s as [| c r IH]; cbn [PyStr.int_rstrip all_digits]; [done|]. intros H.
  apply andb_true_iff in H as [Hc Hr]. rewrite (IH Hr).
  destruct r; [|done]. by rewrite (digit_not_int_space c Hc).
Qed.

Lemma int_digits s : all_digits s = true ->
  PyStr.int s = PyStr.digits_value s.
Proof.
  intros H. unfold PyStr.int.
  rewrite (int_lstrip_digits s H), (int_rstrip_digits s H).
  destruct s as [| c r]; [done|].
  cbn [all_digits] in H. apply andb_true_iff in H as [Hc _].
  destruct (Ascii.eqb_spec c "+") as [-> | ]; [discriminate|].
  destruct (Ascii.eqb_spec c "-") as [-> | ]; [discriminate|].
  destruct c as [[] [] [] [] [] [] [] []]; try done.
Qed.

(** A number below [10 ^ k] is written with at most [k] digits. *)
Lemma count_digits_decimal fuel : forall k n acc,
  1 <= k -> 0 <= n -> n < 10 ^ k ->
  Z.of_nat (PyStr.count_digits (decimal_digits fuel n acc))
  <= k + Z.of_nat (PyStr.count_digits acc).
Proof.
  induction fuel as [| fuel IH]; intros k n acc Hk Hn Hlt; step; [lia|].
  assert (Hd : PyStr.count_digits (String (digit_char (n mod 10)) acc)
               = S (PyStr.count_digits acc)).
  { cbn [PyStr.count_digits].
    by rewrite digit_char_is_digit by (apply Z.mod_pos_bound; lia). }
  destruct (n <? 10) eqn:E.
  - rewrite Hd. lia.
  - apply Z.ltb_ge in E.
    destruct (Z.eq_dec k 1) as [-> | Hk1].
    { change (10 ^ 1) with 10 in Hlt. lia. }
    replace k with (Z.succ (k - 1)) in Hlt by lia.
    rewrite Z.pow_succ_r in Hlt by lia.
    assert (Hdiv : n / 10 < 10 ^ (k - 1)) by (apply Z.div_lt_upper_bound; lia).
    assert (Hpos : 0 <= n / 10) by (apply Z.div_pos; lia).
    pose proof (IH (k - 1) (n / 10) (String (digit_char (n mod 10)) acc)
                  ltac:(lia) Hpos Hdiv) as Hc.
    rewrite Hd in Hc. lia.
Qed.

(** [int(str(n)) == n] for a non-negative integer whose numeral is
    within the digit limit. *)
Lemma int_decimal n :
  0 <= n -> n < 10 ^ PyStr.max_str_digits -> PyStr.int (decimal n) = Some n.
Proof.
  intros Hn Hcap. unfold decimal.
  assert (Hlt : (n <? 0) = false) by (apply Z.ltb_ge; lia). rewrite Hlt.
  rewrite int_digits by (by apply decimal_digits_all_digits).
  unfold PyStr.digits_value.
  rewrite parse_decimal_digits by (done || by apply log2_fuel).
  cbn [PyStr.parse_digits].
  pose proof (count_digits_decimal (S (Z.to_nat (Z.log2 n))) PyStr.max_str_digits
                n EmptyString ltac:(done) Hn Hcap) as Hc.
  cbn [PyStr.count_digits] in Hc.
  assert (Hle : (Z.of_nat (PyStr.count_digits
                             (decimal_digits (S (Z.to_nat (Z.log2 n))) n EmptyString))
                 <=? PyStr.max_str_digits) = true) by (apply Z.leb_le; lia).
  by rewrite Hle.
Qed.

Lemma decimal_all_digits n : 0 <= n -> all_digits (decimal n) = true.
Proof.
  intros Hn. unfold decimal.
  assert (Hlt : (n <? 0) = false) by (apply Z.ltb_ge; lia). rewrite Hlt.
  by apply decimal_digits_all_digits.
Qed.

Lemma split_digits s : all_digits s = true -> PyStr.split "-" s = [s].
Proof.
  induction s as [| c r IH]; step; cbn [all_digits]; [done|]. intros H.
  apply andb_true_iff in H as [Hc Hr].
  rewrite (digit_not_char c "-" Hc eq_refl). by rewrite (IH Hr).
Qed.

(** Splitting ["a-b"] gives its two numerals. *)
Lemma split_range s t : all_digits s = true -> all_digits t = true ->
  PyStr.split "-" (s +:+ "-" +:+ t) = [s; t].
Proof.
  intros Hs Ht. induction s as [| c r IH].
  - change (PyStr.split "-" (EmptyString +:+ "-" +:+ t))
      with (EmptyString :: PyStr.split "-" t).
    by rewrite (split_digits t Ht).
  - change (String c r +:+ "-" +:+ t) with (String c (r +:+ "-" +:+ t)).
    step. cbn [all_digits] in Hs. apply andb_true_iff in Hs as [Hc Hr].
    rewrite (digit_not_char c "-" Hc eq_refl). by rewrite (IH Hr).
Qed.

End StringFacts.

(** The primitives on the inputs the handlers meet. *)
Example split_abc : PyStr.split "-" "abc" = ["abc"%string].
Proof. reflexivity. Qed.
Example split_5_2 : PyStr.split "-" "5-2" = ["5"; "2"]%string.
Proof. reflexivity. Qed.
Example split_neg : PyStr.split "-" "-1-3" = [EmptyString; "1"; "3"]%string.
Proof. reflexivity. Qed.
Example int_spaces : PyStr.int " 12 " = Some 12.
Proof. reflexivity. Qed.
Example int_underscore : PyStr.int "1_000" = Some 1000.
Proof. reflexivity. Qed.
Example int_bad_underscore : PyStr.int "1__0" = None.
Proof. reflexivity. Qed.
Example int_empty : PyStr.int EmptyString = None.
Proof. reflexivity. Qed.
Example int_sign : PyStr.int "+7" = Some 7.
Proof. reflexivity. Qed.
Example strip_both : PyStr.strip "  a b  " = "a b"%string.
Proof. reflexivity. Qed.
Example find_brace : PyStr.find "{" "ab{c{" = 2.
Proof. reflexivity. Qed.
Example rfind_brace : PyStr.rfind "}" "a}b}c" = 3.
Proof. reflexivity. Qed.
Example rfind_none : PyStr.rfind "}" "abc" = -1.
Proof. reflexivity. Qed.
Example slice_reversed : py_slice [1; 2; 3; 4; 5; 6] 4 2 = [].
Proof. reflexivity. Qed.
Example slice_mid : py_slice [1; 2; 3; 4; 5; 6] 1 3 = [2; 3].
Proof. reflexivity. Qed.
Example slice_neg : py_slice [1; 2; 3; 4; 5; 6] (-1) 3 = [].
Proof. reflexivity. Qed.
Example words : PyStr.count_words " a  bc d " = 3%nat.
Proof. reflexivity. Qed.
Example ends_pdf : PyStr.endswith ".pdf" (PyStr.lower "Notes.PDF") = true.
Proof. reflexivity. Qed.

Example int_separator : PyStr.int (String "031" "5") = None.
Proof. reflexivity. Qed.
Example strip_separator : PyStr.strip (String "031" "5") = "5"%string.
Proof. reflexivity. Qed.
Example int_no_break_space : PyStr.int (String "160" "5") = Some 5.
Proof. reflexivity. Qed.
(** The largest numeral of 4300 digits is read; a numeral of 4301
    digits is refused. *)
Example int_at_limit :
  PyStr.int (decimal (10 ^ 4300 - 1)) = Some (10 ^ 4300 - 1).
Proof.
  pose proof (Z.pow_pos_nonneg 10 4300 ltac:(lia) ltac:(lia)) as Hpos.
  apply int_decimal; change PyStr.max_str_digits with 4300.
  - set (m := 10 ^ 4300) in *. lia.
  - set (m := 10 ^ 4300) in *. lia.
Qed.
Example int_over_limit : PyStr.int (nines 4301) = None.
Proof. vm_compute. reflexivity. Qed.

(** ** PDF text extraction *)





(** A length is a numeral within the digit limit of [int]. *)
Lemma ssize_within_limit n : n <= max_ssize -> n < 10 ^ PyStr.max_str_digits.
Proof.
  intros H.
  assert (Hmax : max_ssize < 10 ^ PyStr.max_str_digits) by (vm_compute; reflexivity).
  lia.
Qed.


Lemma unpack_range_string a b :
  0 <= a -> a < 10 ^ PyStr.max_str_digits ->
  0 <= b -> b < 10 ^ PyStr.max_str_digits ->
  unpack_start_end (range_string a b) = Return (a, b).
Proof.
  intros Ha Ha' Hb Hb'. unfold unpack_start_end, range_string.
  rewrite split_range by (by apply decimal_all_digits).
  by rewrite !int_decimal.
Qed.


(** The comprehension over pages that are all read. *)
Lemma extract_texts_returns reader positions (selected : list page) :
  Forall2 (fun i p => extract_text reader i = Return p) positions selected ->
  extract_texts reader positions = Return (map page_text selected).
Proof.
  induction 1 as [| i p positions selected Hp _ IH];
    cbn [extract_texts map]; [done|].
  rewrite Hp. cbn [mbind outcome_bind bind]. by rewrite IH.
Qed.

(** The comprehension stops at the first page that fails. *)
Lemma extract_texts_raises reader before i after (read : list page) e :
  Forall2 (fun i p => extract_text reader i = Return p) before read ->
  extract_text reader i = Raise e ->
  extract_texts reader (before ++ i :: after) = Raise e.
Proof.
  intros Hread Hfail.
  induction Hread as [| j p before read Hp _ IH]; cbn [extract_texts app].
  - by rewrite Hfail.
  - rewrite Hp. cbn [mbind outcome_bind bind]. by rewrite IH.
Qed.

(** [sep.join] is the concatenation with the separator between
    consecutive parts. *)
Lemma join_is_concat sep parts : PyStr.join sep parts = String.concat sep parts.
Proof.
  induction parts as [| p parts IH]; [done|].
  destruct parts as [| q parts]; [done|].
  change (PyStr.join sep (p :: q :: parts))
    with (p +:+ sep +:+ PyStr.join sep (q :: parts)).
  by rewrite IH.
Qed.


(** The reader of a list of pages reads each of them. *)
Lemma reader_of_reads (pages : list page) :
  Forall2 (fun i p => extract_text (reader_of pages) i = Return p)
    (seq 0 (length pages)) pages.
Proof.
  apply Forall2_same_length_lookup_2; [by rewrite length_seq|].
  intros i j p Hj Hp. apply lookup_seq in Hj as [-> _].
  change (0 + i)%nat with i. cbn [reader_of extract_text]. by rewrite Hp.
Qed.




(** ** The page-range check of [process_pdf] *)

Lemma unpack_bad_format page_range :
  range_format_ok page_range = false ->
  exists msg, unpack_start_end page_range = Raise (ValueError msg).
Proof.
  unfold range_format_ok, unpack_start_end.
  destruct (PyStr.split "-" page_range) as [| a [| b [| c rest]]];
    intros H; try (eexists; reflexivity).
  - destruct (PyStr.int a); eexists; reflexivity.
  - destruct (PyStr.int a), (PyStr.int b); try discriminate; eexists; reflexivity.
  - destruct (PyStr.int a), (PyStr.int b), (PyStr.int c); eexists; reflexivity.
Qed.

Lemma unpack_returns_two page_range s e :
  unpack_start_end page_range = Return (s, e) ->
  length (PyStr.split "-" page_range) = 2%nat.
Proof.
  unfold unpack_start_end.
  destruct (PyStr.split "-" page_range) as [| a [| b [| c rest]]]; try discriminate.
  - destruct (PyStr.int a); discriminate.
  - done.
  - destruct (PyStr.int a), (PyStr.int b), (PyStr.int c); discriminate.
Qed.

(** A malformed range fails before the page list is touched. *)
Lemma pages_in_range_bad_format reader page_range :
  page_range <> "all"%string ->
  range_format_ok page_range = false ->
  exists msg, pages_in_range reader page_range = Raise (ValueError msg).
Proof.
  intros Hall Hbad. unfold pages_in_range, select_pages.
  apply String.eqb_neq in Hall. rewrite Hall.
  destruct (unpack_bad_format page_range Hbad) as [msg ->].
  by exists msg.
Qed.

(** The response of [process_pdf] for an upload that passes the file
    checks: the response of the saved-file steps, on the state with the
    temp file written and registered. *)
Lemma process_pdf_accepted_upload PdfReader generate_content secure_filename
    req file tmp_path st :
  files_pdf req = Some file ->
  filename file <> EmptyString ->
  PyStr.endswith ".pdf" (PyStr.lower (filename file)) = true ->
  fst (process_pdf PdfReader generate_content secure_filename req tmp_path st)
  = try_except
      (process_pdf_saved PdfReader generate_content secure_filename req file tmp_path
         (mk_files (<[tmp_path := content file]> (disk st)) (undeletable st)
            (temp_files st ++ [tmp_path]) (log st)))
      (fun _ => mk_response (error_body "Failed to process PDF") 500).
Proof.
  intros Hfile Hname Hext. unfold process_pdf. rewrite Hfile.
  apply String.eqb_neq in Hname. rewrite Hname, Hext. reflexivity.
Qed.

(** C2, as the code has it: a page range that is not ['all'] and is
    not two integer literals around one dash is answered with the 400
    validation error, for every upload that passes the file checks and
    opens as a PDF. *)
Theorem malformed_page_range_is_400
    (PdfReader : string -> outcome pdf_reader)
    (generate_content : prompt -> outcome string)
    (secure_filename : string -> string)
    (req : pdf_request) (file : upload) (reader : pdf_reader)
    (page_range tmp_path : string) (st : files) :
  files_pdf req = Some file ->
  filename file <> EmptyString ->
  PyStr.endswith ".pdf" (PyStr.lower (filename file)) = true ->
  content file <> EmptyString ->
  PdfReader (content file) = Return reader ->
  form_page_range req = Some page_range ->
  page_range <> "all"%string ->
  range_format_ok page_range = false ->
  fst (process_pdf PdfReader generate_content secure_filename req tmp_path st)
  = mk_response (error_body "Invalid page range format. Use '1-5'") 400.
Proof.
  intros Hfile Hname Hext Hcontent Hread Hrange Hall Hbad.
  rewrite (process_pdf_accepted_upload _ _ _ _ _ _ _ Hfile Hname Hext).
  unfold process_pdf_saved. cbn [disk].
  rewrite lookup_insert_eq.
  apply String.eqb_neq in Hcontent. rewrite Hcontent, Hread, Hrange.
  cbn [mbind outcome_bind bind default]. cbv zeta. cbn [default from_option id].
  destruct (pages_in_range_bad_format reader page_range Hall Hbad) as [msg ->].
  reflexivity.
Qed.

Lemma malformed_page_range_is_400_witness :
  fst (process_pdf sample_reader sample_generate sample_secure_filename
         (sample_request "abc") sample_tmp no_files)
  = mk_response (error_body "Invalid page range format. Use '1-5'") 400.
Proof.
  apply (malformed_page_range_is_400 sample_reader sample_generate
           sample_secure_filename (sample_request "abc") sample_upload
           sample_document "abc" sample_tmp no_files).
  - reflexivity.
  - discriminate.
  - reflexivity.
  - discriminate.
  - reflexivity.
  - reflexivity.
  - discriminate.
  - reflexivity.
Defined.

(** C2, as stated, fails: the reversed range ["5-2"] is not a valid
    range of a six-page document, and the request is answered 200. *)
Lemma reversed_page_range_is_200 :
  ~ valid_page_range 6 "5-2"
  /\ resp_status
       (fst (process_pdf sample_reader sample_generate sample_secure_filename
               (sample_request "5-2") sample_tmp no_files)) = 200.
Proof.
  split.
  - intros [Hall | (a & b & Ha & Hab & Hb & Heq)]; [discriminate|].
    assert (Hu : unpack_start_end "5-2" = Return (a, b)).
    { rewrite Heq. apply unpack_range_string;
        try apply ssize_within_limit; unfold max_ssize; lia. }
    vm_compute in Hu. injection Hu as <- <-. lia.
  - vm_compute. reflexivity.
Qed.

(** C10: for a page range other than ['all'] that the handler accepts,
    [pages_processed] is the number of dash-separated components of the
    range string, which is 2. *)
Theorem pages_processed_counts_components
    (PdfReader : string -> outcome pdf_reader)
    (generate_content : prompt -> outcome string)
    (secure_filename : string -> string)
    (req : pdf_request) (page_range tmp_path : string) (st : files) :
  form_page_range req = Some page_range ->
  page_range <> "all"%string ->
  let resp :=
    fst (process_pdf PdfReader generate_content secure_filename req tmp_path st) in
  resp_status resp = 200 ->
  (field "metadata" (resp_body resp) ≫= field "pages_processed")
  = Some (PInt (Z.of_nat (length (PyStr.split "-" page_range))))
  /\ length (PyStr.split "-" page_range) = 2%nat.
Proof.
  intros Hrange Hall resp. subst resp. unfold process_pdf.
  destruct (files_pdf req) as [file|]; [|discriminate].
  destruct (String.eqb (filename file) EmptyString); [discriminate|].
  destruct (negb _); [discriminate|].
  cbn [fst]. unfold process_pdf_saved. cbn [disk].
  rewrite lookup_insert_eq, Hrange. cbn [default from_option id].
  destruct (String.eqb (content file) EmptyString); [discriminate|].
  destruct (PdfReader (content file)) as [reader | e]; [|discriminate].
  cbn [mbind outcome_bind bind]. cbv zeta. cbn [default from_option id].
  unfold pages_in_range, select_pages, pages_processed.
  apply String.eqb_neq in Hall. rewrite Hall.
  destruct (unpack_start_end page_range) as [[s e] | e] eqn:Hu.
  2:{ cbn [mbind outcome_bind bind]. destruct e; discriminate. }
  cbn [mbind outcome_bind bind].
  destruct (slice_pages reader (s - 1) e) as [pages | e'].
  2:{ destruct e'; discriminate. }
  destruct (join_pages reader pages) as [text | e']; [|discriminate].
  cbn [mbind outcome_bind bind].
  destruct (question_parameters req) as [[n qt] | e'].
  2:{ destruct e'; discriminate. }
  destruct (generate_content _) as [questions | e']; [|discriminate].
  cbn [mbind outcome_bind bind]. intros _.
  split; [reflexivity|]. by apply (unpack_returns_two page_range s e).
Qed.

Lemma pages_processed_counts_components_witness :
  (field "metadata"
     (resp_body
        (fst (process_pdf sample_reader sample_generate sample_secure_filename
                (sample_request "1-5") sample_tmp no_files)))
     ≫= field "pages_processed")
  = Some (PInt (Z.of_nat (length (PyStr.split "-" "1-5"))))
  /\ length (PyStr.split "-" "1-5") = 2%nat.
Proof.
  apply (pages_processed_counts_components sample_reader sample_generate
           sample_secure_filename (sample_request "1-5") "1-5" sample_tmp
           no_files).
  - reflexivity.
  - discriminate.
  - vm_compute. reflexivity.
Defined.

(** The count is not the number of pages read: for ["1-5"] five pages
    are selected and [pages_processed] is 2. *)
Example pages_processed_1_5 :
  select_pages sample_document "1-5" = Return (PageSlice [0; 1; 2; 3; 4]%nat)
  /\ pages_processed "1-5" = PInt 2.
Proof. split; reflexivity. Qed.
(** ** Temp-file removal *)

Lemma path_exists_some path st c :
  disk st !! path = Some c -> path_exists path st = true.
Proof. intros H. unfold path_exists. apply bool_decide_eq_true_2. by rewrite H. Qed.

Lemma path_exists_none path st :
  disk st !! path = None -> path_exists path st = false.
Proof.
  intros H. unfold path_exists. apply bool_decide_eq_false_2.
  rewrite H. by intros [? ?].
Qed.

(** The call changes nothing when the path is empty or names no file. *)
Lemma cleanup_file_absent path st :
  path = EmptyString \/ disk st !! path = None ->
  cleanup_file path st = Return st.
Proof.
  intros [-> | Hnone]; unfold cleanup_file, cleanup_file_try.
  - reflexivity.
  - rewrite (path_exists_none _ _ Hnone). by rewrite andb_false_r.
Qed.

(** A refused removal is logged and leaves files and registry as they
    were. *)
Lemma cleanup_file_refused path st c :
  path <> EmptyString -> disk st !! path = Some c -> path ∈ undeletable st ->
  cleanup_file_try path st = Raise (PermissionError path)
  /\ cleanup_file path st
     = Return (mk_files (disk st) (undeletable st) (temp_files st)
                 (log st ++ [LogWarning ("Failed to delete " +:+ path +:+ ": "
                                         +:+ str_exn (PermissionError path))])).
Proof.
  intros Hne Hsome Hin.
  assert (Htry : cleanup_file_try path st = Raise (PermissionError path)).
  { unfold cleanup_file_try, os_unlink.
    apply String.eqb_neq in Hne. rewrite Hne, (path_exists_some _ _ _ Hsome), Hsome.
    by rewrite bool_decide_eq_true_2. }
  split; [done|]. unfold cleanup_file. by rewrite Htry.
Qed.

(** A removal that succeeds deletes the file and its first registry
    entry. *)
Lemma cleanup_file_removed path st c :
  path <> EmptyString -> disk st !! path = Some c -> path ∉ undeletable st ->
  cleanup_file path st
  = Return (mk_files (delete path (disk st)) (undeletable st)
              (if list_mem path (temp_files st)
               then list_remove path (temp_files st) else temp_files st)
              (log st))
  /\ cleanup_file_try path st = cleanup_file path st.
Proof.
  intros Hne Hsome Hin.
  assert (Htry : cleanup_file_try path st
                 = Return (mk_files (delete path (disk st)) (undeletable st)
                             (if list_mem path (temp_files st)
                              then list_remove path (temp_files st)
                              else temp_files st)
                             (log st))).
  { unfold cleanup_file_try, os_unlink.
    apply String.eqb_neq in Hne. rewrite Hne, (path_exists_some _ _ _ Hsome), Hsome.
    by rewrite bool_decide_eq_false_2. }
  unfold cleanup_file. by rewrite Htry.
Qed.

(** C9: [cleanup_file] returns to its caller on every path and state;
    an error raised by the removal is logged as a warning and changes
    neither files nor registry; a second call on the same path leaves
    files and registry as the first call left them, and changes nothing
    at all when the first removal went through. *)
Theorem cleanup_file_safe_and_idempotent (path : string) (st : files) :
  exists st1,
    cleanup_file path st = Return st1
    /\ (forall e, cleanup_file_try path st = Raise e ->
          disk st1 = disk st /\ temp_files st1 = temp_files st
          /\ log st1 = log st ++ [LogWarning ("Failed to delete " +:+ path
                                              +:+ ": " +:+ str_exn e)])
    /\ exists st2,
         cleanup_file path st1 = Return st2
         /\ disk st2 = disk st1
         /\ temp_files st2 = temp_files st1
         /\ undeletable st2 = undeletable st1
         /\ (cleanup_file_try path st = Return st1 -> st2 = st1).
Proof.
  destruct (String.eqb_spec path EmptyString) as [Hempty | Hne].
  { exists st. rewrite (cleanup_file_absent path st) by auto. split; [done|].
    split.
    - intros e. unfold cleanup_file_try. rewrite Hempty. discriminate.
    - by exists st. }
  destruct (disk st !! path) as [c|] eqn:Hdisk.
  2:{ exists st. rewrite (cleanup_file_absent path st) by auto. split; [done|].
      split.
      - intros e. unfold cleanup_file_try.
        rewrite (path_exists_none _ _ Hdisk), andb_false_r. discriminate.
      - by exists st. }
  destruct (decide (path ∈ undeletable st)) as [Hin | Hnotin].
  - destruct (cleanup_file_refused path st c Hne Hdisk Hin) as [Htry Hcall].
    eexists. split; [exact Hcall|]. split.
    + intros e He. rewrite Htry in He. injection He as <-. done.
    + destruct (cleanup_file_refused path
                  (mk_files (disk st) (undeletable st) (temp_files st)
                     (log st ++ [LogWarning ("Failed to delete " +:+ path +:+ ": "
                                 +:+ str_exn (PermissionError path))]))
                  c Hne Hdisk Hin) as [_ Hcall2].
      eexists. split; [exact Hcall2|]. cbn [disk temp_files undeletable log].
      repeat split. rewrite Htry. discriminate.
  - destruct (cleanup_file_removed path st c Hne Hdisk Hnotin) as [Hcall Htry].
    eexists. split; [exact Hcall|]. split.
    + intros e He. rewrite Htry, Hcall in He. discriminate.
    + eexists. split.
      * apply cleanup_file_absent. right. cbn [disk]. apply lookup_delete_eq.
      * done.
Qed.

(** Two calls on a registered temp file: the first removes the file and
    its registry entry, the second changes nothing. *)
Example cleanup_file_twice :
  let st := mk_files {[ sample_tmp := "%PDF-1.4"%string ]} ∅ [sample_tmp] [] in
  cleanup_file sample_tmp st = Return no_files
  /\ cleanup_file sample_tmp no_files = Return no_files.
Proof. split; vm_compute; reflexivity. Qed.

(** Two calls on a file the system refuses to remove: each logs one
    warning, and the file and the registry stay. *)
Example cleanup_file_refused_twice :
  let st := mk_files {[ sample_tmp := "%PDF-1.4"%string ]} {[ sample_tmp ]}
              [sample_tmp] [] in
  exists st1 st2,
    cleanup_file sample_tmp st = Return st1
    /\ cleanup_file sample_tmp st1 = Return st2
    /\ disk st2 = disk st /\ temp_files st2 = temp_files st
    /\ length (log st1) = 1%nat /\ length (log st2) = 2%nat.
Proof.
  intros st.
  destruct (cleanup_file_refused sample_tmp st "%PDF-1.4") as [_ H1];
    [discriminate | apply lookup_singleton_eq | set_solver |].
  eexists. 
  destruct (cleanup_file_refused sample_tmp
              (mk_files (disk st) (undeletable st) (temp_files st)
                 (log st ++ [LogWarning ("Failed to delete " +:+ sample_tmp +:+ ": "
                             +:+ str_exn (PermissionError sample_tmp))]))
              "%PDF-1.4") as [_ H2];
    [discriminate | apply lookup_singleton_eq | set_solver |].
  eexists. split; [exact H1|]. split; [exact H2|]. done.
Qed.

(** ** Response parser *)

Lemma parse_json_response_no_braces literal_eval text :
  no_braces text ->
  parse_json_response literal_eval text
  = fallback (ValueError "No JSON found in response") text.
Proof.
  intros H. unfold parse_json_response, parse_json_response_try.
  destruct H as [-> | ->]; [reflexivity|].
  cbn [Z.add Z.eqb]. by rewrite orb_true_r.
Qed.

Lemma parse_json_response_braces literal_eval text :
  ~ no_braces text ->
  parse_json_response literal_eval text
  = try_except (literal_eval (between_braces text)) (fun e => fallback e text).
Proof.
  intros H. unfold parse_json_response, parse_json_response_try, between_braces.
  assert (H1 : (PyStr.find "{" text =? -1) = false)
    by (apply Z.eqb_neq; intros E; apply H; by left).
  assert (H2 : (PyStr.rfind "}" text + 1 =? 0) = false)
    by (apply Z.eqb_neq; intros E; apply H; right; lia).
  by rewrite H1, H2.
Qed.

Lemma parse_json_response_fails literal_eval text e :
  decoding_fails literal_eval text e ->
  parse_json_response literal_eval text = fallback e text.
Proof.
  intros [[Hno ->] | [Hbr Hraise]].
  - by apply parse_json_response_no_braces.
  - rewrite parse_json_response_braces by done. by rewrite Hraise.
Qed.

(** C5: when decoding fails, [parse_json_response] returns the fallback
    object (score 0, the fixed message, the error string, the original
    text), and [evaluate_answer] returns it, with the timestamp added,
    as the payload of a 200 response. *)
Theorem decoding_failure_gives_fallback
    (literal_eval : string -> outcome pyval)
    (generate_content : prompt -> outcome string)
    (text now : string) (e : exn)
    (data : list (pyval * pyval)) (student model : pyval) :
  decoding_fails literal_eval text e ->
  dict_get (PStr "student_answer") data = Some student ->
  dict_get (PStr "model_answer") data = Some model ->
  generate_content (EvaluationPrompt student model) = Return text ->
  parse_json_response literal_eval text
  = PDict [(PStr "score", PInt 0);
           (PStr "feedback", PStr "Could not parse evaluation");
           (PStr "error", PStr (str_exn e));
           (PStr "original_response", PStr text)]
  /\ evaluate_answer generate_content literal_eval (Return (PDict data)) now
     = mk_response
         (PDict [(PStr "score", PInt 0);
                 (PStr "feedback", PStr "Could not parse evaluation");
                 (PStr "error", PStr (str_exn e));
                 (PStr "original_response", PStr text);
                 (PStr "timestamp", PStr now)])
         200.
Proof.
  intros Hfail Hs Hm Hgen.
  pose proof (parse_json_response_fails literal_eval text e Hfail) as Hparse.
  split; [exact Hparse|].
  unfold evaluate_answer, evaluate_answer_try, missing_fields.
  cbn [mbind outcome_bind bind py_in py_getitem].
  assert (Htruthy : py_truthy (PDict data) = true)
    by (destruct data; [discriminate | reflexivity]).
  rewrite Htruthy, Hs, Hm. cbn [negb mbind outcome_bind bind].
  rewrite Hgen. cbn [mbind outcome_bind bind]. rewrite Hparse.
  reflexivity.
Qed.

Lemma decoding_failure_gives_fallback_witness :
  parse_json_response Literal.literal_eval_of_fragment "no braces here"
  = PDict [(PStr "score", PInt 0);
           (PStr "feedback", PStr "Could not parse evaluation");
           (PStr "error", PStr "No JSON found in response");
           (PStr "original_response", PStr "no braces here")]
  /\ evaluate_answer (fun _ => Return "no braces here"%string)
       Literal.literal_eval_of_fragment (Return (PDict sample_answers))
       "2024-05-01T10:00:00"
     = mk_response
         (PDict [(PStr "score", PInt 0);
                 (PStr "feedback", PStr "Could not parse evaluation");
                 (PStr "error", PStr "No JSON found in response");
                 (PStr "original_response", PStr "no braces here");
                 (PStr "timestamp", PStr "2024-05-01T10:00:00")])
         200.
Proof.
  apply (decoding_failure_gives_fallback Literal.literal_eval_of_fragment
           (fun _ => Return "no braces here"%string) "no braces here"
           "2024-05-01T10:00:00" (ValueError "No JSON found in response")
           sample_answers (PStr "4") (PStr "four")).
  - left. split; [left|]; reflexivity.
  - reflexivity.
  - reflexivity.
  - reflexivity.
Defined.


(** Braces in the wrong order leave nothing to evaluate: the fallback
    again, with the evaluator's error. *)
Example parse_reversed_braces (literal_eval : string -> outcome pyval) :
  Literal.agrees literal_eval ->
  exists e, parse_json_response literal_eval "} {" = fallback e "} {".
Proof.
  intros Hagree.
  assert (Hbr : ~ no_braces "} {")
    by (intros [H | H]; vm_compute in H; discriminate).
  pose proof (Hagree (between_braces "} {")) as Hs.
  assert (Hv : Literal.literal_eval_fragment (between_braces "} {")
               = Literal.Raises) by (vm_compute; reflexivity).
  rewrite Hv in Hs. destruct Hs as [e He].
  exists e. rewrite parse_json_response_braces by done. by rewrite He.
Qed.



(** Where the JSON text has no [true], [false] or [null], the two
    readings coincide: the parsed object is the JSON object. *)
Example parse_json_response_score (literal_eval : string -> outcome pyval) :
  Literal.agrees literal_eval ->
  Literal.json_between_braces json_score_text
  = Some (parse_json_response literal_eval json_score_text).
Proof.
  intros Hagree.
  assert (Hbr : ~ no_braces json_score_text)
    by (intros [H | H]; vm_compute in H; discriminate).
  pose proof (Hagree (between_braces json_score_text)) as Hs.
  assert (Hv : Literal.literal_eval_fragment (between_braces json_score_text)
               = Literal.Value (PDict [(PStr "score", PInt 85);
                                       (PStr "feedback", PStr "good")]))
    by (vm_compute; reflexivity).
  rewrite Hv in Hs. rewrite parse_json_response_braces by done. rewrite Hs.
  vm_compute. reflexivity.
Qed.

(** ** Thread store: lookups *)

Lemma py_eqb_str k s : py_eqb k (PStr s) = true -> k = PStr s.
Proof.
  destruct k as [| b | n | s' | l | d | o]; cbn; try discriminate.
  intros H. by apply String.eqb_eq in H as ->.
Qed.

Lemma dict_get_set_eq name v d :
  dict_get (PStr name) (dict_set (PStr name) v d) = Some v.
Proof.
  induction d as [| [k' v'] rest IH]; cbn [dict_set dict_get].
  - cbn. by rewrite String.eqb_refl.
  - destruct (py_eqb k' (PStr name)) eqn:E; cbn [dict_get]; by rewrite E.
Qed.

Lemma dict_get_set_ne name name' v d :
  name' <> name ->
  dict_get (PStr name') (dict_set (PStr name) v d) = dict_get (PStr name') d.
Proof.
  intros Hne. induction d as [| [k' v'] rest IH]; cbn [dict_set dict_get].
  - cbn. apply not_eq_sym in Hne. apply String.eqb_neq in Hne. by rewrite Hne.
  - destruct (py_eqb k' (PStr name)) eqn:E; cbn [dict_get].
    + apply py_eqb_str in E as ->. cbn.
      apply not_eq_sym in Hne. apply String.eqb_neq in Hne. by rewrite Hne.
    + by rewrite IH.
Qed.

Lemma find_one_none thread_id (coll : collection) :
  find_one thread_id coll = None <->
  (forall doc, doc ∈ coll -> matches_id thread_id doc = false).
Proof.
  unfold find_one. induction coll as [| d rest IH]; cbn [List.find].
  - split; [|done]. intros _ doc Hin. by apply elem_of_nil in Hin.
  - destruct (matches_id thread_id d) eqn:E.
    + split; [discriminate|]. intros H. rewrite (H d) in E; [done|]. by left.
    + rewrite IH. split.
      * intros H doc Hin. apply elem_of_cons in Hin as [-> | Hin]; auto.
      * intros H doc Hin. apply H. by right.
Qed.

Lemma find_one_some thread_id (coll : collection) thread :
  find_one thread_id coll = Some thread ->
  thread ∈ coll /\ matches_id thread_id thread = true.
Proof.
  unfold find_one. induction coll as [| d rest IH]; cbn [List.find]; [discriminate|].
  destruct (matches_id thread_id d) eqn:E.
  - intros [= <-]. split; [by left | done].
  - intros H. destruct (IH H). split; [by right | done].
Qed.

Lemma thread_present_find thread_id (coll : collection) :
  thread_present thread_id coll <-> find_one thread_id coll <> None.
Proof.
  split.
  - intros (doc & Hin & Hm) Hnone.
    rewrite find_one_none in Hnone. rewrite (Hnone doc Hin) in Hm. discriminate.
  - intros H. destruct (find_one thread_id coll) as [t|] eqn:E; [|done].
    exists t. by apply find_one_some.
Qed.

(** ** Thread store: deletion *)

Lemma delete_one_absent thread_id (coll : collection) :
  find_one thread_id coll = None -> delete_one thread_id coll = (0, coll).
Proof.
  unfold find_one. induction coll as [| d rest IH]; cbn [List.find delete_one]; [done|].
  destruct (matches_id thread_id d); [discriminate|].
  intros H. by rewrite (IH H).
Qed.

Lemma delete_one_present thread_id (coll : collection) :
  find_one thread_id coll <> None -> fst (delete_one thread_id coll) = 1.
Proof.
  unfold find_one. induction coll as [| d rest IH]; cbn [List.find delete_one]; [done|].
  destruct (matches_id thread_id d); [done|].
  intros H. specialize (IH H). by destruct (delete_one thread_id rest).
Qed.

Lemma unique_ids_tail d (rest : collection) :
  unique_ids (d :: rest) -> unique_ids rest.
Proof.
  intros H tid. specialize (H tid).
  destruct (decide (matches_id tid d = true)) as [E | E].
  - rewrite filter_cons_True in H by done. cbn [length] in H. lia.
  - by rewrite filter_cons_False in H.
Qed.

Lemma unique_ids_head thread_id d (rest : collection) :
  unique_ids (d :: rest) -> matches_id thread_id d = true ->
  find_one thread_id rest = None.
Proof.
  intros H E. specialize (H thread_id).
  rewrite filter_cons_True in H by done. cbn [length] in H.
  apply find_one_none. intros doc Hin.
  destruct (matches_id thread_id doc) eqn:Ed; [|done].
  assert (Hf : doc ∈ filter (fun doc => matches_id thread_id doc = true) rest)
    by (by apply list_elem_of_filter).
  destruct (filter _ rest); [by apply elem_of_nil in Hf | cbn [length] in H; lia].
Qed.

(** With unique identifiers, deleting a thread leaves no thread with
    that identifier. *)
Lemma delete_one_gone thread_id (coll : collection) :
  unique_ids coll ->
  find_one thread_id (snd (delete_one thread_id coll)) = None.
Proof.
  induction coll as [| d rest IH]; intros Hu; cbn [delete_one]; [done|].
  destruct (matches_id thread_id d) eqn:E; cbn [snd].
  - by apply (unique_ids_head thread_id d rest).
  - specialize (IH (unique_ids_tail d rest Hu)).
    destruct (delete_one thread_id rest) as [n rest'] eqn:Ed. cbn [snd] in *.
    unfold find_one in *. cbn [List.find]. by rewrite E.
Qed.

Lemma get_thread_delete thread_id (coll : collection) :
  get_thread DELETE thread_id coll
  = (if fst (delete_one thread_id coll) =? 0
     then mk_response (error_body "Thread not found") 404
     else mk_response
            (PDict [(PStr "message", PStr "Thread deleted successfully")]) 200,
     snd (delete_one thread_id coll)).
Proof.
  unfold get_thread. destruct (delete_one thread_id coll) as [n coll'].
  cbn [fst snd]. by destruct (n =? 0).
Qed.

(** C7: in a store where no two threads share an identifier, deleting
    a thread that is present succeeds, and deleting it again is
    answered 404 and changes nothing. *)
Theorem delete_thread_twice (thread_id : string) (coll : collection) :
  unique_ids coll ->
  thread_present thread_id coll ->
  let first := get_thread DELETE thread_id coll in
  let second := get_thread DELETE thread_id (snd first) in
  fst first
  = mk_response (PDict [(PStr "message", PStr "Thread deleted successfully")]) 200
  /\ fst second = mk_response (error_body "Thread not found") 404
  /\ snd second = snd first.
Proof.
  intros Hu Hp first second. subst second first.
  rewrite !get_thread_delete. cbn [fst snd].
  apply thread_present_find in Hp.
  rewrite (delete_one_present thread_id coll Hp).
  rewrite (delete_one_absent thread_id _ (delete_one_gone thread_id coll Hu)).
  done.
Qed.

Lemma unique_ids_sample : unique_ids sample_store.
Proof.
  intros tid. unfold sample_store.
  destruct (decide (matches_id tid sample_thread = true)).
  - by rewrite filter_cons_True.
  - rewrite filter_cons_False by done. cbn. lia.
Qed.

Lemma delete_thread_twice_witness :
  fst (get_thread DELETE "t-1" sample_store)
  = mk_response (PDict [(PStr "message", PStr "Thread deleted successfully")]) 200
  /\ fst (get_thread DELETE "t-1" (snd (get_thread DELETE "t-1" sample_store)))
     = mk_response (error_body "Thread not found") 404
  /\ snd (get_thread DELETE "t-1" (snd (get_thread DELETE "t-1" sample_store)))
     = snd (get_thread DELETE "t-1" sample_store).
Proof.
  apply (delete_thread_twice "t-1" sample_store).
  - exact unique_ids_sample.
  - exists sample_thread. split; [by left | reflexivity].
Defined.

(** ** Thread store: reporting a message *)

Lemma field_some_truthy name doc v : field name doc = Some v -> py_truthy doc = true.
Proof.
  destruct doc as [| | | | | d |]; try discriminate.
  by destruct d.
Qed.

Lemma field_getitem name doc v :
  field name doc = Some v -> py_getitem doc name = Return v.
Proof.
  destruct doc as [| | | | | d |]; try discriminate.
  cbn [field py_getitem]. by intros ->.
Qed.

Lemma existsb_find {A} (p : A -> bool) (l : list A) :
  existsb p l = match List.find p l with Some _ => true | None => false end.
Proof.
  induction l as [| x l IH]; cbn [existsb List.find]; [done|].
  by destruct (p x).
Qed.

Lemma first_message_shaped message_id (messages : list pyval) :
  forallb message_shaped messages = true ->
  first_message message_id messages
  = Return (List.find (message_has_id message_id) messages).
Proof.
  induction messages as [| m rest IH]; cbn [forallb first_message List.find]; [done|].
  intros H. apply andb_true_iff in H as [Hm Hrest].
  unfold message_shaped in Hm. unfold message_has_id at 1.
  destruct (field "id" m) as [v|] eqn:E; [|discriminate].
  rewrite (field_getitem _ _ _ E). cbn [mbind outcome_bind bind].
  destruct (py_eqb v (PStr message_id)); [done | by apply IH].
Qed.

Lemma find_message_truthy message_id (messages : list pyval) m :
  List.find (message_has_id message_id) messages = Some m -> py_truthy m = true.
Proof.
  intros H. apply List.find_some in H as [_ H]. unfold message_has_id in H.
  destruct (field "id" m) as [v|] eqn:E; [|discriminate].
  by apply (field_some_truthy _ _ _ E).
Qed.

(** C8: [report_message] returns the collection it was given, whatever
    the identifiers; on a store of thread documents the answer is 404
    when the thread or the message is absent and 200 otherwise. *)
Theorem report_message_no_effect
    (method : http_method) (thread_id message_id : string) (coll : collection) :
  snd (report_message method thread_id message_id coll) = coll
  /\ (Forall (fun doc => thread_shaped doc = true) coll ->
      fst (report_message POST thread_id message_id coll)
      = match find_one thread_id coll with
        | None => mk_response (error_body "Thread not found") 404
        | Some thread =>
            if has_message message_id thread
            then mk_response (PDict [(PStr "status", PStr "Message reported")]) 200
            else mk_response (error_body "Message not found") 404
        end).
Proof.
  split; [by destruct method|].
  intros Hshape. unfold report_message. cbn [fst].
  destruct (find_one thread_id coll) as [thread|] eqn:Hfind; [|done].
  apply find_one_some in Hfind as [Hin _].
  rewrite Forall_forall in Hshape. specialize (Hshape thread Hin).
  unfold thread_shaped in Hshape. unfold has_message, thread_messages.
  destruct (field "messages" thread) as [[| | | | messages | |]|] eqn:E;
    try discriminate.
  rewrite (field_some_truthy _ _ _ E), (field_getitem _ _ _ E).
  cbn [negb mbind outcome_bind bind py_iter].
  rewrite (first_message_shaped _ _ Hshape), existsb_find.
  cbn [mbind outcome_bind bind].
  destruct (List.find (message_has_id message_id) messages) as [m|] eqn:Hm; [|done].
  by rewrite (find_message_truthy _ _ _ Hm).
Qed.

Lemma report_message_no_effect_witness :
  snd (report_message POST "t-1" "m-1" sample_store) = sample_store
  /\ fst (report_message POST "t-1" "m-1" sample_store)
     = mk_response (PDict [(PStr "status", PStr "Message reported")]) 200.
Proof.
  destruct (report_message_no_effect POST "t-1" "m-1" sample_store) as [Hstore Hresp].
  split; [exact Hstore|].
  rewrite Hresp; [reflexivity|].
  repeat constructor.
Defined.

Example report_message_absent :
  fst (report_message POST "t-2" "m-1" sample_store)
  = mk_response (error_body "Thread not found") 404
  /\ fst (report_message POST "t-1" "m-9" sample_store)
     = mk_response (error_body "Message not found") 404.
Proof. split; reflexivity. Qed.

(** ** Thread store: creating a thread *)

Lemma missing_fields_absent data k1 k2 :
  data = PNone \/
  (exists d, data = PDict d /\
     (dict_get (PStr k1) d = None \/ dict_get (PStr k2) d = None)) ->
  missing_fields data k1 k2 = Return true.
Proof.
  intros [-> | (d & -> & H)]; [reflexivity|].
  unfold missing_fields. destruct (py_truthy (PDict d)); [|reflexivity].
  cbn [negb py_in mbind outcome_bind bind].
  destruct (dict_get (PStr k1) d); [|reflexivity].
  destruct H as [H | H]; [discriminate|]. by rewrite H.
Qed.

Lemma missing_fields_present data k1 k2 v1 v2 :
  field k1 data = Some v1 -> field k2 data = Some v2 ->
  missing_fields data k1 k2 = Return false.
Proof.
  intros H1 H2. unfold missing_fields.
  rewrite (field_some_truthy _ _ _ H1).
  destruct data as [| | | | | d |]; try discriminate.
  cbn [field] in H1, H2. cbn [negb py_in mbind outcome_bind bind].
  by rewrite H1, H2.
Qed.

Lemma filter_no_match thread_id (coll : collection) :
  find_one thread_id coll = None ->
  filter (fun doc => matches_id thread_id doc = true) coll = [].
Proof.
  unfold find_one. induction coll as [| d rest IH]; cbn [List.find]; [done|].
  destruct (matches_id thread_id d) eqn:E; [discriminate|].
  intros H. rewrite filter_cons_False by (by rewrite E). by apply IH.
Qed.

Lemma matches_stored_thread thread_id new_id title description now oid :
  matches_id thread_id (stored_thread new_id title description now oid)
  = String.eqb new_id thread_id.
Proof. reflexivity. Qed.

(** A thread stored under a fresh identifier keeps identifiers
    unique. *)
Lemma unique_ids_stored (coll : collection) new_id title description now oid :
  find_one new_id coll = None -> unique_ids coll ->
  unique_ids (coll ++ [stored_thread new_id title description now oid]).
Proof.
  intros Hfresh Hu tid. rewrite filter_app, length_app.
  destruct (String.eqb_spec new_id tid) as [<- | Hne].
  - rewrite (filter_no_match _ _ Hfresh).
    destruct (decide (matches_id new_id
                       (stored_thread new_id title description now oid) = true)).
    + by rewrite filter_cons_True.
    + rewrite filter_cons_False by done. cbn. lia.
  - rewrite filter_cons_False.
    + specialize (Hu tid). cbn [filter list_filter length]. lia.
    + rewrite matches_stored_thread. apply String.eqb_neq in Hne. by rewrite Hne.
Qed.

Lemma new_thread_of_present data title description new_id now :
  field "title" data = Some (PStr title) ->
  field "description" data = Some (PStr description) ->
  new_thread_of (Return data) new_id now
  = Return (inr (PDict [(PStr "id", PStr new_id);
                        (PStr "title", PStr (PyStr.strip title));
                        (PStr "description", PStr (PyStr.strip description));
                        (PStr "messages", PList []);
                        (PStr "created_at", PStr now)])).
Proof.
  intros Ht Hd. unfold new_thread_of. cbn [mbind outcome_bind bind].
  rewrite (missing_fields_present _ _ _ _ _ Ht Hd).
  cbn [mbind outcome_bind bind].
  by rewrite (field_getitem _ _ _ Ht), (field_getitem _ _ _ Hd).
Qed.

(** C3, as the code has it: a body that is empty or lacks [title] or
    [description] is answered 400 and nothing is stored; a body with a
    string [title] and [description], blank or not, stores one thread
    with the generated identifier, the trimmed title and description, no
    messages and the creation time, and identifiers stay unique when the
    generated one is fresh. *)
Theorem create_thread_by_design
    (data : pyval) (new_id now oid : string) (coll : collection) :
  let result := handle_threads POST (Return data) new_id now oid coll in
  (data = PNone \/
   (exists d, data = PDict d /\
      (dict_get (PStr "title") d = None \/ dict_get (PStr "description") d = None)) ->
   result = (mk_response (error_body "Missing title or description") 400, coll))
  /\ (forall title description,
        field "title" data = Some (PStr title) ->
        field "description" data = Some (PStr description) ->
        let thread := stored_thread new_id (PyStr.strip title)
                        (PyStr.strip description) now oid in
        snd result = coll ++ [thread]
        /\ thread_messages thread = []
        /\ (find_one new_id coll = None -> unique_ids coll ->
            unique_ids (snd result))).
Proof.
  intros result. subst result. split.
  - intros H. unfold handle_threads, new_thread_of. cbn [mbind outcome_bind bind].
    by rewrite (missing_fields_absent _ _ _ H).
  - intros title description Ht Hd thread. subst thread.
    assert (Hsnd : snd (handle_threads POST (Return data) new_id now oid coll)
                   = coll ++ [stored_thread new_id (PyStr.strip title)
                                (PyStr.strip description) now oid]).
    { unfold handle_threads. by rewrite (new_thread_of_present _ _ _ _ _ Ht Hd). }
    split; [exact Hsnd|]. split; [reflexivity|].
    intros Hfresh Hu. rewrite Hsnd. by apply unique_ids_stored.
Qed.

Lemma create_thread_by_design_witness :
  handle_threads POST (Return (PDict [(PStr "title", PStr "Exam")]))
    "t-2" "2024-05-02T08:00:00" "65f1" sample_store
  = (mk_response (error_body "Missing title or description") 400, sample_store)
  /\ snd (handle_threads POST
            (Return (PDict [(PStr "title", PStr " Exam ");
                            (PStr "description", PStr "About the exam")]))
            "t-2" "2024-05-02T08:00:00" "65f1" sample_store)
     = sample_store ++ [stored_thread "t-2" "Exam" "About the exam"
                          "2024-05-02T08:00:00" "65f1"].
Proof.
  split.
  - destruct (create_thread_by_design (PDict [(PStr "title", PStr "Exam")])
                "t-2" "2024-05-02T08:00:00" "65f1" sample_store) as [H _].
    apply H. right. eexists. split; [reflexivity|]. right. reflexivity.
  - destruct (create_thread_by_design
                (PDict [(PStr "title", PStr " Exam ");
                        (PStr "description", PStr "About the exam")])
                "t-2" "2024-05-02T08:00:00" "65f1" sample_store) as [_ H].
    destruct (H " Exam "%string "About the exam"%string eq_refl eq_refl) as [Hs _].
    exact Hs.
Defined.

(** C3, as stated, fails: a title of blanks is empty after trimming,
    yet the request is not answered 400 and the thread is stored with
    an empty title; and a request with a proper title and description
    is not answered 201, because the document handed to [jsonify]
    carries the [ObjectId] that the insertion added to it. *)
Lemma blank_title_is_stored :
  let blank := PDict [(PStr "title", PStr "   ");
                      (PStr "description", PStr "About the exam")] in
  let proper := PDict [(PStr "title", PStr "Exam");
                       (PStr "description", PStr "About the exam")] in
  PyStr.strip "   " = EmptyString
  /\ resp_status (fst (handle_threads POST (Return blank) "t-2"
                         "2024-05-02T08:00:00" "65f1" [])) <> 400
  /\ snd (handle_threads POST (Return blank) "t-2" "2024-05-02T08:00:00" "65f1" [])
     = [stored_thread "t-2" EmptyString "About the exam" "2024-05-02T08:00:00" "65f1"]
  /\ resp_status (fst (handle_threads POST (Return proper) "t-2"
                         "2024-05-02T08:00:00" "65f1" [])) <> 201.
Proof. repeat split; vm_compute; discriminate. Qed.

(** ** Thread store: appending a message *)

Lemma matches_id_truthy thread_id doc :
  matches_id thread_id doc = true -> py_truthy doc = true.
Proof.
  unfold matches_id. destruct (field "id" doc) as [v|] eqn:E; [|discriminate].
  intros _. by apply (field_some_truthy _ _ _ E).
Qed.

(** The update reaches the first matching thread and appends to its
    [messages]; the documents before and after it are untouched. *)
Lemma update_one_push_found thread_id v (coll : collection) thread messages :
  find_one thread_id coll = Some thread ->
  field "messages" thread = Some (PList messages) ->
  exists before after d,
    thread = PDict d
    /\ coll = before ++ thread :: after
    /\ find_one thread_id before = None
    /\ update_one_push thread_id v coll
       = Return (1, before
                    ++ PDict (dict_set (PStr "messages") (PList (messages ++ [v])) d)
                    :: after).
Proof.
  unfold find_one. induction coll as [| doc rest IH];
    cbn [List.find update_one_push]; [discriminate|].
  destruct (matches_id thread_id doc) eqn:E.
  - intros [= ->] Hm. destruct thread as [| | | | | d |]; try discriminate.
    exists [], rest, d. repeat split.
    cbn [field] in Hm. cbn [push_field]. by rewrite Hm.
  - intros Hf Hm. destruct (IH Hf Hm) as (before & after & d & -> & -> & Hb & Hu).
    exists (doc :: before), after, d. repeat split.
    + cbn [List.find]. by rewrite E.
    + by rewrite Hu.
Qed.

Lemma new_message_of_present thread_id data text sender new_id now
    (coll : collection) :
  field "text" data = Some (PStr text) ->
  field "sender" data = Some (PStr sender) ->
  new_message_of thread_id (Return data) new_id now coll
  = match find_one thread_id coll with
    | None => Return (inl (mk_response (error_body "Thread not found") 404))
    | Some _ =>
        Return (inr (appended_message new_id (PyStr.strip text)
                       (PyStr.strip sender) now))
    end.
Proof.
  intros Ht Hs. unfold new_message_of. cbn [mbind outcome_bind bind].
  rewrite (missing_fields_present _ _ _ _ _ Ht Hs).
  cbn [mbind outcome_bind bind].
  destruct (find_one thread_id coll) as [thread|] eqn:Hf; [|done].
  apply find_one_some in Hf as [_ Hm].
  rewrite (matches_id_truthy _ _ Hm). cbn [negb].
  by rewrite (field_getitem _ _ _ Ht), (field_getitem _ _ _ Hs).
Qed.

(** C4, as the code has it: a body that is empty or lacks [text] or
    [sender] is answered 400; with both present as strings, blank or
    not, an absent thread is answered 404 and the store is unchanged,
    and for a thread that is present the answer is 201 with the new
    message (generated identifier, trimmed text and sender, timestamp,
    [pinned] false), that message is appended to the first matching
    thread's sequence, and nothing else in the store changes. *)
Theorem add_message_by_design
    (thread_id : string) (data : pyval) (new_id now : string) (coll : collection) :
  let result := add_message POST thread_id (Return data) new_id now coll in
  (data = PNone \/
   (exists d, data = PDict d /\
      (dict_get (PStr "text") d = None \/ dict_get (PStr "sender") d = None)) ->
   result = (mk_response (error_body "Missing text or sender") 400, coll))
  /\ (forall text sender,
        field "text" data = Some (PStr text) ->
        field "sender" data = Some (PStr sender) ->
        let message := appended_message new_id (PyStr.strip text)
                         (PyStr.strip sender) now in
        match find_one thread_id coll with
        | None => result = (mk_response (error_body "Thread not found") 404, coll)
        | Some thread =>
            forall messages,
              field "messages" thread = Some (PList messages) ->
              fst result = mk_response message 201
              /\ exists before thread' after,
                   coll = before ++ thread :: after
                   /\ find_one thread_id before = None
                   /\ snd result = before ++ thread' :: after
                   /\ thread_messages thread' = messages ++ [message]
                   /\ (forall name, name <> "messages"%string ->
                                    field name thread' = field name thread)
        end).
Proof.
  intros result. subst result. split.
  - intros H. unfold add_message, new_message_of. cbn [mbind outcome_bind bind].
    by rewrite (missing_fields_absent _ _ _ H).
  - intros text sender Ht Hs message. subst message.
    unfold add_message. rewrite (new_message_of_present _ _ _ _ _ _ _ Ht Hs).
    destruct (find_one thread_id coll) as [thread|] eqn:Hf; [|done].
    intros messages Hm.
    destruct (update_one_push_found thread_id
                (appended_message new_id (PyStr.strip text) (PyStr.strip sender) now)
                coll thread messages Hf Hm)
      as (before & after & d & -> & Hcoll & Hb & ->).
    cbn [fst snd Z.eqb Pos.eqb]. split; [reflexivity|].
    exists before, (PDict (dict_set (PStr "messages")
                      (PList (messages ++ [appended_message new_id (PyStr.strip text)
                                             (PyStr.strip sender) now])) d)), after.
    repeat split; try done.
    + unfold thread_messages. cbn [field]. by rewrite dict_get_set_eq.
    + intros name Hne. cbn [field]. by apply dict_get_set_ne.
Qed.

Lemma add_message_by_design_witness :
  add_message POST "t-1" (Return (PDict [(PStr "text", PStr "hi")]))
    "m-2" "2024-05-02T08:00:00" sample_store
  = (mk_response (error_body "Missing text or sender") 400, sample_store)
  /\ add_message POST "t-9"
       (Return (PDict [(PStr "text", PStr "hi"); (PStr "sender", PStr "bob")]))
       "m-2" "2024-05-02T08:00:00" sample_store
     = (mk_response (error_body "Thread not found") 404, sample_store)
  /\ fst (add_message POST "t-1"
            (Return (PDict [(PStr "text", PStr " hi "); (PStr "sender", PStr "bob")]))
            "m-2" "2024-05-02T08:00:00" sample_store)
     = mk_response (appended_message "m-2" "hi" "bob" "2024-05-02T08:00:00") 201.
Proof.
  split; [|split].
  - destruct (add_message_by_design "t-1" (PDict [(PStr "text", PStr "hi")])
                "m-2" "2024-05-02T08:00:00" sample_store) as [H _].
    apply H. right. eexists. split; [reflexivity|]. right. reflexivity.
  - destruct (add_message_by_design "t-9"
                (PDict [(PStr "text", PStr "hi"); (PStr "sender", PStr "bob")])
                "m-2" "2024-05-02T08:00:00" sample_store) as [_ H].
    exact (H "hi"%string "bob"%string eq_refl eq_refl).
  - destruct (add_message_by_design "t-1"
                (PDict [(PStr "text", PStr " hi "); (PStr "sender", PStr "bob")])
                "m-2" "2024-05-02T08:00:00" sample_store) as [_ H].
    destruct (H " hi "%string "bob"%string eq_refl eq_refl [sample_message] eq_refl)
      as [Hr _].
    exact Hr.
Defined.

(** C4, as stated, fails: a text of blanks is empty after trimming and
    the message is appended and answered 201; and a request without
    [text] for a thread that is absent is answered 400, not 404. *)
Lemma blank_message_is_appended :
  let blank := PDict [(PStr "text", PStr "   "); (PStr "sender", PStr "bob")] in
  let message := appended_message "m-2" EmptyString "bob" "2024-05-02T08:00:00" in
  PyStr.strip "   " = EmptyString
  /\ fst (add_message POST "t-1" (Return blank) "m-2" "2024-05-02T08:00:00"
            sample_store)
     = mk_response message 201
  /\ (thread_messages <$>
        snd (add_message POST "t-1" (Return blank) "m-2" "2024-05-02T08:00:00"
               sample_store))
     = [[sample_message; message]]
  /\ find_one "t-9" sample_store = None
  /\ resp_status
       (fst (add_message POST "t-9" (Return (PDict [(PStr "sender", PStr "bob")]))
               "m-2" "2024-05-02T08:00:00" sample_store)) = 400.
Proof. repeat split; vm_compute; reflexivity. Qed.

(** ** Thread store: invariants *)

Lemma new_thread_of_inr body new_id now thread :
  new_thread_of body new_id now = Return (inr thread) ->
  exists title description,
    thread = PDict [(PStr "id", PStr new_id);
                    (PStr "title", PStr title);
                    (PStr "description", PStr description);
                    (PStr "messages", PList []);
                    (PStr "created_at", PStr now)].
Proof.
  unfold new_thread_of. destruct body as [data | e]; [|discriminate].
  cbn [mbind outcome_bind bind].
  destruct (missing_fields data "title" "description") as [[] | e];
    cbn [mbind outcome_bind bind]; try discriminate.
  destruct (py_getitem data "title") as [t | e];
    cbn [mbind outcome_bind bind]; [|discriminate].
  destruct (py_strip t) as [title | e]; cbn [mbind outcome_bind bind]; [|discriminate].
  destruct (py_getitem data "description") as [ds | e];
    cbn [mbind outcome_bind bind]; [|discriminate].
  destruct (py_strip ds) as [description | e];
    cbn [mbind outcome_bind bind]; [|discriminate].
  intros [= <-]. by exists title, description.
Qed.

(** Creation either leaves the store or appends one thread document. *)
Lemma handle_threads_post_store body new_id now oid (coll : collection) :
  snd (handle_threads POST body new_id now oid coll) = coll
  \/ exists title description,
       snd (handle_threads POST body new_id now oid coll)
       = coll ++ [stored_thread new_id title description now oid].
Proof.
  unfold handle_threads.
  destruct (new_thread_of body new_id now) as [[early | thread] | e] eqn:E;
    [by left | | by left].
  destruct (new_thread_of_inr _ _ _ _ E) as (title & description & ->).
  right. by exists title, description.
Qed.

Lemma new_message_of_inr thread_id body new_id now (coll : collection) message :
  new_message_of thread_id body new_id now coll = Return (inr message) ->
  message_shaped message = true.
Proof.
  unfold new_message_of. destruct body as [data | e]; [|discriminate].
  cbn [mbind outcome_bind bind].
  destruct (missing_fields data "text" "sender") as [[] | e];
    cbn [mbind outcome_bind bind]; try discriminate.
  destruct (find_one thread_id coll) as [thread|]; [|discriminate].
  destruct (negb (py_truthy thread)); [discriminate|].
  destruct (py_getitem data "text") as [t | e];
    cbn [mbind outcome_bind bind]; [|discriminate].
  destruct (py_strip t) as [text | e]; cbn [mbind outcome_bind bind]; [|discriminate].
  destruct (py_getitem data "sender") as [s | e];
    cbn [mbind outcome_bind bind]; [|discriminate].
  destruct (py_strip s) as [sender | e]; cbn [mbind outcome_bind bind]; [|discriminate].
  by intros [= <-].
Qed.

(** A push to [messages] keeps the identifier of the document, and
    keeps its shape when the pushed value is a message. *)
Lemma push_field_messages v doc doc' :
  push_field "messages" v doc = Return doc' ->
  (forall thread_id, matches_id thread_id doc' = matches_id thread_id doc)
  /\ (message_shaped v = true -> thread_shaped doc = true ->
      thread_shaped doc' = true).
Proof.
  destruct doc as [| | | | | d |]; try discriminate. cbn [push_field].
  destruct (dict_get (PStr "messages") d) as [[| | | | l | |]|] eqn:E;
    try discriminate; intros [= <-]; split.
  - intros tid. unfold matches_id. cbn [field]. by rewrite dict_get_set_ne.
  - intros Hv Hd. unfold thread_shaped in *. cbn [field] in *. rewrite E in Hd.
    rewrite dict_get_set_eq, forallb_app, Hd. cbn [forallb]. by rewrite Hv.
  - intros tid. unfold matches_id. cbn [field]. by rewrite dict_get_set_ne.
  - intros Hv _. unfold thread_shaped. cbn [field].
    rewrite dict_get_set_eq. cbn [forallb]. by rewrite Hv.
Qed.

Lemma update_one_push_invariants thread_id v (coll coll' : collection) n :
  update_one_push thread_id v coll = Return (n, coll') ->
  (forall tid, length (filter (fun doc => matches_id tid doc = true) coll')
                  = length (filter (fun doc => matches_id tid doc = true) coll))
  /\ (message_shaped v = true ->
      Forall (fun doc => thread_shaped doc = true) coll ->
      Forall (fun doc => thread_shaped doc = true) coll').
Proof.
  revert coll' n. induction coll as [| doc rest IH]; intros coll' n;
    cbn [update_one_push].
  - by intros [= <- <-].
  - destruct (matches_id thread_id doc) eqn:E.
    + destruct (push_field "messages" v doc) as [doc' | e] eqn:Hp;
        cbn [mbind outcome_bind bind]; [|discriminate].
      intros [= <- <-]. destruct (push_field_messages _ _ _ Hp) as [Hid Hshape].
      assert (Hlen : forall tid,
                 length (filter (fun doc => matches_id tid doc = true) (doc' :: rest))
                 = length (filter (fun doc => matches_id tid doc = true) (doc :: rest))).
      { intros tid. destruct (matches_id tid doc) eqn:Ed.
        - rewrite !filter_cons_True by (by rewrite ?Hid). done.
        - rewrite !filter_cons_False by (by rewrite ?Hid, Ed). done. }
      split; [exact Hlen|].
      intros Hv Hall. apply Forall_cons in Hall as [Hd Hr].
      apply Forall_cons. split; [by apply Hshape | done].
    + destruct (update_one_push thread_id v rest) as [[m rest'] | e] eqn:Hu;
        cbn [mbind outcome_bind bind]; [|discriminate].
      intros [= <- <-]. destruct (IH rest' m eq_refl) as (Hlen & Hshape).
      assert (Hlen' : forall tid,
                 length (filter (fun doc => matches_id tid doc = true) (doc :: rest'))
                 = length (filter (fun doc => matches_id tid doc = true) (doc :: rest))).
      { intros tid. destruct (matches_id tid doc) eqn:Ed.
        - rewrite !filter_cons_True by done. cbn [length]. by rewrite Hlen.
        - rewrite !filter_cons_False by (by rewrite Ed). done. }
      split; [exact Hlen'|].
      intros Hv Hall. apply Forall_cons in Hall as [Hd Hr].
      apply Forall_cons. split; [done | by apply Hshape].
Qed.

Lemma delete_one_filter thread_id tid (coll : collection) :
  (length (filter (fun doc => matches_id tid doc = true)
             (snd (delete_one thread_id coll)))
   <= length (filter (fun doc => matches_id tid doc = true) coll))%nat.
Proof.
  induction coll as [| doc rest IH]; cbn [delete_one]; [done|].
  destruct (matches_id thread_id doc).
  - cbn [snd]. destruct (decide (matches_id tid doc = true)).
    + rewrite filter_cons_True by done. cbn [length]. lia.
    + by rewrite filter_cons_False.
  - destruct (delete_one thread_id rest) as [n rest']. cbn [snd] in *.
    destruct (decide (matches_id tid doc = true)).
    + rewrite !filter_cons_True by done. cbn [length]. lia.
    + by rewrite !filter_cons_False.
Qed.

Lemma delete_one_Forall thread_id (P : pyval -> Prop) (coll : collection) :
  Forall P coll -> Forall P (snd (delete_one thread_id coll)).
Proof.
  induction coll as [| doc rest IH]; cbn [delete_one]; [done|].
  intros H. apply Forall_cons in H as [Hd Hr].
  destruct (matches_id thread_id doc); [done|].
  specialize (IH Hr). destruct (delete_one thread_id rest) as [n rest'].
  cbn [snd] in *. by apply Forall_cons.
Qed.

(** Every request keeps identifiers unique, given a fresh identifier for
    a new thread, and keeps the shape of the stored threads. *)
Lemma serve_invariants r (coll : collection) :
  fresh_request r coll ->
  unique_ids coll /\ Forall (fun doc => thread_shaped doc = true) coll ->
  unique_ids (snd (serve r coll))
  /\ Forall (fun doc => thread_shaped doc = true) (snd (serve r coll)).
Proof.
  intros Hfresh [Hu Hs]. destruct r as [body new_id now oid | tid | tid body new_id now | tid mid];
    cbn [serve fresh_request] in *.
  - destruct (handle_threads_post_store body new_id now oid coll)
      as [-> | (title & description & ->)]; [done|].
    split; [by apply unique_ids_stored|].
    apply Forall_app. split; [done|]. by apply Forall_singleton.
  - rewrite get_thread_delete. cbn [snd].
    split; [|by apply delete_one_Forall].
    intros tid'. specialize (Hu tid').
    pose proof (delete_one_filter tid tid' coll). lia.
  - unfold add_message.
    destruct (new_message_of tid body new_id now coll) as [[early | message] | e] eqn:E;
      [done | | done].
    pose proof (new_message_of_inr _ _ _ _ _ _ E) as Hm.
    destruct (update_one_push tid message coll) as [[n coll'] | e] eqn:Hup; [|done].
    cbn [snd]. destruct (update_one_push_invariants _ _ _ _ _ Hup) as (Hlen & Hshape).
    split; [|by apply Hshape].
    intros tid'. rewrite Hlen. apply Hu.
  - done.
Qed.

(** The stores the handlers build satisfy both invariants: the
    hypotheses of the deletion and report theorems. *)
Lemma reachable_invariants (coll : collection) :
  reachable coll ->
  unique_ids coll /\ Forall (fun doc => thread_shaped doc = true) coll.
Proof.
  induction 1 as [| coll r Hreach IH Hfresh].
  - split; [|done]. intros tid. cbn. lia.
  - by apply serve_invariants.
Qed.

(** * Further properties of the handlers *)

(** ** The temp file of [process_pdf] *)

Lemma list_mem_app_tail x (l : list string) : list_mem x (l ++ [x]) = true.
Proof.
  unfold list_mem. rewrite existsb_app. cbn [existsb].
  by rewrite String.eqb_refl, orb_true_r.
Qed.

Lemma list_remove_app_tail x (l : list string) :
  list_mem x l = false -> list_remove x (l ++ [x]) = l.
Proof.
  unfold list_mem. induction l as [| y r IH]; cbn [existsb list_remove app].
  - by rewrite String.eqb_refl.
  - intros H. apply orb_false_iff in H as [Hy Hr]. rewrite Hy. by rewrite IH.
Qed.

(** X1: whatever the request and however it is answered, [process_pdf]
    leaves the disk, the registry and the log as it found them, for a
    fresh temp name that the system lets it remove. *)
Theorem process_pdf_leaves_no_temp_file
    (PdfReader : string -> outcome pdf_reader)
    (generate_content : prompt -> outcome string)
    (secure_filename : string -> string)
    (req : pdf_request) (tmp_path : string) (st : files) :
  tmp_path <> EmptyString ->
  disk st !! tmp_path = None ->
  tmp_path ∉ undeletable st ->
  list_mem tmp_path (temp_files st) = false ->
  snd (process_pdf PdfReader generate_content secure_filename req tmp_path st) = st.
Proof.
  intros Hne Hfresh Hdel Hreg. unfold process_pdf.
  destruct (files_pdf req) as [file|]; [|done].
  destruct (String.eqb (filename file) EmptyString); [done|].
  destruct (negb _); [done|]. cbn [snd].
  pose proof Hne as Hne'. apply String.eqb_neq in Hne'. rewrite Hne'.
  destruct (cleanup_file_removed tmp_path
              (mk_files (<[tmp_path := content file]> (disk st)) (undeletable st)
                 (temp_files st ++ [tmp_path]) (log st)) (content file))
    as [-> _]; [done | apply lookup_insert_eq | done |].
  cbn [after disk undeletable temp_files log].
  rewrite list_mem_app_tail, list_remove_app_tail by done.
  rewrite delete_insert_eq, delete_id by done.
  by destruct st.
Qed.

Lemma process_pdf_leaves_no_temp_file_witness :
  snd (process_pdf sample_reader sample_generate sample_secure_filename
         (sample_request "2-4") sample_tmp no_files) = no_files.
Proof.
  apply (process_pdf_leaves_no_temp_file sample_reader sample_generate
           sample_secure_filename (sample_request "2-4") sample_tmp no_files).
  - discriminate.
  - apply lookup_empty.
  - set_solver.
  - reflexivity.
Defined.

(** X2: when the system refuses the removal, an upload that passed the
    file checks stays on disk under the temp name and in the registry,
    and one warning is logged; the response is not affected. *)
Theorem process_pdf_refused_removal
    (PdfReader : string -> outcome pdf_reader)
    (generate_content : prompt -> outcome string)
    (secure_filename : string -> string)
    (req : pdf_request) (file : upload) (tmp_path : string) (st : files) :
  files_pdf req = Some file ->
  filename file <> EmptyString ->
  PyStr.endswith ".pdf" (PyStr.lower (filename file)) = true ->
  tmp_path <> EmptyString ->
  tmp_path ∈ undeletable st ->
  snd (process_pdf PdfReader generate_content secure_filename req tmp_path st)
  = mk_files (<[tmp_path := content file]> (disk st)) (undeletable st)
      (temp_files st ++ [tmp_path])
      (log st ++ [LogWarning ("Failed to delete " +:+ tmp_path +:+ ": "
                              +:+ str_exn (PermissionError tmp_path))]).
Proof.
  intros Hfile Hname Hext Hne Hund. unfold process_pdf. rewrite Hfile.
  apply String.eqb_neq in Hname. rewrite Hname, Hext. cbn [negb snd].
  pose proof Hne as Hne'. apply String.eqb_neq in Hne'. rewrite Hne'.
  destruct (cleanup_file_refused tmp_path
              (mk_files (<[tmp_path := content file]> (disk st)) (undeletable st)
                 (temp_files st ++ [tmp_path]) (log st)) (content file))
    as [_ ->]; [done | apply lookup_insert_eq | done |].
  reflexivity.
Qed.

Lemma process_pdf_refused_removal_witness :
  snd (process_pdf sample_reader sample_generate sample_secure_filename
         (sample_request "2-4") sample_tmp
         (mk_files ∅ {[ sample_tmp ]} [] []))
  = mk_files {[ sample_tmp := content sample_upload ]} {[ sample_tmp ]}
      [sample_tmp]
      [LogWarning ("Failed to delete " +:+ sample_tmp +:+ ": "
                   +:+ str_exn (PermissionError sample_tmp))].
Proof.
  rewrite (process_pdf_refused_removal sample_reader sample_generate
             sample_secure_filename (sample_request "2-4") sample_upload sample_tmp
             (mk_files ∅ {[ sample_tmp ]} [] [])).
  - cbn [disk undeletable temp_files log app]. by rewrite insert_empty.
  - reflexivity.
  - discriminate.
  - reflexivity.
  - discriminate.
  - set_solver.
Defined.


(** ** Page selection at and beyond the bounds *)

Lemma take_drop_clamp {A} (l : list A) (lo n hi : Z) :
  0 <= lo -> 0 <= hi -> n = Z.of_nat (length l) ->
  take (Z.to_nat (Z.min hi n - Z.min lo n)) (drop (Z.to_nat (Z.min lo n)) l)
  = take (Z.to_nat (hi - lo)) (drop (Z.to_nat lo) l).
Proof.
  intros Hlo Hhi ->.
  destruct (Z.le_gt_cases (Z.of_nat (length l)) lo) as [Hge | Hlt].
  - rewrite (Z.min_r lo) by lia.
    rewrite !drop_ge by lia. by rewrite !take_nil.
  - rewrite (Z.min_l lo) by lia.
    destruct (Z.le_gt_cases (Z.of_nat (length l)) hi) as [Hge' | Hlt'].
    + rewrite (Z.min_r hi) by lia.
      rewrite !take_ge; [done | rewrite length_drop; lia | rewrite length_drop; lia].
    + by rewrite (Z.min_l hi) by lia.
Qed.

(** X3: a range ["a-b"] with [a >= 1], written with numerals that
    [int] reads (at most 4300 digits each), never fails on a document
    whose pages can be counted: it selects the pages from [a] up to [b]
    that the document has, and reads none of them yet.  A reversed
    range, or one that starts past the last page, selects nothing, and
    an end past the last page is cut at the last page. *)
Theorem select_pages_clamps (reader : pdf_reader) (page_count : nat) (a b : Z) :
  pages_len reader = Return page_count ->
  1 <= a -> a < 10 ^ PyStr.max_str_digits ->
  0 <= b -> b < 10 ^ PyStr.max_str_digits ->
  let positions :=
    take (Z.to_nat (b - a + 1)) (drop (Z.to_nat (a - 1)) (seq 0 page_count)) in
  select_pages reader (range_string a b) = Return (PageSlice positions)
  /\ (b < a -> positions = [])
  /\ (Z.of_nat page_count < a -> positions = [])
  /\ (Z.of_nat page_count <= b ->
      positions = seq (Z.to_nat (a - 1)) (page_count - Z.to_nat (a - 1))).
Proof.
  intros Hlen Ha Ha' Hb Hb' positions. subst positions.
  split; [|split; [|split]].
  - unfold select_pages. rewrite unpack_range_string by lia.
    cbn [mbind outcome_bind bind]. unfold slice_pages. rewrite Hlen.
    cbn [mbind outcome_bind bind]. unfold py_slice, slice_bound.
    destruct (a - 1 <? 0) eqn:E1; [apply Z.ltb_lt in E1; lia|].
    destruct (b <? 0) eqn:E2; [apply Z.ltb_lt in E2; lia|].
    rewrite take_drop_clamp by (lia || done).
    do 3 f_equal. lia.
  - intros Hlt. replace (Z.to_nat (b - a + 1)) with 0%nat by lia. done.
  - intros Hlt. rewrite drop_ge by (rewrite length_seq; lia). by rewrite take_nil.
  - intros Hge. rewrite take_ge by (rewrite length_drop, length_seq; lia).
    rewrite drop_seq. f_equal.
Qed.

Lemma select_pages_clamps_witness :
  select_pages sample_document (range_string 5 9)
  = Return (PageSlice [4; 5]%nat).
Proof.
  destruct (select_pages_clamps sample_document 6 5 9) as (H & _);
    [reflexivity | lia | | lia | | exact H];
    apply ssize_within_limit; unfold max_ssize; lia.
Defined.

(** X4: a range that starts at page 0 is read as [pages[-1:b]]: it
    selects the last page when the document has at most [b] pages, and
    nothing when it has more. *)
Theorem select_pages_from_zero (reader : pdf_reader) (page_count : nat) (b : Z) :
  pages_len reader = Return page_count ->
  (0 < page_count)%nat ->
  0 <= b -> b < 10 ^ PyStr.max_str_digits ->
  select_pages reader (range_string 0 b)
  = Return (PageSlice (if Z.of_nat page_count <=? b
                       then [(page_count - 1)%nat] else [])).
Proof.
  intros Hlen Hpos Hb Hb'. unfold select_pages.
  rewrite unpack_range_string
    by (lia || (apply ssize_within_limit; unfold max_ssize; lia)).
  cbn [mbind outcome_bind bind]. unfold slice_pages. rewrite Hlen.
  cbn [mbind outcome_bind bind]. unfold py_slice, slice_bound.
  rewrite length_seq.
  change (0 - 1 <? 0) with true. cbv iota.
  destruct (b <? 0) eqn:E2; [apply Z.ltb_lt in E2; lia|].
  rewrite Z.max_r by lia. rewrite drop_seq.
  replace (0 + Z.to_nat (0 - 1 + Z.of_nat page_count))%nat
    with (page_count - 1)%nat by lia.
  replace (page_count - Z.to_nat (0 - 1 + Z.of_nat page_count))%nat
    with 1%nat by lia.
  destruct (Z.of_nat page_count <=? b) eqn:E.
  - apply Z.leb_le in E. rewrite Z.min_r by lia.
    replace (Z.to_nat (Z.of_nat page_count - (0 - 1 + Z.of_nat page_count)))
      with 1%nat by lia.
    done.
  - apply Z.leb_gt in E. rewrite Z.min_l by lia.
    replace (Z.to_nat (b - (0 - 1 + Z.of_nat page_count))) with 0%nat by lia.
    done.
Qed.

Lemma select_pages_from_zero_witness :
  select_pages sample_document (range_string 0 6) = Return (PageSlice [5%nat])
  /\ select_pages sample_document (range_string 0 3) = Return (PageSlice []).
Proof.
  split.
  - apply (select_pages_from_zero sample_document 6 6);
      [reflexivity | lia | lia | apply ssize_within_limit; unfold max_ssize; lia].
  - apply (select_pages_from_zero sample_document 6 3);
      [reflexivity | lia | lia | apply ssize_within_limit; unfold max_ssize; lia].
Defined.

(** ** The response of [process_pdf] *)

(** The response for an upload that passed the file checks, is not
    empty and opens as a PDF. *)
Lemma process_pdf_opened PdfReader generate_content secure_filename
    req file reader tmp_path st :
  files_pdf req = Some file ->
  filename file <> EmptyString ->
  PyStr.endswith ".pdf" (PyStr.lower (filename file)) = true ->
  content file <> EmptyString ->
  PdfReader (content file) = Return reader ->
  fst (process_pdf PdfReader generate_content secure_filename req tmp_path st)
  = try_except
      match pages_in_range reader (default "all"%string (form_page_range req)) with
      | Raise (ValueError _) =>
          Return (mk_response
                    (error_body "Invalid page range format. Use '1-5'") 400)
      | Raise e => Raise e
      | Return pages =>
          text ← join_pages reader pages;
          match question_parameters req with
          | Raise (ValueError _) =>
              Return (mk_response (error_body "Invalid question parameters") 400)
          | Raise e => Raise e
          | Return (num_questions, question_type) =>
              questions ← generate_content
                (QuestionPrompt num_questions question_type (str_slice text 0 20000));
              respond
                (PDict
                   [(PStr "questions", PStr questions);
                    (PStr "text", PStr (str_slice text 0 1000));
                    (PStr "metadata",
                     PDict
                       [(PStr "pages_processed",
                         pages_processed
                           (default "all"%string (form_page_range req)));
                        (PStr "word_count",
                         PInt (Z.of_nat (PyStr.count_words text)));
                        (PStr "filename",
                         PStr (secure_filename (filename file)))])])
                200
          end
      end
      (fun _ => mk_response (error_body "Failed to process PDF") 500).
Proof.
  intros Hfile Hname Hext Hcontent Hread.
  rewrite (process_pdf_accepted_upload _ _ _ _ _ _ _ Hfile Hname Hext).
  unfold process_pdf_saved. cbn [disk]. rewrite lookup_insert_eq.
  apply String.eqb_neq in Hcontent. by rewrite Hcontent, Hread.
Qed.

(** The join of pages that are all read. *)
Lemma join_pages_returns reader pages positions (selected : list page) :
  page_positions reader pages = Return positions ->
  Forall2 (fun i p => extract_text reader i = Return p) positions selected ->
  join_pages reader pages
  = Return (String.concat newline (map (default EmptyString) selected)).
Proof.
  intros Hpos Hsel. unfold join_pages. rewrite Hpos.
  cbn [mbind outcome_bind bind].
  rewrite (extract_texts_returns _ _ _ Hsel). cbn [mbind outcome_bind bind].
  rewrite join_is_concat. f_equal.
Qed.

Lemma question_parameters_bad req :
  parameters_ok req = false ->
  exists msg, question_parameters req = Raise (ValueError msg).
Proof.
  unfold parameters_ok, question_parameters. intros H.
  destruct (form_num_questions req) as [s|].
  - destruct (PyStr.int s) as [n|]; [|by eexists].
    cbn [mbind outcome_bind bind].
    destruct (form_question_type req) as [t|]; [|discriminate].
    cbn [default from_option id andb] in *. rewrite H. by eexists.
  - cbn [mbind outcome_bind bind].
    destruct (form_question_type req) as [t|]; [|discriminate].
    cbn [default from_option id andb] in *. rewrite H. by eexists.
Qed.

Lemma question_parameters_good req :
  parameters_ok req = true ->
  exists n question_type,
    question_parameters req = Return (n, question_type)
    /\ (question_type = "MCQ" \/ question_type = "Subjective")%string.
Proof.
  unfold parameters_ok, question_parameters. intros H.
  apply andb_true_iff in H as [Hn Ht].
  assert (Htype : exists question_type,
             String.eqb (default "MCQ"%string (form_question_type req)) "MCQ"
             || String.eqb (default "MCQ"%string (form_question_type req)) "Subjective"
             = true
             /\ default "MCQ"%string (form_question_type req) = question_type
             /\ (question_type = "MCQ" \/ question_type = "Subjective")%string).
  { destruct (form_question_type req) as [t|]; cbn [default from_option id].
    - exists t. split; [done|]. split; [done|].
      apply orb_true_iff in Ht as [Ht | Ht]; apply String.eqb_eq in Ht; auto.
    - exists "MCQ"%string. auto. }
  destruct Htype as (qt & Hok & Hqt & Hcases).
  destruct (form_num_questions req) as [s|].
  - destruct (PyStr.int s) as [n|]; [|discriminate].
    exists n, qt. cbn [mbind outcome_bind bind]. rewrite Hok, Hqt. done.
  - exists 5, qt. cbn [mbind outcome_bind bind]. rewrite Hok, Hqt. done.
Qed.

(** X5: once the page range is accepted and the selected pages are
    read, the request is answered with the 400 of the question
    parameters exactly when the count is given and [int] does not read
    it, or the type is given and is neither ['MCQ'] nor ['Subjective'].
    The count is not bounded: zero and negative counts are accepted. *)
Theorem invalid_question_parameters_iff
    (PdfReader : string -> outcome pdf_reader)
    (generate_content : prompt -> outcome string)
    (secure_filename : string -> string)
    (req : pdf_request) (file : upload) (reader : pdf_reader)
    (pages : page_list) (text tmp_path : string) (st : files) :
  files_pdf req = Some file ->
  filename file <> EmptyString ->
  PyStr.endswith ".pdf" (PyStr.lower (filename file)) = true ->
  content file <> EmptyString ->
  PdfReader (content file) = Return reader ->
  pages_in_range reader (default "all"%string (form_page_range req))
  = Return pages ->
  join_pages reader pages = Return text ->
  fst (process_pdf PdfReader generate_content secure_filename req tmp_path st)
  = mk_response (error_body "Invalid question parameters") 400
  <-> parameters_ok req = false.
Proof.
  intros Hfile Hname Hext Hcontent Hread Hpages Htext.
  rewrite (process_pdf_opened _ _ _ _ _ _ _ _ Hfile Hname Hext Hcontent Hread).
  rewrite Hpages, Htext. cbn [mbind outcome_bind bind]. split.
  - destruct (parameters_ok req) eqn:Hok; [|done].
    destruct (question_parameters_good req Hok) as (n & qt & -> & _).
    destruct (generate_content _) as [questions | e];
      cbn [mbind outcome_bind bind try_except]; [|discriminate].
    unfold respond, jsonify. destruct (serialisable _);
      cbn [mbind outcome_bind bind try_except]; discriminate.
  - intros Hbad. by destruct (question_parameters_bad req Hbad) as [msg ->].
Qed.

Lemma invalid_question_parameters_iff_witness :
  fst (process_pdf sample_reader sample_generate sample_secure_filename
         (mk_pdf_request (Some sample_upload) None (Some "five"%string) None)
         sample_tmp no_files)
  = mk_response (error_body "Invalid question parameters") 400.
Proof.
  apply (invalid_question_parameters_iff sample_reader sample_generate
           sample_secure_filename
           (mk_pdf_request (Some sample_upload) None (Some "five"%string) None)
           sample_upload sample_document AllPages
           ("one" +:+ newline +:+ newline +:+ "three" +:+ newline +:+ "four"
            +:+ newline +:+ "five" +:+ newline +:+ "six")
           sample_tmp no_files).
  - reflexivity.
  - discriminate.
  - reflexivity.
  - discriminate.
  - reflexivity.
  - reflexivity.
  - reflexivity.
  - reflexivity.
Defined.

(** A count of minus three is an integer literal and passes; a count
    padded with the separator U+001F, which [int] does not skip, and a
    type in lower case do not. *)
Example negative_count_accepted :
  parameters_ok (mk_pdf_request (Some sample_upload) None (Some "-3"%string)
                   (Some "Subjective"%string)) = true
  /\ parameters_ok (mk_pdf_request (Some sample_upload) None
                      (Some (String "031" "5")) None) = false
  /\ parameters_ok (mk_pdf_request (Some sample_upload) None None
                      (Some "mcq"%string)) = false.
Proof. repeat split; reflexivity. Qed.

(** X6: a request with a PDF and no form fields reads every page, asks
    for 5 MCQ questions from the first 20000 characters of the text, and
    answers 200 with the questions, the first 1000 characters of the
    text, ['all'] as [pages_processed], the word count of the whole text
    and the sanitised file name. *)
Theorem process_pdf_defaults
    (PdfReader : string -> outcome pdf_reader)
    (generate_content : prompt -> outcome string)
    (secure_filename : string -> string)
    (file : upload) (reader : pdf_reader) (pages : list page)
    (text questions tmp_path : string) (st : files) :
  filename file <> EmptyString ->
  PyStr.endswith ".pdf" (PyStr.lower (filename file)) = true ->
  content file <> EmptyString ->
  PdfReader (content file) = Return reader ->
  pages_len reader = Return (length pages) ->
  Forall2 (fun i p => extract_text reader i = Return p)
    (seq 0 (length pages)) pages ->
  text = String.concat newline (map (default EmptyString) pages) ->
  generate_content (QuestionPrompt 5 "MCQ" (str_slice text 0 20000))
  = Return questions ->
  fst (process_pdf PdfReader generate_content secure_filename
         (mk_pdf_request (Some file) None None None) tmp_path st)
  = mk_response
      (PDict
         [(PStr "questions", PStr questions);
          (PStr "text", PStr (str_slice text 0 1000));
          (PStr "metadata",
           PDict
             [(PStr "pages_processed", PStr "all");
              (PStr "word_count", PInt (Z.of_nat (PyStr.count_words text)));
              (PStr "filename", PStr (secure_filename (filename file)))])])
      200.
Proof.
  intros Hname Hext Hcontent Hread Hlen Hpages Htext Hgen.
  rewrite (process_pdf_opened _ _ _ (mk_pdf_request (Some file) None None None)
             file reader _ _ eq_refl Hname Hext Hcontent Hread).
  cbn [form_page_range default from_option id].
  change (pages_in_range reader "all") with (@Return page_list AllPages).
  cbv iota beta.
  rewrite (join_pages_returns reader AllPages (seq 0 (length pages)) pages);
    [| by cbn [page_positions]; rewrite Hlen | done].
  rewrite <- Htext. cbn [mbind outcome_bind bind].
  change (question_parameters (mk_pdf_request (Some file) None None None))
    with (@Return (Z * string) (5, "MCQ"%string)).
  cbv iota beta. rewrite Hgen. reflexivity.
Qed.

Lemma process_pdf_defaults_witness :
  resp_status
    (fst (process_pdf sample_reader sample_generate sample_secure_filename
            (mk_pdf_request (Some sample_upload) None None None) sample_tmp
            no_files)) = 200.
Proof.
  rewrite (process_pdf_defaults sample_reader sample_generate
             sample_secure_filename sample_upload sample_document sample_pages
             (String.concat newline (map (default EmptyString) sample_pages))
             "Q1) What is on page one?" sample_tmp no_files).
  - reflexivity.
  - discriminate.
  - reflexivity.
  - discriminate.
  - reflexivity.
  - reflexivity.
  - apply reader_of_reads.
  - reflexivity.
  - reflexivity.
Defined.

(** X7: a failure of the [PdfReader] constructor, a failure while the
    selected pages are read (counting the pages of the whole document,
    fetching a page, extracting its text) and a failure of the
    generation client are answered with the 500 of the handler,
    whatever is raised: a [ValueError] at these points is not taken for
    a bad page range. *)
Theorem process_pdf_external_failure
    (PdfReader : string -> outcome pdf_reader)
    (generate_content : prompt -> outcome string)
    (secure_filename : string -> string)
    (req : pdf_request) (file : upload) (tmp_path : string) (st : files) (e : exn) :
  files_pdf req = Some file ->
  filename file <> EmptyString ->
  PyStr.endswith ".pdf" (PyStr.lower (filename file)) = true ->
  content file <> EmptyString ->
  PdfReader (content file) = Raise e
  \/ (exists reader pages,
        PdfReader (content file) = Return reader
        /\ pages_in_range reader (default "all"%string (form_page_range req))
           = Return pages
        /\ join_pages reader pages = Raise e)
  \/ (exists reader pages text n question_type,
        PdfReader (content file) = Return reader
        /\ pages_in_range reader (default "all"%string (form_page_range req))
           = Return pages
        /\ join_pages reader pages = Return text
        /\ question_parameters req = Return (n, question_type)
        /\ generate_content
             (QuestionPrompt n question_type (str_slice text 0 20000))
           = Raise e) ->
  fst (process_pdf PdfReader generate_content secure_filename req tmp_path st)
  = mk_response (error_body "Failed to process PDF") 500.
Proof.
  intros Hfile Hname Hext Hcontent
    [Hread | [(reader & pages & Hread & Hp & Hj)
             | (reader & pages & text & n & qt & Hread & Hp & Hj & Hq & Hg)]].
  - rewrite (process_pdf_accepted_upload _ _ _ _ _ _ _ Hfile Hname Hext).
    unfold process_pdf_saved. cbn [disk]. rewrite lookup_insert_eq.
    apply String.eqb_neq in Hcontent. by rewrite Hcontent, Hread.
  - rewrite (process_pdf_opened _ _ _ _ _ _ _ _ Hfile Hname Hext Hcontent Hread).
    by rewrite Hp, Hj.
  - rewrite (process_pdf_opened _ _ _ _ _ _ _ _ Hfile Hname Hext Hcontent Hread).
    rewrite Hp, Hj. cbn [mbind outcome_bind bind]. by rewrite Hq, Hg.
Qed.

Lemma process_pdf_external_failure_witness :
  fst (process_pdf (fun _ => Return damaged_document) sample_generate
         sample_secure_filename (sample_request "3-5") sample_tmp no_files)
  = mk_response (error_body "Failed to process PDF") 500.
Proof.
  apply (process_pdf_external_failure (fun _ => Return damaged_document)
           sample_generate sample_secure_filename (sample_request "3-5")
           sample_upload sample_tmp no_files (ValueError "invalid stream")).
  - reflexivity.
  - discriminate.
  - reflexivity.
  - discriminate.
  - right. left. exists damaged_document, (PageSlice [2; 3; 4]%nat).
    repeat split; reflexivity.
Defined.

(** The slicing of the page list is inside the inner [try]: a
    [ValueError] raised while the pages are counted there is answered as
    a malformed range.  For ['all'] the pages are counted outside it,
    and the same failure is answered 500.  A page that fails is not
    noticed when the range leaves it out. *)
Example slicing_failure_is_400 :
  fst (process_pdf (fun _ => Return uncountable_document) sample_generate
         sample_secure_filename (sample_request "1-2") sample_tmp no_files)
  = mk_response (error_body "Invalid page range format. Use '1-5'") 400
  /\ fst (process_pdf (fun _ => Return uncountable_document) sample_generate
            sample_secure_filename (sample_request "all") sample_tmp no_files)
     = mk_response (error_body "Failed to process PDF") 500
  /\ resp_status
       (fst (process_pdf (fun _ => Return damaged_document) sample_generate
               sample_secure_filename (sample_request "1-3") sample_tmp no_files))
     = 200.
Proof. repeat split; vm_compute; reflexivity. Qed.

(** ** The text echoed by [process_pdf] *)

Lemma length_of_chars (l : list ascii) : String.length (PyStr.of_chars l) = length l.
Proof.
  unfold PyStr.of_chars. induction l as [| c r IH]; cbn [string_of_list_ascii String.length length];
    [done | by rewrite IH].
Qed.

(** [s[:n]] is the string of the first [n] characters. *)
Lemma str_slice_prefix s n :
  0 <= n -> str_slice s 0 n = PyStr.of_chars (take (Z.to_nat n) (PyStr.chars s)).
Proof.
  intros Hn. unfold str_slice, py_slice, slice_bound.
  change (0 <? 0) with false. cbv iota.
  destruct (n <? 0) eqn:E; [apply Z.ltb_lt in E; lia|].
  rewrite (Z.min_l 0) by lia. rewrite Z.sub_0_r. change (Z.to_nat 0) with 0%nat.
  rewrite drop_0. f_equal.
  destruct (Z.le_gt_cases n (Z.of_nat (length (PyStr.chars s)))) as [Hle | Hgt].
  - by rewrite Z.min_l by lia.
  - rewrite Z.min_r by lia. rewrite Nat2Z.id.
    rewrite !take_ge; [done | lia | lia].
Qed.

Lemma str_slice_length s n :
  0 <= n -> Z.of_nat (String.length (str_slice s 0 n)) <= n.
Proof.
  intros Hn. rewrite str_slice_prefix by done.
  rewrite length_of_chars, length_take. lia.
Qed.

(** X8: every 200 response of [process_pdf] carries in [text] the first
    characters of the extracted text, at most 1000 of them. *)
Theorem process_pdf_text_echo_bounded
    (PdfReader : string -> outcome pdf_reader)
    (generate_content : prompt -> outcome string)
    (secure_filename : string -> string)
    (req : pdf_request) (tmp_path : string) (st : files) :
  let resp :=
    fst (process_pdf PdfReader generate_content secure_filename req tmp_path st) in
  resp_status resp = 200 ->
  exists file reader pages text,
    files_pdf req = Some file
    /\ PdfReader (content file) = Return reader
    /\ pages_in_range reader (default "all"%string (form_page_range req))
       = Return pages
    /\ join_pages reader pages = Return text
    /\ field "text" (resp_body resp)
       = Some (PStr (PyStr.of_chars (take (Z.to_nat 1000) (PyStr.chars text))))
    /\ Z.of_nat (String.length (PyStr.of_chars (take (Z.to_nat 1000) (PyStr.chars text))))
       <= 1000.
Proof.
  intros resp. subst resp. unfold process_pdf.
  destruct (files_pdf req) as [file|] eqn:Hfile; [|discriminate].
  destruct (String.eqb (filename file) EmptyString); [discriminate|].
  destruct (negb _); [discriminate|].
  cbn [fst]. unfold process_pdf_saved. cbn [disk]. rewrite lookup_insert_eq.
  destruct (String.eqb (content file) EmptyString); [discriminate|].
  destruct (PdfReader (content file)) as [reader | e] eqn:Hread; [|discriminate].
  cbn [mbind outcome_bind bind]. cbv zeta.
  destruct (pages_in_range reader _) as [pages | e] eqn:Hp.
  2:{ destruct e; discriminate. }
  destruct (join_pages reader pages) as [text | e] eqn:Ht; [|discriminate].
  cbn [mbind outcome_bind bind].
  destruct (question_parameters req) as [[n qt] | e'].
  2:{ destruct e'; discriminate. }
  destruct (generate_content _) as [questions | e']; [|discriminate].
  cbn [mbind outcome_bind bind]. unfold respond, jsonify.
  destruct (serialisable _); cbn [mbind outcome_bind bind try_except]; [|discriminate].
  intros _. rewrite (str_slice_prefix text 1000) by lia.
  exists file, reader, pages, text.
  split; [done|]. split; [done|]. split; [done|]. split; [done|].
  split; [reflexivity|].
  rewrite length_of_chars, length_take. lia.
Qed.

Lemma process_pdf_text_echo_bounded_witness :
  exists file reader pages text,
    files_pdf (sample_request "2-4") = Some file
    /\ sample_reader (content file) = Return reader
    /\ pages_in_range reader
         (default "all"%string (form_page_range (sample_request "2-4")))
       = Return pages
    /\ join_pages reader pages = Return text
    /\ field "text"
         (resp_body
            (fst (process_pdf sample_reader sample_generate sample_secure_filename
                    (sample_request "2-4") sample_tmp no_files)))
       = Some (PStr (PyStr.of_chars (take (Z.to_nat 1000) (PyStr.chars text))))
    /\ Z.of_nat (String.length (PyStr.of_chars (take (Z.to_nat 1000) (PyStr.chars text))))
       <= 1000.
Proof.
  apply (process_pdf_text_echo_bounded sample_reader sample_generate
           sample_secure_filename (sample_request "2-4") sample_tmp no_files).
  vm_compute. reflexivity.
Defined.

(** ** The cache of [extract_text_from_pdf] *)

Lemma lru_lookup_head key text (c : lru) : lru_lookup key ((key, text) :: c) = Some text.
Proof. cbn [lru_lookup fst snd]. by rewrite !String.eqb_refl. Qed.


(** What a call that returns leaves in the cache for its arguments. *)
Lemma extract_caches_result PdfReader (cache cache1 : lru) st filepath page_range text :
  extract_text_from_pdf PdfReader cache st filepath page_range
  = (Return text, cache1) ->
  lru_lookup (filepath, page_range) cache1 = Some text.
Proof.
  unfold extract_text_from_pdf.
  destruct (lru_lookup (filepath, page_range) cache) as [hit|].
  - intros [= <- <-]. apply lru_lookup_head.
  - destruct (extract_text_from_pdf_body PdfReader st filepath page_range)
      as [t | e]; [|discriminate].
    intros [= <- <-]. unfold lru_maxsize. cbn [take]. apply lru_lookup_head.
Qed.

(** X9: after a call of [extract_text_from_pdf] that returned a text,
    a call with the same path and range returns that text again without
    reading anything: the file may have been removed or replaced, and
    the reader may fail on it. *)
Theorem extract_text_is_memoized
    (PdfReader PdfReader' : string -> outcome pdf_reader)
    (cache cache1 : lru) (st st' : files) (filepath page_range text : string) :
  extract_text_from_pdf PdfReader cache st filepath page_range
  = (Return text, cache1) ->
  fst (extract_text_from_pdf PdfReader' cache1 st' filepath page_range)
  = Return text.
Proof.
  intros H. apply extract_caches_result in H.
  unfold extract_text_from_pdf. by rewrite H.
Qed.

Lemma extract_text_is_memoized_witness :
  fst (extract_text_from_pdf (fun _ => Raise (LibraryError "unreadable"))
         [((sample_tmp, "all"%string),
           String.concat newline (map (default EmptyString) sample_pages))]
         no_files sample_tmp "all")
  = Return (String.concat newline (map (default EmptyString) sample_pages)).
Proof.
  apply (extract_text_is_memoized sample_reader
           (fun _ => Raise (LibraryError "unreadable")) []
           [((sample_tmp, "all"%string),
             String.concat newline (map (default EmptyString) sample_pages))]
           (mk_files {[ sample_tmp := content sample_upload ]} ∅ [] [])
           no_files sample_tmp "all"
           (String.concat newline (map (default EmptyString) sample_pages))).
  reflexivity.
Defined.

(** X10: [extract_text_from_pdf] hands its failures to the caller and
    caches none of them.  On a miss, a path with no file raises
    [FileNotFoundError]; a failure of the [PdfReader] constructor is
    raised as it is; a range that is not ['all'] and not two integers
    around a dash raises [ValueError] once the document is opened,
    before any page work; and a failure while the page list is sliced
    or the selected pages are read is raised as it is.  The cache is
    the one before the call. *)
Theorem extract_text_failures
    (PdfReader : string -> outcome pdf_reader)
    (cache : lru) (st : files) (filepath page_range : string) :
  lru_lookup (filepath, page_range) cache = None ->
  (disk st !! filepath = None ->
   extract_text_from_pdf PdfReader cache st filepath page_range
   = (Raise (FileNotFoundError filepath), cache))
  /\ (forall bytes e,
        disk st !! filepath = Some bytes -> PdfReader bytes = Raise e ->
        extract_text_from_pdf PdfReader cache st filepath page_range
        = (Raise e, cache))
  /\ (forall bytes reader,
        disk st !! filepath = Some bytes -> PdfReader bytes = Return reader ->
        page_range <> "all"%string -> range_format_ok page_range = false ->
        exists msg,
          extract_text_from_pdf PdfReader cache st filepath page_range
          = (Raise (ValueError msg), cache))
  /\ (forall bytes reader e,
        disk st !! filepath = Some bytes -> PdfReader bytes = Return reader ->
        pages_in_range reader page_range = Raise e ->
        extract_text_from_pdf PdfReader cache st filepath page_range
        = (Raise e, cache))
  /\ (forall bytes reader pages e,
        disk st !! filepath = Some bytes -> PdfReader bytes = Return reader ->
        pages_in_range reader page_range = Return pages ->
        join_pages reader pages = Raise e ->
        extract_text_from_pdf PdfReader cache st filepath page_range
        = (Raise e, cache)).
Proof.
  intros Hmiss. unfold extract_text_from_pdf, extract_text_from_pdf_body.
  rewrite Hmiss. split; [|split; [|split; [|split]]].
  - by intros ->.
  - intros bytes e -> ->. done.
  - intros bytes reader -> -> Hall Hbad. cbn [mbind outcome_bind bind].
    destruct (pages_in_range_bad_format reader page_range Hall Hbad) as [msg ->].
    by exists msg.
  - intros bytes reader e -> -> Hp. cbn [mbind outcome_bind bind].
    by rewrite Hp.
  - intros bytes reader pages e -> -> Hp Hj. cbn [mbind outcome_bind bind].
    rewrite Hp. cbn [mbind outcome_bind bind]. by rewrite Hj.
Qed.

Lemma extract_text_failures_witness :
  extract_text_from_pdf sample_reader [] no_files sample_tmp "1-3"
  = (Raise (FileNotFoundError sample_tmp), []).
Proof.
  destruct (extract_text_failures sample_reader [] no_files sample_tmp "1-3")
    as [H _]; [reflexivity|].
  apply H. apply lookup_empty.
Defined.

(** A page that fails is raised as it fails when the range selects it,
    and a malformed range is raised whatever the pages are. *)
Example extract_text_damaged_page :
  extract_text_from_pdf (fun _ => Return damaged_document) []
    (mk_files {[ sample_tmp := content sample_upload ]} ∅ [] []) sample_tmp "3-5"
  = (Raise (ValueError "invalid stream"), [])
  /\ fst (extract_text_from_pdf (fun _ => Return damaged_document) []
            (mk_files {[ sample_tmp := content sample_upload ]} ∅ [] [])
            sample_tmp "1-3")
     = Return ("one" +:+ newline +:+ newline +:+ "three")%string.
Proof. split; vm_compute; reflexivity. Qed.



(** ** Cleanup at exit *)

Lemma list_remove_middle x (kept rest : list string) :
  x ∉ kept -> list_remove x (kept ++ x :: rest) = kept ++ rest.
Proof.
  induction kept as [| y r IH]; cbn [list_remove app]; intros Hn.
  - by rewrite String.eqb_refl.
  - apply not_elem_of_cons in Hn as [Hxy Hr].
    apply String.eqb_neq in Hxy. rewrite Hxy. by rewrite IH.
Qed.

Lemma list_mem_middle x (kept rest : list string) :
  list_mem x (kept ++ x :: rest) = true.
Proof.
  unfold list_mem. rewrite existsb_app. cbn [existsb].
  by rewrite String.eqb_refl, orb_true_r.
Qed.

Lemma delete_all_lookup_other (paths : list string) (d : gmap string string) x :
  x ∉ paths -> delete_all paths d !! x = d !! x.
Proof.
  revert d. induction paths as [| p r IH]; intros d Hn; cbn [delete_all]; [done|].
  apply not_elem_of_cons in Hn as [Hxp Hr].
  rewrite IH by done. by apply lookup_delete_ne.
Qed.

Lemma delete_all_lookup_in (paths : list string) (d : gmap string string) x :
  x ∈ paths -> delete_all paths d !! x = None.
Proof.
  revert d. induction paths as [| p r IH]; intros d Hin; cbn [delete_all].
  - by apply elem_of_nil in Hin.
  - destruct (decide (x ∈ r)) as [Hr | Hr]; [by apply IH|].
    apply elem_of_cons in Hin as [-> | Hin]; [|done].
    rewrite delete_all_lookup_other by done. apply lookup_delete_eq.
Qed.

(** Induction over a list two elements at a time. *)
Lemma list_pair_ind {A} (P : list A -> Prop) :
  P [] -> (forall x, P [x]) -> (forall x y l, P l -> P (x :: y :: l)) ->
  forall l, P l.
Proof.
  intros Hnil Hone Hstep l.
  assert (H : P l /\ forall x, P (x :: l)); [|by destruct H].
  induction l as [| a l [IH1 IH2]]; [by split|].
  split; [apply IH2|]. intros x. by apply Hstep.
Qed.

Lemma elem_of_odds {A} (x : A) (l : list A) : x ∈ odds l -> x ∈ l.
Proof.
  induction l as [| a | a b r IH] using list_pair_ind; cbn [odds]; intros Hin.
  - by apply elem_of_nil in Hin.
  - by apply elem_of_nil in Hin.
  - apply elem_of_cons in Hin as [-> | Hin].
    + right. by left.
    + right. right. by apply IH.
Qed.

Lemma elem_of_evens {A} (x : A) (l : list A) : x ∈ evens l -> x ∈ l.
Proof.
  induction l as [| a | a b r IH] using list_pair_ind; cbn [evens]; intros Hin.
  - by apply elem_of_nil in Hin.
  - done.
  - apply elem_of_cons in Hin as [-> | Hin].
    + by left.
    + right. right. by apply IH.
Qed.

Lemma odds_not_evens (l : list string) x :
  NoDup l -> x ∈ odds l -> x ∉ evens l.
Proof.
  induction l as [| a | a b r IH] using list_pair_ind; cbn [odds evens];
    intros Hnd Hin.
  - by apply elem_of_nil in Hin.
  - by apply elem_of_nil in Hin.
  - apply NoDup_cons in Hnd as [Ha Hnd]. apply NoDup_cons in Hnd as [Hb Hr].
    intros Hev. apply elem_of_cons in Hev as [-> | Hev].
    + apply Ha. apply elem_of_cons in Hin as [-> | Hin]; [by left|].
      right. by apply elem_of_odds.
    + apply elem_of_cons in Hin as [-> | Hin].
      * apply Hb. by apply elem_of_evens.
      * by apply IH.
Qed.

(** The loop at position [length kept], with the files of [rest] still
    to visit: it removes every other one, starting with the first. *)
Lemma exit_cleanup_from_skips steps : forall (rest kept : list string)
    (d : gmap string string) (und : gset string) (lg : list log_entry),
  (length rest <= steps)%nat ->
  NoDup (kept ++ rest) ->
  (forall f, f ∈ rest -> f <> EmptyString /\ is_Some (d !! f) /\ f ∉ und) ->
  exit_cleanup_from steps (length kept) (mk_files d und (kept ++ rest) lg)
  = mk_files (delete_all (evens rest) d) und (kept ++ odds rest) lg.
Proof.
  induction steps as [| steps IH]; intros rest kept d und lg Hlen Hnd Hfiles.
  - destruct rest; [|cbn [length] in Hlen; lia]. reflexivity.
  - cbn [exit_cleanup_from temp_files].
    destruct rest as [| f rest1].
    { rewrite app_nil_r, lookup_ge_None_2 by done. by rewrite app_nil_r. }
    rewrite lookup_app_r, Nat.sub_diag by done. cbn [lookup list_lookup].
    destruct (Hfiles f) as (Hne & [c Hc] & Hund); [by left|].
    apply NoDup_app in Hnd as (Hkept & Hdisj & Hrest).
    apply NoDup_cons in Hrest as [Hf Hrest1].
    destruct (cleanup_file_removed f (mk_files d und (kept ++ f :: rest1) lg) c)
      as [-> _]; [done | done | done |].
    cbn [after disk undeletable temp_files log].
    rewrite list_mem_middle, list_remove_middle
      by (intros Hin; by apply (Hdisj f Hin); left).
    destruct rest1 as [| g rest'].
    { cbn [evens odds delete_all]. rewrite app_nil_r.
      destruct steps; [done|]. cbn [exit_cleanup_from temp_files].
      by rewrite lookup_ge_None_2 by lia. }
    replace (kept ++ g :: rest') with ((kept ++ [g]) ++ rest')
      by (by rewrite <- app_assoc).
    replace (S (length kept)) with (length (kept ++ [g]))
      by (rewrite length_app; cbn [length]; lia).
    rewrite IH.
    + cbn [evens odds delete_all]. by rewrite <- app_assoc.
    + cbn [length] in Hlen. lia.
    + apply NoDup_cons in Hrest1 as [Hg Hrest'].
      apply NoDup_app. split; [|split; [|done]].
      * apply NoDup_app. split; [done|]. split; [|apply NoDup_singleton].
        intros x Hx Hxg. apply list_elem_of_singleton in Hxg as ->.
        apply (Hdisj g Hx). right. by left.
      * intros x Hx Hx'. apply elem_of_app in Hx as [Hx | Hx].
        -- apply (Hdisj x Hx). right. by right.
        -- apply list_elem_of_singleton in Hx as ->. done.
    + intros x Hx. destruct (Hfiles x) as (Hxne & [cx Hcx] & Hxund);
        [right; by right|].
      split; [done|]. split; [|done].
      exists cx. rewrite lookup_delete_ne; [done|].
      intros ->. apply Hf. right. done.
Qed.

(** X12: the exit handler walks the registry by position while
    [cleanup_file] removes entries from it, so it visits every other
    entry.  For a registry of distinct files that exist and can be
    removed, the files at even positions are removed and the files at
    odd positions stay, on disk and in the registry. *)
Theorem exit_cleanup_skips_every_other (st : files) :
  NoDup (temp_files st) ->
  (forall f, f ∈ temp_files st ->
             f <> EmptyString /\ is_Some (disk st !! f) /\ f ∉ undeletable st) ->
  exit_cleanup st
  = mk_files (delete_all (evens (temp_files st)) (disk st)) (undeletable st)
      (odds (temp_files st)) (log st)
  /\ (forall f, f ∈ evens (temp_files st) -> disk (exit_cleanup st) !! f = None)
  /\ (forall f, f ∈ odds (temp_files st) ->
                disk (exit_cleanup st) !! f = disk st !! f
                /\ f ∈ temp_files (exit_cleanup st)).
Proof.
  intros Hnd Hfiles.
  assert (Heq : exit_cleanup st
                = mk_files (delete_all (evens (temp_files st)) (disk st))
                    (undeletable st) (odds (temp_files st)) (log st)).
  { unfold exit_cleanup. destruct st as [d und reg lg]. cbn [temp_files disk undeletable log] in *.
    apply (exit_cleanup_from_skips (length reg) reg [] d und lg); done. }
  split; [exact Heq|]. rewrite Heq. cbn [disk temp_files]. split.
  - intros f Hf. by apply delete_all_lookup_in.
  - intros f Hf. split; [|done].
    apply delete_all_lookup_other. by apply odds_not_evens.
Qed.

Lemma exit_cleanup_skips_every_other_witness :
  exit_cleanup
    (mk_files {[ "/tmp/a.pdf"%string := "A"%string; "/tmp/b.pdf"%string := "B"%string;
                 "/tmp/c.pdf"%string := "C"%string ]} ∅
       ["/tmp/a.pdf"; "/tmp/b.pdf"; "/tmp/c.pdf"]%string [])
  = mk_files
      (delete_all ["/tmp/a.pdf"; "/tmp/c.pdf"]%string
         {[ "/tmp/a.pdf"%string := "A"%string; "/tmp/b.pdf"%string := "B"%string;
            "/tmp/c.pdf"%string := "C"%string ]})
      ∅ ["/tmp/b.pdf"%string] [].
Proof.
  destruct (exit_cleanup_skips_every_other
              (mk_files {[ "/tmp/a.pdf"%string := "A"%string;
                           "/tmp/b.pdf"%string := "B"%string;
                           "/tmp/c.pdf"%string := "C"%string ]} ∅
                 ["/tmp/a.pdf"; "/tmp/b.pdf"; "/tmp/c.pdf"]%string []))
    as [H _]; [| | exact H].
  - cbn [temp_files]. apply (bool_decide_unpack _). vm_compute. exact I.
  - cbn [temp_files disk undeletable]. intros f Hf.
    split; [|split; [|apply not_elem_of_empty]].
    + intros ->.
      repeat (apply elem_of_cons in Hf as [Hf | Hf]; [discriminate|]).
      by apply elem_of_nil in Hf.
    + repeat (apply elem_of_cons in Hf as [-> | Hf]); [| | |by apply elem_of_nil in Hf];
        vm_compute; eauto.
Defined.

(** ** Free-text query *)

(** The query a body carries: the value of its [query] key, or the
    empty string when the key is absent. *)
Lemma web_search_query generate_text d q :
  (dict_get (PStr "query") d = Some (PStr q)
   \/ (dict_get (PStr "query") d = None /\ q = EmptyString)) ->
  web_search_try generate_text (Return (PDict d))
  = (if String.eqb (PyStr.strip q) EmptyString then
       Return (mk_response (error_body "Empty query") 400)
     else if (String.length (PyStr.strip q) <? 3)%nat then
       Return (mk_response (error_body "Query too short (min 3 chars)") 400)
     else
       answer ← generate_text (search_prompt (PyStr.strip q));
       if String.eqb answer EmptyString then
         Return (mk_response (error_body "Empty response from AI") 500)
       else
         respond (PDict [(PStr "answer", PStr answer);
                         (PStr "query", PStr (PyStr.strip q));
                         (PStr "status", PStr "success")])
           200).
Proof.
  intros [H | [H ->]]; unfold web_search_try, py_get;
    cbn [mbind outcome_bind bind]; rewrite H; reflexivity.
Qed.

(** X13: a query that is missing, or shorter than three characters once
    trimmed, is answered 400 without consulting the generation client:
    ["Empty query"] when nothing is left after trimming,
    ["Query too short (min 3 chars)"] otherwise. *)
Theorem web_search_rejects_short_query
    (generate_text : string -> outcome string)
    (d : list (pyval * pyval)) (q : string) :
  (dict_get (PStr "query") d = Some (PStr q)
   \/ (dict_get (PStr "query") d = None /\ q = EmptyString)) ->
  (String.length (PyStr.strip q) < 3)%nat ->
  web_search generate_text (Return (PDict d))
  = mk_response
      (error_body (if String.eqb (PyStr.strip q) EmptyString
                   then "Empty query"
                   else "Query too short (min 3 chars)"))
      400.
Proof.
  intros Hq Hlen. unfold web_search. rewrite (web_search_query _ _ _ Hq).
  destruct (String.eqb (PyStr.strip q) EmptyString); [done|].
  apply Nat.ltb_lt in Hlen. by rewrite Hlen.
Qed.

Lemma web_search_rejects_short_query_witness :
  web_search (fun _ => Return "unused"%string)
    (Return (PDict [(PStr "query", PStr "  ab  ")]))
  = mk_response (error_body "Query too short (min 3 chars)") 400.
Proof.
  apply (web_search_rejects_short_query (fun _ => Return "unused"%string)
           [(PStr "query", PStr "  ab  ")] "  ab  ").
  - left. reflexivity.
  - vm_compute. lia.
Defined.



(** X15: a body that is not a JSON object, a body that cannot be read,
    and a [query] that is not a string are answered 500
    ["Search failed"]: the handler has no validation answer for
    them. *)
Theorem web_search_bad_body
    (generate_text : string -> outcome string) (body : outcome pyval) :
  (exists e, body = Raise e)
  \/ (exists data, body = Return data /\ forall d, data <> PDict d)
  \/ (exists d v, body = Return (PDict d)
                  /\ dict_get (PStr "query") d = Some v
                  /\ forall s, v <> PStr s) ->
  web_search generate_text body
  = mk_response (error_body "Search failed") 500.
Proof.
  intros [[e ->] | [(data & -> & Hnd) | (d & v & -> & Hv & Hns)]];
    unfold web_search, web_search_try; cbn [mbind outcome_bind bind].
  - done.
  - destruct data as [| | | | | d |]; try done. by destruct (Hnd d).
  - unfold py_get. rewrite Hv. cbn [mbind outcome_bind bind].
    destruct v as [| | | s | | |]; try done. by destruct (Hns s).
Qed.

Lemma web_search_bad_body_witness :
  web_search (fun _ => Return "unused"%string) (Return PNone)
  = mk_response (error_body "Search failed") 500.
Proof.
  apply (web_search_bad_body (fun _ => Return "unused"%string) (Return PNone)).
  right. left. exists PNone. split; [reflexivity | discriminate].
Defined.

(** ** The span [parse_json_response] evaluates *)

Lemma str_app_cons x (a b : string) : String x a +:+ b = String x (a +:+ b).
Proof. reflexivity. Qed.

Lemma str_app_nil (b : string) : EmptyString +:+ b = b.
Proof. reflexivity. Qed.

Lemma str_app_assoc (a b c : string) : (a +:+ b) +:+ c = a +:+ (b +:+ c).
Proof.
  induction a as [| x a IH]; [done|]. by rewrite !str_app_cons, IH.
Qed.

Lemma str_length_app (a b : string) :
  String.length (a +:+ b) = (String.length a + String.length b)%nat.
Proof.
  induction a as [| x a IH]; [done|].
  rewrite str_app_cons. cbn [String.length]. by rewrite IH.
Qed.

Lemma chars_app (a b : string) : PyStr.chars (a +:+ b) = PyStr.chars a ++ PyStr.chars b.
Proof.
  unfold PyStr.chars.
  induction a as [| x a IH]; [done|].
  rewrite str_app_cons. cbn [list_ascii_of_string app]. by rewrite IH.
Qed.

Lemma chars_length (s : string) : length (PyStr.chars s) = String.length s.
Proof.
  unfold PyStr.chars.
  induction s as [| x s IH]; cbn [list_ascii_of_string String.length length];
    [done | by rewrite IH].
Qed.

Lemma find_nonneg x s : -1 <= PyStr.find x s.
Proof.
  induction s as [| d r IH]; cbn [PyStr.find]; [lia|].
  destruct (Ascii.eqb x d); [lia|].
  destruct (PyStr.find x r <? 0) eqn:E; lia.
Qed.

(** The first occurrence is right after a prefix without the
    character. *)
Lemma find_after_prefix x (pre rest : string) :
  x ∉ PyStr.chars pre ->
  PyStr.find x (pre +:+ String x rest) = Z.of_nat (String.length pre).
Proof.
  induction pre as [| d pre IH]; rewrite ?str_app_nil, ?str_app_cons;
    cbn [PyStr.find String.length]; intros Hn.
  - by rewrite Ascii.eqb_refl.
  - unfold PyStr.chars in Hn. cbn [list_ascii_of_string] in Hn.
    apply not_elem_of_cons in Hn as [Hxd Hpre].
    destruct (Ascii.eqb_spec x d) as [-> | _]; [done|].
    rewrite (IH Hpre).
    destruct (Z.of_nat (String.length pre) <? 0) eqn:E;
      [apply Z.ltb_lt in E; lia | lia].
Qed.

Lemma rfind_absent x (s : string) : x ∉ PyStr.chars s -> PyStr.rfind x s = -1.
Proof.
  induction s as [| d s IH]; cbn [PyStr.rfind]; intros Hn; [done|].
  unfold PyStr.chars in Hn. cbn [list_ascii_of_string] in Hn.
  apply not_elem_of_cons in Hn as [Hxd Hs]. rewrite (IH Hs).
  change (0 <=? -1) with false. cbv iota.
  by destruct (Ascii.eqb_spec x d).
Qed.

(** The last occurrence is right before a suffix without the
    character. *)
Lemma rfind_before_suffix x (a post : string) :
  x ∉ PyStr.chars post ->
  PyStr.rfind x (a +:+ String x post) = Z.of_nat (String.length a).
Proof.
  intros Hn. induction a as [| d a IH]; rewrite ?str_app_nil, ?str_app_cons;
    cbn [PyStr.rfind String.length].
  - rewrite (rfind_absent x post Hn). change (0 <=? -1) with false. cbv iota.
    by rewrite Ascii.eqb_refl.
  - rewrite IH.
    destruct (0 <=? Z.of_nat (String.length a)) eqn:E;
      [lia | apply Z.leb_gt in E; lia].
Qed.

Lemma slice_middle {A} (l1 l2 l3 : list A) :
  py_slice (l1 ++ l2 ++ l3) (Z.of_nat (length l1))
    (Z.of_nat (length l1) + Z.of_nat (length l2)) = l2.
Proof.
  unfold py_slice, slice_bound. rewrite !length_app.
  destruct (Z.of_nat (length l1) <? 0) eqn:E1; [apply Z.ltb_lt in E1; lia|].
  destruct (Z.of_nat (length l1) + Z.of_nat (length l2) <? 0) eqn:E2;
    [apply Z.ltb_lt in E2; lia|].
  rewrite !Z.min_l by lia.
  replace (Z.to_nat (Z.of_nat (length l1) + Z.of_nat (length l2) - Z.of_nat (length l1)))
    with (length l2) by lia.
  rewrite Nat2Z.id, drop_app_length. by rewrite take_app_length.
Qed.

(** X16: the text handed to the evaluator is the span from the first
    opening brace to the last closing brace, both included, with
    everything between them: for a text [pre { mid } post] where [pre]
    has no opening brace and [post] no closing brace, that span is
    [{ mid }], whatever braces [mid] holds, and the result is the
    evaluator's value of it or the fallback for its error. *)
Theorem parse_json_response_outer_span
    (literal_eval : string -> outcome pyval) (pre mid post : string) :
  "{"%char ∉ PyStr.chars pre ->
  "}"%char ∉ PyStr.chars post ->
  let span := String "{" (mid +:+ "}") in
  let text := pre +:+ span +:+ post in
  between_braces text = span
  /\ parse_json_response literal_eval text
     = match literal_eval span with
       | Return v => v
       | Raise e => fallback e text
       end.
Proof.
  intros Hpre Hpost span text.
  assert (Htext : text = pre +:+ String "{" (mid +:+ String "}" post)).
  { subst text span. by rewrite !str_app_cons, str_app_assoc, str_app_cons. }
  assert (Hfind : PyStr.find "{" text = Z.of_nat (String.length pre)).
  { rewrite Htext. by apply find_after_prefix. }
  assert (Hrfind : PyStr.rfind "}" text
                   = Z.of_nat (String.length pre) + Z.of_nat (String.length mid) + 1).
  { rewrite Htext.
    replace (pre +:+ String "{" (mid +:+ String "}" post))
      with ((pre +:+ String "{" mid) +:+ String "}" post)
      by (by rewrite str_app_assoc).
    rewrite rfind_before_suffix by done.
    rewrite str_length_app. cbn [String.length]. lia. }
  assert (Hspan : between_braces text = span).
  { unfold between_braces, str_slice. rewrite Hfind, Hrfind.
    subst text. rewrite !chars_app.
    replace (Z.of_nat (String.length pre)) with (Z.of_nat (length (PyStr.chars pre)))
      by (by rewrite chars_length).
    replace (Z.of_nat (length (PyStr.chars pre)) + Z.of_nat (String.length mid) + 1 + 1)
      with (Z.of_nat (length (PyStr.chars pre)) + Z.of_nat (length (PyStr.chars span))).
    - rewrite slice_middle. apply string_of_list_ascii_of_string.
    - rewrite (chars_length span). subst span.
      cbn [String.length]. rewrite str_length_app. cbn [String.length]. lia. }
  split; [exact Hspan|].
  rewrite parse_json_response_braces.
  - rewrite Hspan. by destruct (literal_eval span).
  - intros [H | H]; [rewrite Hfind in H | rewrite Hrfind in H]; lia.
Qed.

Lemma parse_json_response_outer_span_witness :
  between_braces ("Scores: " +:+ String "{" ("'a': {'b': 1}, 'c': 2" +:+ "}") +:+ " done.")
  = String "{" ("'a': {'b': 1}, 'c': 2" +:+ "}").
Proof.
  apply (parse_json_response_outer_span Literal.literal_eval_of_fragment
           "Scores: " "'a': {'b': 1}, 'c': 2" " done.").
  - vm_compute. intros H. repeat (apply elem_of_cons in H as [H | H]; [discriminate|]).
    by apply elem_of_nil in H.
  - vm_compute. intros H. repeat (apply elem_of_cons in H as [H | H]; [discriminate|]).
    by apply elem_of_nil in H.
Defined.

(** ** Answer evaluation *)

(** X17: a body that is empty, or an object without [student_answer]
    or without [model_answer], is answered 400 ["Missing required
    fields"]; neither the generation client nor the evaluator is
    consulted. *)
Theorem evaluate_answer_missing_fields
    (generate_content : prompt -> outcome string)
    (literal_eval : string -> outcome pyval) (data : pyval) (now : string) :
  data = PNone \/
  (exists d, data = PDict d /\
     (dict_get (PStr "student_answer") d = None
      \/ dict_get (PStr "model_answer") d = None)) ->
  evaluate_answer generate_content literal_eval (Return data) now
  = mk_response (error_body "Missing required fields") 400.
Proof.
  intros H. unfold evaluate_answer, evaluate_answer_try.
  cbn [mbind outcome_bind bind].
  by rewrite (missing_fields_absent _ _ _ H).
Qed.

Lemma evaluate_answer_missing_fields_witness :
  evaluate_answer sample_generate Literal.literal_eval_of_fragment
    (Return (PDict [(PStr "student_answer", PStr "4")])) "2024-05-01T10:00:00"
  = mk_response (error_body "Missing required fields") 400.
Proof.
  apply (evaluate_answer_missing_fields sample_generate
           Literal.literal_eval_of_fragment
           (PDict [(PStr "student_answer", PStr "4")]) "2024-05-01T10:00:00").
  right. eexists. split; [reflexivity|]. right. reflexivity.
Defined.

Lemma respond_body v status r :
  respond v status = Return r -> r = mk_response v status.
Proof.
  unfold respond, jsonify. destruct (serialisable v);
    cbn [mbind outcome_bind bind]; [|discriminate]. by intros [= <-].
Qed.

(** X18: every answer of [evaluate_answer] is a 400, a 200 or a 500;
    the 200 and the 500 carry the server's time under [timestamp], also
    when the evaluated object had a [timestamp] of its own, and the 500
    carries score 0 with ["Evaluation failed"]. *)
Theorem evaluate_answer_shape
    (generate_content : prompt -> outcome string)
    (literal_eval : string -> outcome pyval) (body : outcome pyval) (now : string) :
  let resp := evaluate_answer generate_content literal_eval body now in
  resp = mk_response (error_body "Missing required fields") 400
  \/ (resp_status resp = 200
      /\ field "timestamp" (resp_body resp) = Some (PStr now))
  \/ (resp_status resp = 500
      /\ field "timestamp" (resp_body resp) = Some (PStr now)
      /\ field "score" (resp_body resp) = Some (PInt 0)
      /\ field "feedback" (resp_body resp) = Some (PStr "Evaluation failed")).
Proof.
  intros resp. subst resp. unfold evaluate_answer.
  destruct (evaluate_answer_try generate_content literal_eval body now)
    as [r | e] eqn:Htry; cbn [try_except].
  2:{ right. right. repeat split. }
  revert Htry. unfold evaluate_answer_try.
  destruct body as [data | e]; cbn [mbind outcome_bind bind]; [|discriminate].
  destruct (missing_fields data "student_answer" "model_answer") as [[] | e];
    cbn [mbind outcome_bind bind]; [by intros [= <-]; left | | discriminate].
  destruct (py_getitem data "student_answer") as [student | e];
    cbn [mbind outcome_bind bind]; [|discriminate].
  destruct (py_getitem data "model_answer") as [model | e];
    cbn [mbind outcome_bind bind]; [|discriminate].
  destruct (generate_content _) as [text | e];
    cbn [mbind outcome_bind bind]; [|discriminate].
  destruct (parse_json_response literal_eval text) as [| | | | | d |];
    cbn [py_setitem mbind outcome_bind bind]; try discriminate.
  intros Hr. apply respond_body in Hr as ->. right. left.
  split; [done|]. cbn [resp_body field]. apply dict_get_set_eq.
Qed.

(** X19: an object the evaluator reads from the model's text is passed
    on as it is, with [timestamp] set: no field is required of it and no
    score is checked. *)
Theorem evaluate_answer_passes_object
    (generate_content : prompt -> outcome string)
    (literal_eval : string -> outcome pyval)
    (data d : list (pyval * pyval)) (student model : pyval) (text now : string) :
  dict_get (PStr "student_answer") data = Some student ->
  dict_get (PStr "model_answer") data = Some model ->
  generate_content (EvaluationPrompt student model) = Return text ->
  ~ no_braces text ->
  literal_eval (between_braces text) = Return (PDict d) ->
  serialisable (PDict (dict_set (PStr "timestamp") (PStr now) d)) = true ->
  evaluate_answer generate_content literal_eval (Return (PDict data)) now
  = mk_response (PDict (dict_set (PStr "timestamp") (PStr now) d)) 200.
Proof.
  intros Hs Hm Hgen Hbr Heval Hser.
  unfold evaluate_answer, evaluate_answer_try.
  cbn [mbind outcome_bind bind].
  rewrite (missing_fields_present (PDict data) _ _ student model) by done.
  cbn [mbind outcome_bind bind py_getitem]. rewrite Hs, Hm.
  cbn [mbind outcome_bind bind]. rewrite Hgen. cbn [mbind outcome_bind bind].
  rewrite parse_json_response_braces by done. rewrite Heval.
  cbn [try_except py_setitem mbind outcome_bind bind].
  unfold respond, jsonify. by rewrite Hser.
Qed.

Lemma evaluate_answer_passes_object_witness :
  evaluate_answer (fun _ => Return "{'score': 250, 'timestamp': 'then'}"%string)
    Literal.literal_eval_of_fragment (Return (PDict sample_answers))
    "2024-05-01T10:00:00"
  = mk_response
      (PDict [(PStr "score", PInt 250);
              (PStr "timestamp", PStr "2024-05-01T10:00:00")])
      200.
Proof.
  apply (evaluate_answer_passes_object
           (fun _ => Return "{'score': 250, 'timestamp': 'then'}"%string)
           Literal.literal_eval_of_fragment sample_answers
           [(PStr "score", PInt 250); (PStr "timestamp", PStr "then")]
           (PStr "4") (PStr "four") "{'score': 250, 'timestamp': 'then'}"
           "2024-05-01T10:00:00").
  - reflexivity.
  - reflexivity.
  - reflexivity.
  - intros [H | H]; vm_compute in H; discriminate.
  - vm_compute. reflexivity.
  - reflexivity.
Defined.

(** X20: when the generation client fails, the answer is 500 with score
    0, ["Evaluation failed"], the text of the error and the time. *)
Theorem evaluate_answer_generation_failure
    (generate_content : prompt -> outcome string)
    (literal_eval : string -> outcome pyval)
    (data : list (pyval * pyval)) (student model : pyval) (now : string) (e : exn) :
  dict_get (PStr "student_answer") data = Some student ->
  dict_get (PStr "model_answer") data = Some model ->
  generate_content (EvaluationPrompt student model) = Raise e ->
  evaluate_answer generate_content literal_eval (Return (PDict data)) now
  = mk_response
      (PDict [(PStr "score", PInt 0);
              (PStr "feedback", PStr "Evaluation failed");
              (PStr "error", PStr (str_exn e));
              (PStr "timestamp", PStr now)])
      500.
Proof.
  intros Hs Hm Hgen. unfold evaluate_answer, evaluate_answer_try.
  cbn [mbind outcome_bind bind].
  rewrite (missing_fields_present (PDict data) _ _ student model) by done.
  cbn [mbind outcome_bind bind py_getitem]. rewrite Hs, Hm.
  cbn [mbind outcome_bind bind]. by rewrite Hgen.
Qed.

Lemma evaluate_answer_generation_failure_witness :
  evaluate_answer (fun _ => Raise (LibraryError "quota exceeded"))
    Literal.literal_eval_of_fragment (Return (PDict sample_answers))
    "2024-05-01T10:00:00"
  = mk_response
      (PDict [(PStr "score", PInt 0);
              (PStr "feedback", PStr "Evaluation failed");
              (PStr "error", PStr "quota exceeded");
              (PStr "timestamp", PStr "2024-05-01T10:00:00")])
      500.
Proof.
  apply (evaluate_answer_generation_failure
           (fun _ => Raise (LibraryError "quota exceeded"))
           Literal.literal_eval_of_fragment sample_answers (PStr "4") (PStr "four")
           "2024-05-01T10:00:00" (LibraryError "quota exceeded"));
    reflexivity.
Defined.

(** ** Thread store: the documents it holds *)

Lemma serialisable_list (l : list pyval) :
  serialisable (PList l) = forallb serialisable l.
Proof. induction l as [| x r IH]; [done|]. cbn [forallb]. by rewrite <- IH. Qed.

Lemma message_document_serialisable m :
  message_document m -> serialisable m = true.
Proof. by intros (i & t & s & ts & ->). Qed.

Lemma message_document_shaped m : message_document m -> message_shaped m = true.
Proof. by intros (i & t & s & ts & ->). Qed.

Lemma messages_serialisable (messages : list pyval) :
  Forall message_document messages -> serialisable (PList messages) = true.
Proof.
  intros H. rewrite serialisable_list. apply forallb_forall.
  intros m Hin. apply message_document_serialisable.
  rewrite Forall_forall in H. apply H. by apply list_elem_of_In.
Qed.

Lemma thread_view_serialisable thread_id title description messages created_at :
  Forall message_document messages ->
  serialisable (thread_view thread_id title description messages created_at) = true.
Proof.
  intros H. pose proof (messages_serialisable messages H) as Hm.
  unfold thread_view.
  change (serialisable (PDict _)) with (serialisable (PList messages) && true).
  by rewrite Hm.
Qed.

Lemma thread_document_shaped doc : thread_document doc -> thread_shaped doc = true.
Proof.
  intros (i & t & ds & msgs & c & o & -> & Hm).
  unfold thread_shaped, thread_doc. cbn [field].
  change (dict_get (PStr "messages") _) with (Some (PList msgs)).
  apply forallb_forall. intros m Hin. apply message_document_shaped.
  rewrite Forall_forall in Hm. apply Hm. by apply list_elem_of_In.
Qed.

Lemma new_message_of_document thread_id body new_id now (coll : collection) message :
  new_message_of thread_id body new_id now coll = Return (inr message) ->
  message_document message.
Proof.
  unfold new_message_of. destruct body as [data | e]; [|discriminate].
  cbn [mbind outcome_bind bind].
  destruct (missing_fields data "text" "sender") as [[] | e];
    cbn [mbind outcome_bind bind]; try discriminate.
  destruct (find_one thread_id coll) as [thread|]; [|discriminate].
  destruct (negb (py_truthy thread)); [discriminate|].
  destruct (py_getitem data "text") as [t | e];
    cbn [mbind outcome_bind bind]; [|discriminate].
  destruct (py_strip t) as [text | e]; cbn [mbind outcome_bind bind]; [|discriminate].
  destruct (py_getitem data "sender") as [s | e];
    cbn [mbind outcome_bind bind]; [|discriminate].
  destruct (py_strip s) as [sender | e]; cbn [mbind outcome_bind bind]; [|discriminate].
  intros [= <-]. by exists new_id, text, sender, now.
Qed.

Lemma update_one_push_documents thread_id v (coll coll' : collection) n :
  update_one_push thread_id v coll = Return (n, coll') ->
  message_document v ->
  Forall thread_document coll -> Forall thread_document coll'.
Proof.
  revert coll' n. induction coll as [| doc rest IH]; intros coll' n;
    cbn [update_one_push].
  - by intros [= <- <-].
  - intros Hup Hv Hall. apply Forall_cons in Hall as [Hd Hr].
    destruct (matches_id thread_id doc).
    + destruct Hd as (i & t & ds & msgs & c & o & -> & Hm).
      revert Hup. unfold thread_doc. cbn [push_field].
      change (dict_get (PStr "messages") _) with (Some (PList msgs)).
      cbn [mbind outcome_bind bind]. intros [= <- <-].
      apply Forall_cons. split; [|done].
      exists i, t, ds, (msgs ++ [v]), c, o. split; [reflexivity|].
      apply Forall_app. split; [done | by apply Forall_singleton].
    + destruct (update_one_push thread_id v rest) as [[m rest'] | e] eqn:Hu;
        cbn [mbind outcome_bind bind] in Hup; [|discriminate].
      injection Hup as <- <-. apply Forall_cons. split; [done|].
      by apply (IH rest' m).
Qed.

(** X21: the thread store holds only thread documents: every store the
    handlers build from the empty collection, with fresh identifiers for
    new threads, consists of documents with the six fields [id],
    [title], [description], [messages], [created_at] and [_id], whose
    messages were all built by [add_message], and no two of them share
    an identifier. *)
Theorem reachable_store_documents (coll : collection) :
  reachable coll -> Forall thread_document coll /\ unique_ids coll.
Proof.
  intros Hreach. split; [|by apply reachable_invariants].
  induction Hreach as [| coll r Hreach IH Hfresh]; [done|].
  destruct r as [body new_id now oid | tid | tid body new_id now | tid mid];
    cbn [serve].
  - destruct (handle_threads_post_store body new_id now oid coll)
      as [-> | (title & description & ->)]; [done|].
    apply Forall_app. split; [done|]. apply Forall_singleton.
    by exists new_id, title, description, [], now, oid.
  - rewrite get_thread_delete. cbn [snd]. by apply delete_one_Forall.
  - unfold add_message.
    destruct (new_message_of tid body new_id now coll) as [[early | message] | e] eqn:E;
      [done | | done].
    pose proof (new_message_of_document _ _ _ _ _ _ E) as Hm.
    destruct (update_one_push tid message coll) as [[n coll'] | e] eqn:Hup; [|done].
    cbn [snd]. by apply (update_one_push_documents _ _ _ _ _ Hup).
  - done.
Qed.

Lemma reachable_store_documents_witness :
  Forall thread_document
    (snd (serve (CreateThread
                   (Return (PDict [(PStr "title", PStr "Exam");
                                   (PStr "description", PStr "About the exam")]))
                   "t-1" "2024-05-01T09:00:00" "65f0") []))
  /\ unique_ids
       (snd (serve (CreateThread
                      (Return (PDict [(PStr "title", PStr "Exam");
                                      (PStr "description", PStr "About the exam")]))
                      "t-1" "2024-05-01T09:00:00" "65f0") [])).
Proof.
  apply (reachable_store_documents
           (snd (serve (CreateThread
                          (Return (PDict [(PStr "title", PStr "Exam");
                                          (PStr "description", PStr "About the exam")]))
                          "t-1" "2024-05-01T09:00:00" "65f0") []))).
  apply reachable_serve; [apply reachable_empty | reflexivity].
Defined.

(** X22: listing the threads changes nothing and, on a store of thread
    documents, answers 200 with every document in order, each without
    its [_id]. *)
Theorem list_threads
    (body : outcome pyval) (new_id now oid : string) (coll : collection) :
  Forall thread_document coll ->
  handle_threads GET body new_id now oid coll
  = (mk_response (PList (map without_oid coll)) 200, coll)
  /\ Forall (fun doc => field "_id" doc = None) (map without_oid coll).
Proof.
  intros Hall.
  assert (Hser : serialisable (PList (map without_oid coll)) = true).
  { rewrite serialisable_list. apply forallb_forall. intros v Hin.
    apply in_map_iff in Hin as (doc & <- & Hdoc).
    rewrite Forall_forall in Hall.
    destruct (Hall doc) as (i & t & ds & msgs & c & o & -> & Hm);
      [by apply list_elem_of_In|].
    by apply (thread_view_serialisable i t ds msgs c). }
  split.
  - unfold handle_threads, respond, jsonify. by rewrite Hser.
  - apply Forall_forall. intros v Hin. apply list_elem_of_In in Hin.
    apply in_map_iff in Hin as (doc & <- & Hdoc).
    rewrite Forall_forall in Hall.
    by destruct (Hall doc) as (i & t & ds & msgs & c & o & -> & Hm);
      [by apply list_elem_of_In|].
Qed.

Lemma thread_document_sample : thread_document sample_thread.
Proof.
  exists "t-1"%string, "Exam"%string, "Questions about the exam"%string,
    [sample_message], "2024-05-01T09:00:00"%string, "65f0"%string.
  split; [reflexivity|]. apply Forall_singleton.
  by exists "m-1"%string, "hello"%string, "ann"%string, "2024-05-01T10:00:00"%string.
Qed.

Lemma list_threads_witness :
  handle_threads GET (Raise (LibraryError "no body")) "unused" "unused" "unused"
    sample_store
  = (mk_response
       (PList [thread_view "t-1" "Exam" "Questions about the exam"
                 [sample_message] "2024-05-01T09:00:00"]) 200,
     sample_store).
Proof.
  apply (list_threads (Raise (LibraryError "no body")) "unused" "unused" "unused"
           sample_store).
  apply Forall_singleton. exact thread_document_sample.
Defined.

(** ** Thread store: fetching and creating *)

Lemma find_one_app_fresh thread_id (coll : collection) doc :
  find_one thread_id coll = None ->
  find_one thread_id (coll ++ [doc])
  = if matches_id thread_id doc then Some doc else None.
Proof.
  unfold find_one. induction coll as [| d rest IH]; cbn [List.find app].
  - intros _. by destruct (matches_id thread_id doc).
  - destruct (matches_id thread_id d); [discriminate | exact IH].
Qed.

(** X23: fetching a thread changes nothing; an identifier that matches
    no document is answered 404, and one that matches a thread document
    is answered 200 with that document without its [_id]. *)
Theorem fetch_thread (thread_id : string) (coll : collection) :
  snd (get_thread GET thread_id coll) = coll
  /\ (find_one thread_id coll = None ->
      fst (get_thread GET thread_id coll)
      = mk_response (error_body "Thread not found") 404)
  /\ (forall i title description messages created_at oid,
        find_one thread_id coll
        = Some (thread_doc i title description messages created_at oid) ->
        Forall message_document messages ->
        fst (get_thread GET thread_id coll)
        = mk_response (thread_view i title description messages created_at) 200).
Proof.
  split; [done|]. split.
  - intros Hnone. unfold get_thread. by rewrite Hnone.
  - intros i t ds msgs c o Hfind Hm. unfold get_thread. rewrite Hfind.
    change (without_oid (thread_doc i t ds msgs c o)) with (thread_view i t ds msgs c).
    cbn [fst py_truthy thread_view]. unfold respond, jsonify.
    fold (thread_view i t ds msgs c).
    by rewrite (thread_view_serialisable i t ds msgs c Hm).
Qed.

Lemma fetch_thread_witness :
  fst (get_thread GET "t-1" sample_store)
  = mk_response
      (thread_view "t-1" "Exam" "Questions about the exam" [sample_message]
         "2024-05-01T09:00:00") 200
  /\ fst (get_thread GET "t-7" sample_store)
     = mk_response (error_body "Thread not found") 404.
Proof.
  destruct (fetch_thread "t-1" sample_store) as (_ & _ & H1).
  destruct (fetch_thread "t-7" sample_store) as (_ & H2 & _).
  split.
  - apply (H1 "t-1"%string "Exam"%string "Questions about the exam"%string
             [sample_message] "2024-05-01T09:00:00"%string "65f0"%string eq_refl).
    apply Forall_singleton.
    by exists "m-1"%string, "hello"%string, "ann"%string, "2024-05-01T10:00:00"%string.
  - by apply H2.
Defined.

(** X24: a thread created under a fresh identifier can be fetched
    under it right away: the answer is 200 with the identifier, the
    trimmed title and description, no messages and the creation time. *)
Theorem create_then_fetch
    (data : pyval) (title description new_id now oid : string) (coll : collection) :
  field "title" data = Some (PStr title) ->
  field "description" data = Some (PStr description) ->
  find_one new_id coll = None ->
  fst (get_thread GET new_id
         (snd (handle_threads POST (Return data) new_id now oid coll)))
  = mk_response
      (thread_view new_id (PyStr.strip title) (PyStr.strip description) [] now)
      200.
Proof.
  intros Ht Hd Hfresh.
  assert (Hsnd : snd (handle_threads POST (Return data) new_id now oid coll)
                 = coll ++ [thread_doc new_id (PyStr.strip title)
                              (PyStr.strip description) [] now oid]).
  { unfold handle_threads. by rewrite (new_thread_of_present _ _ _ _ _ Ht Hd). }
  rewrite Hsnd. unfold get_thread.
  rewrite (find_one_app_fresh _ _ _ Hfresh).
  change (matches_id new_id (thread_doc new_id (PyStr.strip title)
                               (PyStr.strip description) [] now oid))
    with (String.eqb new_id new_id).
  rewrite String.eqb_refl. reflexivity.
Qed.

Lemma create_then_fetch_witness :
  fst (get_thread GET "t-2"
         (snd (handle_threads POST
                 (Return (PDict [(PStr "title", PStr " Exam ");
                                 (PStr "description", PStr "About the exam")]))
                 "t-2" "2024-05-02T08:00:00" "65f1" sample_store)))
  = mk_response (thread_view "t-2" "Exam" "About the exam" [] "2024-05-02T08:00:00")
      200.
Proof.
  apply (create_then_fetch
           (PDict [(PStr "title", PStr " Exam ");
                   (PStr "description", PStr "About the exam")])
           " Exam " "About the exam" "t-2" "2024-05-02T08:00:00" "65f1"
           sample_store); reflexivity.
Defined.

(** X25: a creation request with a string title and description is
    answered 500 ["Internal server error"] although the thread has been
    stored: [insert_one] has put the [ObjectId] into the dictionary that
    the handler then serialises. *)
Theorem create_thread_answer
    (data : pyval) (title description new_id now oid : string) (coll : collection) :
  field "title" data = Some (PStr title) ->
  field "description" data = Some (PStr description) ->
  let result := handle_threads POST (Return data) new_id now oid coll in
  resp_status (fst result) = 500
  /\ field "error" (resp_body (fst result)) = Some (PStr "Internal server error")
  /\ snd result = coll ++ [thread_doc new_id (PyStr.strip title)
                             (PyStr.strip description) [] now oid].
Proof.
  intros Ht Hd result. subst result. unfold handle_threads.
  by rewrite (new_thread_of_present _ _ _ _ _ Ht Hd).
Qed.

Lemma create_thread_answer_witness :
  resp_status
    (fst (handle_threads POST
            (Return (PDict [(PStr "title", PStr "Exam");
                            (PStr "description", PStr "About the exam")]))
            "t-2" "2024-05-02T08:00:00" "65f1" sample_store)) = 500.
Proof.
  apply (create_thread_answer
           (PDict [(PStr "title", PStr "Exam");
                   (PStr "description", PStr "About the exam")])
           "Exam" "About the exam" "t-2" "2024-05-02T08:00:00" "65f1"
           sample_store); reflexivity.
Defined.

(** ** Thread store: deleting, appending and reporting together *)

Lemma find_one_app_found thread_id (before after : collection) doc :
  find_one thread_id before = None -> matches_id thread_id doc = true ->
  find_one thread_id (before ++ doc :: after) = Some doc.
Proof.
  unfold find_one. induction before as [| d rest IH]; cbn [List.find app].
  - intros _ ->. done.
  - destruct (matches_id thread_id d); [discriminate | exact IH].
Qed.

Lemma find_one_app_skip other (before after : collection) doc :
  matches_id other doc = false ->
  find_one other (before ++ doc :: after) = find_one other (before ++ after).
Proof.
  unfold find_one. intros Hm. induction before as [| d rest IH]; cbn [List.find app].
  - by rewrite Hm.
  - by destruct (matches_id other d).
Qed.

Lemma delete_one_found thread_id (coll : collection) thread :
  find_one thread_id coll = Some thread ->
  exists before after,
    coll = before ++ thread :: after
    /\ find_one thread_id before = None
    /\ delete_one thread_id coll = (1, before ++ after).
Proof.
  unfold find_one. induction coll as [| doc rest IH];
    cbn [List.find delete_one]; [discriminate|].
  destruct (matches_id thread_id doc) eqn:E.
  - intros [= ->]. by exists [], rest.
  - intros Hf. destruct (IH Hf) as (before & after & -> & Hb & ->).
    exists (doc :: before), after. repeat split. cbn [List.find]. by rewrite E.
Qed.

(** X26: deleting removes the first document that matches the
    identifier and nothing else: the documents before and after it stay
    in their order, and every identifier that the removed document does
    not match finds what it found before. *)
Theorem delete_removes_first_match
    (thread_id : string) (coll : collection) (thread : pyval) :
  find_one thread_id coll = Some thread ->
  exists before after,
    coll = before ++ thread :: after
    /\ find_one thread_id before = None
    /\ get_thread DELETE thread_id coll
       = (mk_response (PDict [(PStr "message", PStr "Thread deleted successfully")])
            200,
          before ++ after)
    /\ (forall other, matches_id other thread = false ->
          find_one other (before ++ after) = find_one other coll).
Proof.
  intros Hf. destruct (delete_one_found _ _ _ Hf) as (before & after & -> & Hb & Hd).
  exists before, after. repeat split; try done.
  - rewrite get_thread_delete, Hd. reflexivity.
  - intros other Hm. by rewrite find_one_app_skip.
Qed.

Lemma delete_removes_first_match_witness :
  exists before after,
    sample_store = before ++ sample_thread :: after
    /\ find_one "t-1" before = None
    /\ get_thread DELETE "t-1" sample_store
       = (mk_response (PDict [(PStr "message", PStr "Thread deleted successfully")])
            200,
          before ++ after)
    /\ (forall other, matches_id other sample_thread = false ->
          find_one other (before ++ after) = find_one other sample_store).
Proof.
  apply (delete_removes_first_match "t-1" sample_store sample_thread).
  reflexivity.
Defined.

(** What an accepted append does to the store. *)
Lemma add_message_found thread_id data text sender new_id now
    (coll : collection) thread messages :
  field "text" data = Some (PStr text) ->
  field "sender" data = Some (PStr sender) ->
  find_one thread_id coll = Some thread ->
  field "messages" thread = Some (PList messages) ->
  let message := appended_message new_id (PyStr.strip text) (PyStr.strip sender) now in
  exists thread',
    fst (add_message POST thread_id (Return data) new_id now coll)
    = mk_response message 201
    /\ find_one thread_id
         (snd (add_message POST thread_id (Return data) new_id now coll))
       = Some thread'
    /\ field "messages" thread' = Some (PList (messages ++ [message]))
    /\ (forall name, name <> "messages"%string ->
                     field name thread' = field name thread).
Proof.
  intros Ht Hs Hf Hm message. subst message.
  destruct (update_one_push_found thread_id
              (appended_message new_id (PyStr.strip text) (PyStr.strip sender) now)
              coll thread messages Hf Hm)
    as (before & after & d & -> & Hcoll & Hb & Hup).
  unfold add_message. rewrite (new_message_of_present _ _ _ _ _ _ _ Ht Hs), Hf, Hup.
  cbn [fst snd Z.eqb Pos.eqb].
  eexists. split; [reflexivity|]. split; [|split].
  - apply find_one_app_found; [done|].
    apply find_one_some in Hf as [_ Hmatch].
    revert Hmatch. unfold matches_id. cbn [field]. by rewrite dict_get_set_ne.
  - cbn [field]. apply dict_get_set_eq.
  - intros name Hne. cbn [field]. by apply dict_get_set_ne.
Qed.

Lemma report_message_found thread_id message_id (coll : collection) thread messages :
  find_one thread_id coll = Some thread ->
  field "messages" thread = Some (PList messages) ->
  forallb message_shaped messages = true ->
  existsb (message_has_id message_id) messages = true ->
  fst (report_message POST thread_id message_id coll)
  = mk_response (PDict [(PStr "status", PStr "Message reported")]) 200.
Proof.
  intros Hf Hm Hshape Hex. unfold report_message. cbn [fst]. rewrite Hf.
  rewrite (field_some_truthy _ _ _ Hm), (field_getitem _ _ _ Hm).
  cbn [negb mbind outcome_bind bind py_iter].
  rewrite (first_message_shaped _ _ Hshape). cbn [mbind outcome_bind bind].
  rewrite existsb_find in Hex.
  destruct (List.find (message_has_id message_id) messages) as [m|] eqn:Hfind;
    [|discriminate].
  by rewrite (find_message_truthy _ _ _ Hfind).
Qed.

(** X27: a message appended to a thread can be reported under the
    identifier it was given: the report is answered 200. *)
Theorem append_then_report
    (thread_id : string) (data : pyval) (text sender new_id now : string)
    (coll : collection) (thread : pyval) :
  field "text" data = Some (PStr text) ->
  field "sender" data = Some (PStr sender) ->
  find_one thread_id coll = Some thread ->
  thread_shaped thread = true ->
  fst (report_message POST thread_id new_id
         (snd (add_message POST thread_id (Return data) new_id now coll)))
  = mk_response (PDict [(PStr "status", PStr "Message reported")]) 200.
Proof.
  intros Ht Hs Hf Hshape. unfold thread_shaped in Hshape.
  destruct (field "messages" thread) as [[| | | | messages | |]|] eqn:Hm;
    try discriminate.
  destruct (add_message_found thread_id data text sender new_id now coll thread
              messages Ht Hs Hf Hm) as (thread' & _ & Hf' & Hm' & _).
  apply (report_message_found _ _ _ _ _ Hf' Hm').
  - rewrite forallb_app, Hshape. reflexivity.
  - rewrite existsb_app. apply orb_true_iff. right.
    cbn [existsb]. unfold message_has_id, appended_message. cbn [field].
    change (dict_get (PStr "id") _) with (Some (PStr new_id)).
    cbn [py_eqb]. by rewrite String.eqb_refl.
Qed.

Lemma append_then_report_witness :
  fst (report_message POST "t-1" "m-2"
         (snd (add_message POST "t-1"
                 (Return (PDict [(PStr "text", PStr "hi"); (PStr "sender", PStr "bob")]))
                 "m-2" "2024-05-02T08:00:00" sample_store)))
  = mk_response (PDict [(PStr "status", PStr "Message reported")]) 200.
Proof.
  apply (append_then_report "t-1"
           (PDict [(PStr "text", PStr "hi"); (PStr "sender", PStr "bob")])
           "hi" "bob" "m-2" "2024-05-02T08:00:00" sample_store sample_thread);
    reflexivity.
Defined.

(** X28: messages are kept in the order of their arrival: after two
    appends to a thread, its sequence is the one before followed by the
    first and then the second message, and both requests are answered
    201. *)
Theorem two_appends_in_order
    (thread_id : string) (data1 data2 : pyval)
    (text1 sender1 id1 now1 text2 sender2 id2 now2 : string)
    (coll : collection) (thread : pyval) (messages : list pyval) :
  field "text" data1 = Some (PStr text1) ->
  field "sender" data1 = Some (PStr sender1) ->
  field "text" data2 = Some (PStr text2) ->
  field "sender" data2 = Some (PStr sender2) ->
  find_one thread_id coll = Some thread ->
  field "messages" thread = Some (PList messages) ->
  let first := add_message POST thread_id (Return data1) id1 now1 coll in
  let second := add_message POST thread_id (Return data2) id2 now2 (snd first) in
  resp_status (fst first) = 201
  /\ resp_status (fst second) = 201
  /\ exists thread2,
       find_one thread_id (snd second) = Some thread2
       /\ thread_messages thread2
          = messages
            ++ [appended_message id1 (PyStr.strip text1) (PyStr.strip sender1) now1;
                appended_message id2 (PyStr.strip text2) (PyStr.strip sender2) now2].
Proof.
  intros Ht1 Hs1 Ht2 Hs2 Hf Hm first second. subst second first.
  destruct (add_message_found thread_id data1 text1 sender1 id1 now1 coll thread
              messages Ht1 Hs1 Hf Hm) as (thread1 & Hr1 & Hf1 & Hm1 & _).
  destruct (add_message_found thread_id data2 text2 sender2 id2 now2 _ thread1
              _ Ht2 Hs2 Hf1 Hm1) as (thread2 & Hr2 & Hf2 & Hm2 & _).
  rewrite Hr1, Hr2. split; [done|]. split; [done|].
  exists thread2. split; [done|].
  unfold thread_messages. rewrite Hm2. by rewrite <- app_assoc.
Qed.

Lemma two_appends_in_order_witness :
  exists thread2,
    find_one "t-1"
      (snd (add_message POST "t-1"
              (Return (PDict [(PStr "text", PStr "two"); (PStr "sender", PStr "cy")]))
              "m-3" "2024-05-02T08:01:00"
              (snd (add_message POST "t-1"
                      (Return (PDict [(PStr "text", PStr "one");
                                      (PStr "sender", PStr "bob")]))
                      "m-2" "2024-05-02T08:00:00" sample_store))))
    = Some thread2
    /\ thread_messages thread2
       = [sample_message]
         ++ [appended_message "m-2" "one" "bob" "2024-05-02T08:00:00";
             appended_message "m-3" "two" "cy" "2024-05-02T08:01:00"].
Proof.
  destruct (two_appends_in_order "t-1"
              (PDict [(PStr "text", PStr "one"); (PStr "sender", PStr "bob")])
              (PDict [(PStr "text", PStr "two"); (PStr "sender", PStr "cy")])
              "one" "bob" "m-2" "2024-05-02T08:00:00"
              "two" "cy" "m-3" "2024-05-02T08:01:00"
              sample_store sample_thread [sample_message])
    as (_ & _ & H); try reflexivity.
  exact H.
Defined.

(** ** Cleanup at exit when removals are refused *)

Lemma exit_cleanup_from_refused steps : forall (index : nat) (d : gmap string string)
    (und : gset string) (reg : list string) (lg : list log_entry),
  (length reg <= index + steps)%nat ->
  (forall f, f ∈ reg -> f <> EmptyString /\ is_Some (d !! f) /\ f ∈ und) ->
  exit_cleanup_from steps index (mk_files d und reg lg)
  = mk_files d und reg (lg ++ map refusal_warning (drop index reg)).
Proof.
  induction steps as [| steps IH]; intros index d und reg lg Hlen Hfiles.
  - rewrite drop_ge by lia. by rewrite app_nil_r.
  - cbn [exit_cleanup_from temp_files].
    destruct (reg !! index) as [f|] eqn:Hf.
    + destruct (Hfiles f) as (Hne & [c Hc] & Hund);
        [by apply (list_elem_of_lookup_2 _ index)|].
      destruct (cleanup_file_refused f (mk_files d und reg lg) c) as [_ ->];
        [done | done | done |].
      cbn [after disk undeletable temp_files log].
      rewrite IH by (done || lia).
      rewrite (drop_S _ _ _ Hf). cbn [map].
      by rewrite <- app_assoc.
    + apply lookup_ge_None in Hf. rewrite drop_ge by lia. by rewrite app_nil_r.
Qed.

(** X29: when the system refuses every removal, the exit handler visits
    every entry of the registry: it logs one warning per entry, in
    order, and leaves the files and the registry as they were. *)
Theorem exit_cleanup_all_refused (st : files) :
  (forall f, f ∈ temp_files st ->
             f <> EmptyString /\ is_Some (disk st !! f) /\ f ∈ undeletable st) ->
  exit_cleanup st
  = mk_files (disk st) (undeletable st) (temp_files st)
      (log st ++ map refusal_warning (temp_files st)).
Proof.
  intros Hfiles. unfold exit_cleanup. destruct st as [d und reg lg].
  cbn [temp_files disk undeletable log] in *.
  rewrite exit_cleanup_from_refused by (done || lia). by rewrite drop_0.
Qed.

Lemma exit_cleanup_all_refused_witness :
  exit_cleanup
    (mk_files {[ "/tmp/a.pdf"%string := "A"%string; "/tmp/b.pdf"%string := "B"%string ]}
       {[ "/tmp/a.pdf"%string; "/tmp/b.pdf"%string ]}
       ["/tmp/a.pdf"; "/tmp/b.pdf"]%string [])
  = mk_files {[ "/tmp/a.pdf"%string := "A"%string; "/tmp/b.pdf"%string := "B"%string ]}
      {[ "/tmp/a.pdf"%string; "/tmp/b.pdf"%string ]}
      ["/tmp/a.pdf"; "/tmp/b.pdf"]%string
      [refusal_warning "/tmp/a.pdf"; refusal_warning "/tmp/b.pdf"].
Proof.
  rewrite (exit_cleanup_all_refused
             (mk_files {[ "/tmp/a.pdf"%string := "A"%string;
                          "/tmp/b.pdf"%string := "B"%string ]}
                {[ "/tmp/a.pdf"%string; "/tmp/b.pdf"%string ]}
                ["/tmp/a.pdf"; "/tmp/b.pdf"]%string [])); [reflexivity|].
  cbn [temp_files disk undeletable]. intros f Hf.
  repeat (apply elem_of_cons in Hf as [-> | Hf]); [| |by apply elem_of_nil in Hf].
  - split; [discriminate|]. split; [vm_compute; eauto|].
    apply elem_of_union_l. by apply elem_of_singleton.
  - split; [discriminate|]. split; [vm_compute; eauto|].
    apply elem_of_union_r. by apply elem_of_singleton.
Defined.
